(** * Citation extractor: parser and extraction engine

    A shallow embedding of [citation_parser.py] (class [CitationParser]) and
    [citation_extraction_engine.py] (class [CitationExtractionEngine]), with
    the properties of the specification stated and proved over it.

    Modelling conventions.
    - A Python [str] is a Rocq [string]; a character is read as the code
      point 0..255 (Latin-1).  The character classes below ([py_isspace],
      [py_isdecimal], [py_isalnum], [char_lower]) are Python's on that range.
    - A Python [int] is a [Z].  A Python [float] is an exact rational [Q]:
      rounding error is not modelled, and equalities between confidences are
      stated with [==].
    - A [dict] with string keys is a [gmap string _]; the work index, whose
      iteration order is observable, is an association list.
    - Code that can raise returns a [result]; [None] is [option]'s [None].
    - [int()] converts a digit string of any length: the interpreter's
      configurable limit on that length is not modelled.
    - The [re] module is modelled by a backtracking matcher over a regular
      expression syntax tree ([mtch]); each compiled pattern of the source is
      transcribed as such a tree.
    - The corpus is a parameter of the engine: the work index
      [self.literary_works], the content of the files, and the similarity
      [SequenceMatcher(None, a, b).ratio()] of difflib.

    - The construction of the work index takes the files of the corpus
      directory, [Path.stem] and [str.title] as parameters.
    - Of [citation_api_server.py] the lookup endpoint is embedded, over the
      decoded request body.

    Not embedded: the patterns [bible_multiple] and [bible_cross_reference]
    of the parser and the extraction patterns other than [numbered_lines],
    which no method uses. *)

From Stdlib Require Import Ascii String List ZArith QArith Qminmax Qround Lia Lqa Bool Permutation Sorted.
From stdpp Require Import base option list list_numbers gmap strings pretty.

Open Scope string_scope.
Open Scope Z_scope.

(** stdpp keeps [String.append] folded under [simpl]; the proofs below
    unfold it on constructors. *)
#[local] Arguments String.append !_ _ / : simpl nomatch.

(* ================================================================= *)
(** ** Characters *)

Module Char.

Definition code (c : ascii) : N := N_of_ascii c.

Definition between (lo hi : N) (c : ascii) : bool :=
  ((lo <=? code c) && (code c <=? hi))%N.

Definition in_range (lo hi c : ascii) : bool := between (code lo) (code hi) c.

(** [str.isspace] on one character; also what [\s] and [str.strip()] use. *)
Definition py_isspace (c : ascii) : bool :=
  between 9 13 c || between 28 32 c || (code c =? 133)%N || (code c =? 160)%N.

(** [\d] on a [str] pattern: the decimal digits. *)
Definition py_isdecimal (c : ascii) : bool := in_range "0" "9" c.

Definition is_ascii_upper (c : ascii) : bool := in_range "A" "Z" c.
Definition is_ascii_lower (c : ascii) : bool := in_range "a" "z" c.

Definition is_latin1_upper (c : ascii) : bool :=
  between 192 222 c && negb (code c =? 215)%N.
Definition is_latin1_lower_paired (c : ascii) : bool :=
  between 224 254 c && negb (code c =? 247)%N.

(** [str.lower] on one character. *)
Definition char_lower (c : ascii) : ascii :=
  if is_ascii_upper c || is_latin1_upper c then ascii_of_N (code c + 32) else c.

(** The upper-case partner inside the range, used by IGNORECASE. *)
Definition char_upper (c : ascii) : ascii :=
  if is_ascii_lower c || is_latin1_lower_paired c then ascii_of_N (code c - 32) else c.

(** [\w] on a [str] pattern: alphanumeric or underscore. *)
Definition py_isalnum (c : ascii) : bool :=
  py_isdecimal c || is_ascii_upper c || is_ascii_lower c
  || (code c =? 170)%N || (code c =? 178)%N || (code c =? 179)%N
  || (code c =? 181)%N || (code c =? 185)%N || (code c =? 186)%N
  || between 188 190 c
  || between 192 214 c || between 216 246 c || between 248 255 c.

Definition py_isword (c : ascii) : bool := py_isalnum c || (c =? "_")%char.

End Char.

(* ================================================================= *)
(** ** Strings: the [str] methods the source calls *)

Module Str.

Import Char.

Fixpoint map (f : ascii -> ascii) (s : string) : string :=
  match s with
  | EmptyString => EmptyString
  | String c t => String (f c) (map f t)
  end.

Fixpoint forallb (p : ascii -> bool) (s : string) : bool :=
  match s with
  | EmptyString => true
  | String c t => p c && forallb p t
  end.

Fixpoint existsb (p : ascii -> bool) (s : string) : bool :=
  match s with
  | EmptyString => false
  | String c t => p c || existsb p t
  end.

Fixpoint rev_onto (s acc : string) : string :=
  match s with
  | EmptyString => acc
  | String c t => rev_onto t (String c acc)
  end.

Definition rev (s : string) : string := rev_onto s "".

Fixpoint take (n : nat) (s : string) : string :=
  match n, s with
  | S n', String c t => String c (take n' t)
  | _, _ => EmptyString
  end.

Fixpoint drop (n : nat) (s : string) : string :=
  match n, s with
  | S n', String _ t => drop n' t
  | _, _ => s
  end.

Fixpoint drop_while (p : ascii -> bool) (s : string) : string :=
  match s with
  | String c t => if p c then drop_while p t else s
  | EmptyString => EmptyString
  end.

Fixpoint take_while (p : ascii -> bool) (s : string) : string :=
  match s with
  | String c t => if p c then String c (take_while p t) else EmptyString
  | EmptyString => EmptyString
  end.

(** [s.lower()] *)
Definition lower (s : string) : string := map char_lower s.

(** [s.strip()] *)
Definition strip (s : string) : string :=
  rev (drop_while py_isspace (rev (drop_while py_isspace s))).

(** [s.startswith(p)] *)
Fixpoint startswith (p s : string) : bool :=
  match p, s with
  | EmptyString, _ => true
  | String a p', String b s' => (a =? b)%char && startswith p' s'
  | String _ _, EmptyString => false
  end.

(** [s.endswith(p)] *)
Definition endswith (p s : string) : bool := startswith (rev p) (rev s).

(** [sub in s] *)
Fixpoint contains (sub s : string) : bool :=
  startswith sub s ||
  match s with
  | EmptyString => false
  | String _ t => contains sub t
  end.

(** [c in s] for a one-character needle. *)
Fixpoint has_char (c : ascii) (s : string) : bool :=
  match s with
  | EmptyString => false
  | String a t => (a =? c)%char || has_char c t
  end.

(** [s.split(sep)] for a one-character separator: every occurrence cuts,
    empty pieces are kept, and the result is never empty. *)
Fixpoint split (sep : ascii) (s : string) : list string :=
  match s with
  | EmptyString => [EmptyString]
  | String c t =>
      if (c =? sep)%char then EmptyString :: split sep t
      else match split sep t with
           | p :: ps => String c p :: ps
           | [] => [String c EmptyString]
           end
  end.

(** [s.replace(old, new)] for a one-character [old]. *)
Fixpoint replace (old : ascii) (new : string) (s : string) : string :=
  match s with
  | EmptyString => EmptyString
  | String c t =>
      if (c =? old)%char then new ++ replace old new t
      else String c (replace old new t)
  end.

(** [sep.join(parts)] *)
Fixpoint join (sep : string) (parts : list string) : string :=
  match parts with
  | [] => EmptyString
  | [p] => p
  | p :: ps => p ++ sep ++ join sep ps
  end.

(** [str(n)] for an [int]. *)
Definition of_int (n : Z) : string := pretty n.

(** [bool(s)]: a string is truthy when it is not empty. *)
Definition truthy (s : string) : bool :=
  match s with EmptyString => false | _ => true end.

End Str.

(* ================================================================= *)
(** ** Exceptions *)

Inductive exn : Type :=
| KeyError (key : string)
| ValueError
| TypeError
| AttributeError.

Inductive result (A : Type) : Type :=
| Ok (a : A)
| Raise (e : exn).

Arguments Ok {A} a.
Arguments Raise {A} e.

Definition bind {A B : Type} (m : result A) (f : A -> result B) : result B :=
  match m with
  | Ok a => f a
  | Raise e => Raise e
  end.

Notation "'let*' x ':=' m 'in' k" := (bind m (fun x => k))
  (at level 10, x name, m at level 100, k at level 200).

(** A loop whose body can raise: the first exception ends it. *)
Fixpoint mapM {A B : Type} (f : A -> result B) (l : list A) : result (list B) :=
  match l with
  | [] => Ok []
  | a :: t => let* b := f a in let* bs := mapM f t in Ok (b :: bs)
  end.

(** [int(s)] on a string of decimal digits; anything else is a [ValueError].
    The source only converts [\d+] captures. *)
Module PyInt.

Definition digit (c : ascii) : option Z :=
  if Char.py_isdecimal c then Some (Z.of_N (Char.code c) - 48) else None.

Fixpoint go (acc : Z) (s : string) : option Z :=
  match s with
  | EmptyString => Some acc
  | String c t =>
      match digit c with
      | Some d => go (10 * acc + d) t
      | None => None
      end
  end.

Definition parse (s : string) : result Z :=
  match s with
  | EmptyString => Raise ValueError
  | _ => match go 0 s with Some z => Ok z | None => Raise ValueError end
  end.

End PyInt.

(* ================================================================= *)
(** ** Regular expressions: the fragment of [re] the source uses *)

Module Re.

Import Char.

(** Members of a bracket expression, and the escapes [\d] [\s] [\w] [.]. *)
Inductive charset : Type :=
| CLit (c : ascii)
| CRange (lo hi : ascii)
| CDigit
| CSpace
| CWord
| CDot
| CUnion (a b : charset)
| CNeg (a : charset).

Inductive regex : Type :=
| Eps
| Chr (set : charset)
| Seq (r1 r2 : regex)
| Alt (r1 r2 : regex)
| Star (greedy : bool) (r : regex)
| Group (i : nat) (r : regex)
| Bos
| Eos
| WordB.

(** [r+], [r+?], [r*], [r*?], [r?] and a literal word. *)
Definition Plus (r : regex) : regex := Seq r (Star true r).
Definition PlusLazy (r : regex) : regex := Seq r (Star false r).
Definition Many (r : regex) : regex := Star true r.
Definition ManyLazy (r : regex) : regex := Star false r.
Definition Opt (r : regex) : regex := Alt r Eps.
Definition Lit (c : ascii) : regex := Chr (CLit c).

Fixpoint Word (s : string) : regex :=
  match s with
  | EmptyString => Eps
  | String c EmptyString => Lit c
  | String c t => Seq (Lit c) (Word t)
  end.

Declare Scope re_scope.
Delimit Scope re_scope with re.
Bind Scope re_scope with regex.
Infix "⋅" := Seq (at level 40, left associativity) : re_scope.

(** Plain membership, then membership under the IGNORECASE flag [ic]:
    a character is in the set when it, its lower-case or its upper-case
    form is. *)
Fixpoint mem (set : charset) (c : ascii) : bool :=
  match set with
  | CLit a => (c =? a)%char
  | CRange lo hi => in_range lo hi c
  | CDigit => py_isdecimal c
  | CSpace => py_isspace c
  | CWord => py_isword c
  | CDot => negb (c =? "010")%char
  | CUnion a b => mem a c || mem b c
  | CNeg a => negb (mem a c)
  end.

Fixpoint in_charset (ic : bool) (set : charset) (c : ascii) : bool :=
  match set with
  | CUnion a b => in_charset ic a c || in_charset ic b c
  | CNeg a => negb (in_charset ic a c)
  | _ => mem set c || (ic && (mem set (char_lower c) || mem set (char_upper c)))
  end.

(** The matcher's position: the character before it and what is left. *)
Record cursor : Type := Cursor { prev : option ascii; rest : string }.

(** Captured groups, most recent first. *)
Definition caps : Type := list (nat * string).

Fixpoint group (cs : caps) (i : nat) : option string :=
  match cs with
  | [] => None
  | (j, w) :: t => if Nat.eqb i j then Some w else group t i
  end.

Definition consumed (from to : cursor) : string :=
  Str.take (String.length (rest from) - String.length (rest to)) (rest from).

Definition orelse {A : Type} (x y : option A) : option A :=
  match x with Some _ => x | None => y end.

Definition at_word_boundary (cu : cursor) : bool :=
  let before := match prev cu with Some c => py_isword c | None => false end in
  let after := match rest cu with String c _ => py_isword c | EmptyString => false end in
  xorb before after.

(** [$] without MULTILINE: the end, or just before a final newline. *)
Definition at_end (cu : cursor) : bool :=
  match rest cu with
  | EmptyString => true
  | String c EmptyString => (c =? "010")%char
  | _ => false
  end.

Section Matcher.

Context {A : Type}.
Variable ic : bool.

Definition cont : Type := cursor -> caps -> option A.

(** Repetition.  [n] bounds the iterations left; every iteration must
    consume a character, so the length of the remaining input is always
    enough.  Greedy repetition tries one more iteration first, lazy
    repetition tries the continuation first. *)
Fixpoint star_loop (body : cursor -> caps -> cont -> option A) (greedy : bool)
    (k : cont) (n : nat) (cu : cursor) (cs : caps) : option A :=
  let again :=
    match n with
    | O => None
    | S n' =>
        body cu cs (fun cu' cs' =>
          if (String.length (rest cu') <? String.length (rest cu))%nat
          then star_loop body greedy k n' cu' cs'
          else None)
    end in
  if greedy then orelse again (k cu cs) else orelse (k cu cs) again.

(** Backtracking matcher in continuation-passing style: [k] is the rest
    of the pattern; the first success, in the order [re] explores, wins. *)
Fixpoint mtch (r : regex) : cursor -> caps -> cont -> option A :=
  match r with
  | Eps => fun cu cs k => k cu cs
  | Chr set => fun cu cs k =>
      match rest cu with
      | String c t => if in_charset ic set c then k (Cursor (Some c) t) cs else None
      | EmptyString => None
      end
  | Seq r1 r2 => fun cu cs k => mtch r1 cu cs (fun cu' cs' => mtch r2 cu' cs' k)
  | Alt r1 r2 => fun cu cs k => orelse (mtch r1 cu cs k) (mtch r2 cu cs k)
  | Star g r1 => fun cu cs k => star_loop (mtch r1) g k (String.length (rest cu)) cu cs
  | Group i r1 => fun cu cs k =>
      mtch r1 cu cs (fun cu' cs' => k cu' ((i, consumed cu cu') :: cs'))
  | Bos => fun cu cs k => match prev cu with None => k cu cs | Some _ => None end
  | Eos => fun cu cs k => if at_end cu then k cu cs else None
  | WordB => fun cu cs k => if at_word_boundary cu then k cu cs else None
  end.

End Matcher.

(** A compiled pattern: the tree and its IGNORECASE flag. *)
Record pattern : Type := Pattern { p_icase : bool; p_re : regex }.

Definition accept : @cont (cursor * caps) := fun cu cs => Some (cu, cs).

Definition match_at (p : pattern) (cu : cursor) : option (cursor * caps) :=
  mtch (p_icase p) (p_re p) cu [] accept.

(** [p.match(s)]: the captures of a match at the start of [s]. *)
Definition re_match (p : pattern) (s : string) : option caps :=
  option_map snd (match_at p (Cursor None s)).

(** [p.search(s)]: the leftmost position where a match starts. *)
Fixpoint search_from (p : pattern) (before : option ascii) (s : string) : option caps :=
  match match_at p (Cursor before s) with
  | Some (_, cs) => Some cs
  | None =>
      match s with
      | String c t => search_from p (Some c) t
      | EmptyString => None
      end
  end.

Definition re_search (p : pattern) (s : string) : option caps := search_from p None s.

(** [p.sub(repl, s)]: non-overlapping matches left to right, each replaced
    by [repl] expanded over its captures.  [skip] counts the characters of
    the current match still to be passed over. *)
Fixpoint sub_go (p : pattern) (repl : caps -> string) (before : option ascii)
    (s : string) (skip : nat) : string :=
  match skip with
  | S skip' =>
      match s with
      | String c t => sub_go p repl (Some c) t skip'
      | EmptyString => EmptyString
      end
  | O =>
      match match_at p (Cursor before s) with
      | Some (cu', cs) =>
          match (String.length s - String.length (rest cu'))%nat with
          | O =>
              repl cs ++
              match s with
              | String c t => String c (sub_go p repl (Some c) t O)
              | EmptyString => EmptyString
              end
          | S len' =>
              repl cs ++
              match s with
              | String c t => sub_go p repl (Some c) t len'
              | EmptyString => EmptyString
              end
          end
      | None =>
          match s with
          | String c t => String c (sub_go p repl (Some c) t O)
          | EmptyString => EmptyString
          end
      end
  end.

Definition re_sub (p : pattern) (repl : caps -> string) (s : string) : string :=
  sub_go p repl None s O.

(** A group that took no part in the match expands to the empty string. *)
Definition group_or_empty (cs : caps) (i : nat) : string :=
  match group cs i with Some w => w | None => EmptyString end.

End Re.

Import Re.

(* ================================================================= *)
(** ** Dynamic values stored in dictionaries *)

Inductive pyval : Type :=
| VStr (s : string)
| VInt (n : Z).

(** [bool(v)]: zero and the empty string are falsy. *)
Definition truthy (v : pyval) : bool :=
  match v with
  | VStr s => Str.truthy s
  | VInt n => negb (n =? 0)
  end.

Definition truthy_opt {A : Type} (t : A -> bool) (v : option A) : bool :=
  match v with Some a => t a | None => false end.

Definition int_truthy (n : Z) : bool := negb (n =? 0).

(** The receiver of a [str] method: calling it on [None] raises. *)
Definition str_receiver (v : option string) : result string :=
  match v with Some s => Ok s | None => Raise AttributeError end.

(** [int(v)] where [v] is a group: [int(None)] is a [TypeError]. *)
Definition py_int (v : option string) : result Z :=
  match v with Some s => PyInt.parse s | None => Raise TypeError end.

(* ================================================================= *)
(** ** citation_parser.py *)

Record CitationResult : Type := mkCitationResult {
  type : string;
  work : option string;
  book : option string;
  chapter : option Z;
  start_verse : option Z;
  end_verse : option Z;
  start_line : option Z;
  end_line : option Z;
  act : option string;
  scene : option string;
  book_number : option string
}.

Module Patterns.

Definition letter : charset := CUnion (CRange "A" "Z") (CRange "a" "z").
Definition letter_or_space : charset := CUnion letter CSpace.
Definition digits : regex := Plus (Chr CDigit).
Definition spaces : regex := Plus (Chr CSpace).
Definition opt_spaces : regex := Many (Chr CSpace).
Definition letters : regex := Plus (Chr letter).

(** bible_standard:
    ( [1-3]? \s* [A-Za-z]+ (?:\s+of\s+[A-Za-z]+)? (?:\s+[A-Za-z]+)* )
    \s+ (\d+) : (\d+) (?:-(\d+))?        (tokens spaced out for reading) *)
Definition bible_standard : pattern :=
  Pattern true
    (Group 1 (Opt (Chr (CRange "1" "3")) ⋅ opt_spaces ⋅ letters
              ⋅ Opt (spaces ⋅ Word "of" ⋅ spaces ⋅ letters)
              ⋅ Many (spaces ⋅ letters))
     ⋅ spaces ⋅ Group 2 digits ⋅ Lit ":" ⋅ Group 3 digits
     ⋅ Opt (Lit "-" ⋅ Group 4 digits))%re.

(** literature_simple:
    ([A-Za-z\s]+?) \.? \s+ (\d+) (?:-(\d+))? \.? $ *)
Definition literature_simple : pattern :=
  Pattern true
    (Group 1 (PlusLazy (Chr letter_or_space)) ⋅ Opt (Lit ".") ⋅ spaces
     ⋅ Group 2 digits ⋅ Opt (Lit "-" ⋅ Group 3 digits) ⋅ Opt (Lit ".") ⋅ Eos)%re.

(** literature_book:
    ([A-Za-z\s]+?) \s+ (?:Book\s+)? ([IVX]+|[0-9]+) [\.,] \s* (\d+) (?:-(\d+))? *)
Definition literature_book : pattern :=
  Pattern true
    (Group 1 (PlusLazy (Chr letter_or_space)) ⋅ spaces
     ⋅ Opt (Word "Book" ⋅ spaces)
     ⋅ Group 2 (Alt (Plus (Chr (CUnion (CLit "I") (CUnion (CLit "V") (CLit "X")))))
                    (Plus (Chr (CRange "0" "9"))))
     ⋅ Chr (CUnion (CLit ".") (CLit ",")) ⋅ opt_spaces
     ⋅ Group 3 digits ⋅ Opt (Lit "-" ⋅ Group 4 digits))%re.

(** literature_drama:
    ([A-Za-z\s]+?) \s+ Act \s+ (\d+) \s+ Scene \s+ (\d+) ,? \s+ (\d+) (?:-(\d+))? *)
Definition literature_drama : pattern :=
  Pattern true
    (Group 1 (PlusLazy (Chr letter_or_space)) ⋅ spaces ⋅ Word "Act" ⋅ spaces
     ⋅ Group 2 digits ⋅ spaces ⋅ Word "Scene" ⋅ spaces ⋅ Group 3 digits
     ⋅ Opt (Lit ",") ⋅ spaces ⋅ Group 4 digits ⋅ Opt (Lit "-" ⋅ Group 5 digits))%re.

(** mixed_reference:   cf\. \s* ([^;]+) ; \s* ([^;]+) *)
Definition mixed_reference : pattern :=
  Pattern true
    (Word "cf." ⋅ opt_spaces ⋅ Group 1 (Plus (Chr (CNeg (CLit ";")))) ⋅ Lit ";"
     ⋅ opt_spaces ⋅ Group 2 (Plus (Chr (CNeg (CLit ";")))))%re.

(** The three patterns [normalizeBookNames] uses inline, without flags:
    \s+   and   ^ \d+ \s* [a-z]+   and   ^ (\d+) \s* ([a-z]+) *)
Definition whitespace_run : pattern := Pattern false spaces.

Definition lower_letters : regex := Plus (Chr (CRange "a" "z")).

Definition numbered_book : pattern :=
  Pattern false (Bos ⋅ digits ⋅ opt_spaces ⋅ lower_letters)%re.

Definition numbered_book_groups : pattern :=
  Pattern false (Bos ⋅ Group 1 digits ⋅ opt_spaces ⋅ Group 2 lower_letters)%re.

End Patterns.

(** [_buildBiblicalBookDatabase]: the literal, in source order. *)
Definition biblical_books_items : list (string * string) :=
  [ ("genesis", "Genesis"); ("gen", "Genesis"); ("ge", "Genesis");
    ("exodus", "Exodus"); ("exod", "Exodus"); ("ex", "Exodus");
    ("leviticus", "Leviticus"); ("lev", "Leviticus"); ("le", "Leviticus");
    ("numbers", "Numbers"); ("num", "Numbers"); ("nu", "Numbers");
    ("deuteronomy", "Deuteronomy"); ("deut", "Deuteronomy"); ("dt", "Deuteronomy");
    ("joshua", "Joshua"); ("josh", "Joshua"); ("jos", "Joshua");
    ("judges", "Judges"); ("judg", "Judges"); ("jdg", "Judges");
    ("ruth", "Ruth"); ("ru", "Ruth"); ("1 samuel", "1 Samuel");
    ("1sam", "1 Samuel"); ("1sa", "1 Samuel"); ("2 samuel", "2 Samuel");
    ("2sam", "2 Samuel"); ("2sa", "2 Samuel"); ("1 kings", "1 Kings");
    ("1kgs", "1 Kings"); ("1ki", "1 Kings"); ("2 kings", "2 Kings");
    ("2kgs", "2 Kings"); ("2ki", "2 Kings"); ("1 chronicles", "1 Chronicles");
    ("1chr", "1 Chronicles"); ("1ch", "1 Chronicles"); ("2 chronicles", "2 Chronicles");
    ("2chr", "2 Chronicles"); ("2ch", "2 Chronicles"); ("ezra", "Ezra");
    ("ezr", "Ezra"); ("nehemiah", "Nehemiah"); ("neh", "Nehemiah");
    ("ne", "Nehemiah"); ("esther", "Esther"); ("est", "Esther");
    ("es", "Esther"); ("job", "Job"); ("jb", "Job");
    ("psalms", "Psalms"); ("psalm", "Psalms"); ("ps", "Psalms");
    ("psa", "Psalms"); ("proverbs", "Proverbs"); ("prov", "Proverbs");
    ("pr", "Proverbs"); ("ecclesiastes", "Ecclesiastes"); ("eccl", "Ecclesiastes");
    ("ec", "Ecclesiastes"); ("song of solomon", "Song of Solomon"); ("song of songs", "Song of Solomon");
    ("song", "Song of Solomon"); ("so", "Song of Solomon"); ("sos", "Song of Solomon");
    ("isaiah", "Isaiah"); ("isa", "Isaiah"); ("is", "Isaiah");
    ("jeremiah", "Jeremiah"); ("jer", "Jeremiah"); ("je", "Jeremiah");
    ("lamentations", "Lamentations"); ("lam", "Lamentations"); ("la", "Lamentations");
    ("ezekiel", "Ezekiel"); ("ezek", "Ezekiel"); ("eze", "Ezekiel");
    ("daniel", "Daniel"); ("dan", "Daniel"); ("da", "Daniel");
    ("hosea", "Hosea"); ("hos", "Hosea"); ("ho", "Hosea");
    ("joel", "Joel"); ("joe", "Joel"); ("amos", "Amos");
    ("am", "Amos"); ("obadiah", "Obadiah"); ("obad", "Obadiah");
    ("ob", "Obadiah"); ("jonah", "Jonah"); ("jon", "Jonah");
    ("micah", "Micah"); ("mic", "Micah"); ("mi", "Micah");
    ("nahum", "Nahum"); ("nah", "Nahum"); ("na", "Nahum");
    ("habakkuk", "Habakkuk"); ("hab", "Habakkuk"); ("hb", "Habakkuk");
    ("zephaniah", "Zephaniah"); ("zeph", "Zephaniah"); ("zep", "Zephaniah");
    ("haggai", "Haggai"); ("hag", "Haggai"); ("hg", "Haggai");
    ("zechariah", "Zechariah"); ("zech", "Zechariah"); ("zec", "Zechariah");
    ("malachi", "Malachi"); ("mal", "Malachi"); ("matthew", "Matthew");
    ("matt", "Matthew"); ("mt", "Matthew"); ("mark", "Mark");
    ("mk", "Mark"); ("luke", "Luke"); ("lk", "Luke");
    ("john", "John"); ("jn", "John"); ("acts", "Acts");
    ("ac", "Acts"); ("romans", "Romans"); ("rom", "Romans");
    ("ro", "Romans"); ("1 corinthians", "1 Corinthians"); ("1cor", "1 Corinthians");
    ("1co", "1 Corinthians"); ("2 corinthians", "2 Corinthians"); ("2cor", "2 Corinthians");
    ("2co", "2 Corinthians"); ("galatians", "Galatians"); ("gal", "Galatians");
    ("ga", "Galatians"); ("ephesians", "Ephesians"); ("eph", "Ephesians");
    ("ep", "Ephesians"); ("philippians", "Philippians"); ("phil", "Philippians");
    ("php", "Philippians"); ("colossians", "Colossians"); ("col", "Colossians");
    ("1 thessalonians", "1 Thessalonians"); ("1thess", "1 Thessalonians"); ("1th", "1 Thessalonians");
    ("2 thessalonians", "2 Thessalonians"); ("2thess", "2 Thessalonians"); ("2th", "2 Thessalonians");
    ("1 timothy", "1 Timothy"); ("1tim", "1 Timothy"); ("1ti", "1 Timothy");
    ("2 timothy", "2 Timothy"); ("2tim", "2 Timothy"); ("2ti", "2 Timothy");
    ("titus", "Titus"); ("tit", "Titus"); ("ti", "Titus");
    ("philemon", "Philemon"); ("phlm", "Philemon"); ("phm", "Philemon");
    ("hebrews", "Hebrews"); ("heb", "Hebrews"); ("james", "James");
    ("jas", "James"); ("ja", "James"); ("1 peter", "1 Peter");
    ("1pet", "1 Peter"); ("1pe", "1 Peter"); ("2 peter", "2 Peter");
    ("2pet", "2 Peter"); ("2pe", "2 Peter"); ("1 john", "1 John");
    ("1jn", "1 John"); ("2 john", "2 John"); ("2jn", "2 John");
    ("3 john", "3 John"); ("3jn", "3 John"); ("jude", "Jude");
    ("jd", "Jude"); ("revelation", "Revelation"); ("rev", "Revelation");
    ("re", "Revelation") ].

Definition biblical_books : gmap string string := list_to_map biblical_books_items.

(** [normalizeBookNames] *)
Definition normalizeBookNames (book_name : string) : option string :=
  let clean_name := Str.lower (Str.strip book_name) in
  let clean_name := re_sub Patterns.whitespace_run (fun _ => " ") clean_name in
  let clean_name :=
    match re_match Patterns.numbered_book clean_name with
    | Some _ =>
        re_sub Patterns.numbered_book_groups
          (fun m => group_or_empty m 1 ++ " " ++ group_or_empty m 2) clean_name
    | None => clean_name
    end in
  match biblical_books !! clean_name with
  | Some canonical => Some canonical
  | None =>
      let no_space := Str.replace " " "" clean_name in
      biblical_books !! no_space
  end.

(** [identifySourceType] *)
Definition identifySourceType (citation : string) : result string :=
  if Str.contains "cf." (Str.lower citation) && Str.has_char ";" citation then Ok "mixed"
  else
    let* biblical :=
      match re_search Patterns.bible_standard citation with
      | Some biblical_match =>
          let* book_candidate := str_receiver (group biblical_match 1) in
          Ok (truthy_opt Str.truthy (normalizeBookNames book_candidate))
      | None => Ok false
      end in
    if biblical then Ok "bible"
    else if Str.has_char ";" citation && Str.has_char ":" citation then Ok "bible"
    else Ok "literature".

(** The branch of [_parseBiblicalCitation] for a citation without [;]. *)
Definition parse_single_biblical (citation : string) : result (list CitationResult) :=
  match re_match Patterns.bible_standard (Str.strip citation) with
  | Some m =>
      let* book_name := Ok (group m 1) in
      let* chapter_ := py_int (group m 2) in
      let* start_verse_ := py_int (group m 3) in
      let* end_verse_ :=
        (if truthy_opt Str.truthy (group m 4) then py_int (group m 4) else Ok start_verse_) in
      let* book_name := str_receiver book_name in
      match normalizeBookNames book_name with
      | Some normalized_book =>
          if Str.truthy normalized_book
          then Ok [ mkCitationResult "bible" None (Some normalized_book) (Some chapter_)
                      (Some start_verse_) (Some end_verse_) None None None None None ]
          else Ok []
      | None => Ok []
      end
  | None => Ok []
  end.

(** [_parseBiblicalCitation].  The method calls itself on the pieces of
    [citation.split(';')]; [depth] bounds the nesting of those calls, and
    [parseBiblical_depth] below shows that one level is all that is used. *)
Fixpoint parseBiblical_rec (depth : nat) (citation : string) : result (list CitationResult) :=
  if Str.has_char ";" citation then
    match depth with
    | O => Ok []
    | S d =>
        let parts := map Str.strip (Str.split ";" citation) in
        let* results := mapM (parseBiblical_rec d) parts in
        Ok (concat results)
    end
  else parse_single_biblical citation.

Definition _parseBiblicalCitation (citation : string) : result (list CitationResult) :=
  parseBiblical_rec 1 citation.

(** [_parseLiteraryCitation] *)
Definition _parseLiteraryCitation (citation : string) : result (list CitationResult) :=
  match re_match Patterns.literature_drama citation with
  | Some drama_match =>
      let* work_ := str_receiver (group drama_match 1) in
      let work_ := Str.strip work_ in
      let act_ := group drama_match 2 in
      let scene_ := group drama_match 3 in
      let* start_line_ := py_int (group drama_match 4) in
      let* end_line_ :=
        (if truthy_opt Str.truthy (group drama_match 5)
         then py_int (group drama_match 5) else Ok start_line_) in
      Ok [ mkCitationResult "literature" (Some work_) None None None None
             (Some start_line_) (Some end_line_) act_ scene_ None ]
  | None =>
  match re_match Patterns.literature_book citation with
  | Some book_match =>
      let* work_ := str_receiver (group book_match 1) in
      let work_ := Str.strip work_ in
      let book_number_ := group book_match 2 in
      let* start_line_ := py_int (group book_match 3) in
      let* end_line_ :=
        (if truthy_opt Str.truthy (group book_match 4)
         then py_int (group book_match 4) else Ok start_line_) in
      Ok [ mkCitationResult "literature" (Some work_) None None None None
             (Some start_line_) (Some end_line_) None None book_number_ ]
  | None =>
  match re_match Patterns.literature_simple citation with
  | Some simple_match =>
      let* work_ := str_receiver (group simple_match 1) in
      let work_ := Str.strip work_ in
      let* start_line_ := py_int (group simple_match 2) in
      let* end_line_ :=
        (if truthy_opt Str.truthy (group simple_match 3)
         then py_int (group simple_match 3) else Ok start_line_) in
      Ok [ mkCitationResult "literature" (Some work_) None None None None
             (Some start_line_) (Some end_line_) None None None ]
  | None => Ok []
  end end end.

(** One side of a mixed citation: classified, then parsed by that rule. *)
Definition parse_reference (ref : string) : result (list CitationResult) :=
  let* ref_type := identifySourceType ref in
  if String.eqb ref_type "bible" then _parseBiblicalCitation ref
  else _parseLiteraryCitation ref.

(** [_parseMixedCitation] *)
Definition _parseMixedCitation (citation : string) : result (list CitationResult) :=
  match re_match Patterns.mixed_reference citation with
  | Some mixed_match =>
      let* first_ref := str_receiver (group mixed_match 1) in
      let first_ref := Str.strip first_ref in
      let* second_ref := str_receiver (group mixed_match 2) in
      let second_ref := Str.strip second_ref in
      let* first := parse_reference first_ref in
      let* second := parse_reference second_ref in
      Ok (first ++ second)%list
  | None => Ok []
  end.

(** The loop of [parseCitation] that turns a [CitationResult] into a
    dictionary: a field is stored only when it is truthy. *)
Definition put_str (key : string) (v : option string) (d : gmap string pyval) : gmap string pyval :=
  if truthy_opt Str.truthy v then
    match v with Some s => <[key := VStr s]> d | None => d end
  else d.

Definition put_int (key : string) (v : option Z) (d : gmap string pyval) : gmap string pyval :=
  if truthy_opt int_truthy v then
    match v with Some n => <[key := VInt n]> d | None => d end
  else d.

Definition citation_dict (citation : CitationResult) : gmap string pyval :=
  let result_dict : gmap string pyval := {[ "type" := VStr (type citation) ]} in
  let result_dict := put_str "work" (work citation) result_dict in
  let result_dict := put_str "book" (book citation) result_dict in
  let result_dict := put_int "chapter" (chapter citation) result_dict in
  let result_dict := put_int "start_verse" (start_verse citation) result_dict in
  let result_dict := put_int "end_verse" (end_verse citation) result_dict in
  let result_dict := put_int "start_line" (start_line citation) result_dict in
  let result_dict := put_int "end_line" (end_line citation) result_dict in
  let result_dict := put_str "act" (act citation) result_dict in
  let result_dict := put_str "scene" (scene citation) result_dict in
  let result_dict := put_str "book_number" (book_number citation) result_dict in
  result_dict.

Record ParseResult : Type := mkParseResult {
  citations : list (gmap string pyval);
  source_type : string;
  original_text : string
}.

(** The [CitationResult] list [parseCitation] builds before converting it. *)
Definition parse_references (footnote_text : string) : result (string * list CitationResult) :=
  let* source_type_ := identifySourceType footnote_text in
  let* citations_ :=
    (if String.eqb source_type_ "bible" then _parseBiblicalCitation footnote_text
     else if String.eqb source_type_ "literature" then _parseLiteraryCitation footnote_text
     else if String.eqb source_type_ "mixed" then _parseMixedCitation footnote_text
     else Ok []) in
  Ok (source_type_, citations_).

(** [parseCitation] *)
Definition parseCitation (footnote_text : string) : result ParseResult :=
  let footnote_text := Str.strip footnote_text in
  let* parsed := parse_references footnote_text in
  let citation_dicts := map citation_dict (snd parsed) in
  Ok (mkParseResult citation_dicts (fst parsed) footnote_text).

(* ================================================================= *)
(** ** citation_extraction_engine.py *)

Record PassageCandidate : Type := mkPassageCandidate {
  source : string;
  confidence : Q;
  text : string;
  metadata : gmap string pyval;
  start_position : option Z;
  end_position : option Z
}.

(** An entry of [self.literary_works]. *)
Record WorkInfo : Type := mkWorkInfo {
  file_path : string;
  work_metadata : gmap string pyval;
  normalized_title : string
}.

Module EnginePatterns.

(** numbered_lines:   ^ \s* \d+ \s* [.:]? \s*   (no flags) *)
Definition numbered_lines : pattern :=
  Pattern false
    (Bos ⋅ Patterns.opt_spaces ⋅ Patterns.digits ⋅ Patterns.opt_spaces
     ⋅ Opt (Chr (CUnion (CLit ".") (CLit ":"))) ⋅ Patterns.opt_spaces)%re.

(** The inline patterns of [_normalizeTitle]:
    \b(the|a|an)\b   and   [^\w\s]   and   \s+ *)
Definition articles : pattern :=
  Pattern false
    (WordB ⋅ Group 1 (Alt (Word "the") (Alt (Word "a") (Word "an"))) ⋅ WordB)%re.

Definition punctuation : pattern :=
  Pattern false (Chr (CNeg (CUnion CWord CSpace))).

(** The inline patterns of [_calculateTextQuality]:   [.!?]   and   \[.*?\] *)
Definition sentence_end : pattern :=
  Pattern false (Chr (CUnion (CLit ".") (CUnion (CLit "!") (CLit "?")))).

Definition bracketed : pattern :=
  Pattern false (Lit "[" ⋅ ManyLazy (Chr CDot) ⋅ Lit "]")%re.

End EnginePatterns.

(** *** Lists and numbers as Python has them *)

(** [l[lo:hi]] with Python's treatment of negative and oversized bounds. *)
Definition slice_bound (n i : Z) : Z :=
  if i <? 0 then Z.max (i + n) 0 else Z.min i n.

Definition py_slice {A : Type} (l : list A) (lo hi : Z) : list A :=
  let n := Z.of_nat (length l) in
  let lo' := slice_bound n lo in
  let hi' := slice_bound n hi in
  firstn (Z.to_nat (hi' - lo')) (skipn (Z.to_nat lo') l).

(** [range(lo, hi)] *)
Definition py_range (lo hi : Z) : list Z := seqZ lo (hi - lo).

(** [l.sort(key=..., reverse=True)]: descending by key, and equal keys keep
    the order they had (Python's sort is stable, also when reversed). *)
Fixpoint insert_desc {A : Type} (key : A -> Q) (x : A) (l : list A) : list A :=
  match l with
  | [] => [x]
  | y :: t => if Qle_bool (key y) (key x) then x :: l else y :: insert_desc key x t
  end.

Definition sort_desc {A : Type} (key : A -> Q) (l : list A) : list A :=
  fold_right (insert_desc key) [] l.

(** [sum(values)] and [round(x, 3)] on rationals. *)
Definition Qsum (l : list Q) : Q := fold_left Qplus l 0%Q.

Definition round_half_even (q : Q) : Z :=
  let n := Qfloor q in
  match (q - inject_Z n ?= 1 # 2)%Q with
  | Lt => n
  | Gt => n + 1
  | Eq => if Z.even n then n else n + 1
  end.

Definition py_round3 (q : Q) : Q := (inject_Z (round_half_even (q * 1000)) / 1000)%Q.

(** *** Dictionary access *)

(** [d[key]] *)
Definition getitem (d : gmap string pyval) (key : string) : result pyval :=
  match d !! key with
  | Some v => Ok v
  | None => Raise (KeyError key)
  end.

(** [d.get(key, default)] *)
Definition get_default (d : gmap string pyval) (key : string) (default : pyval) : pyval :=
  match d !! key with
  | Some v => v
  | None => default
  end.

(** [bool(d.get(key))] *)
Definition get_truthy (d : gmap string pyval) (key : string) : bool :=
  truthy_opt truthy (d !! key).

(** A dictionary value used as a string or as an integer.  [citation_dict]
    stores strings under the text keys and integers under the numeric keys,
    so on the parser's dictionaries these projections do not raise. *)
Definition as_str (v : pyval) : result string :=
  match v with VStr s => Ok s | VInt _ => Raise TypeError end.

Definition as_int (v : pyval) : result Z :=
  match v with VInt n => Ok n | VStr _ => Raise TypeError end.

(** [v.lower()]: only strings have the method. *)
Definition lower_method (v : pyval) : result string :=
  match v with VStr s => Ok (Str.lower s) | VInt _ => Raise AttributeError end.

Definition pyval_is_str (v : pyval) (s : string) : bool :=
  match v with VStr s' => String.eqb s' s | VInt _ => false end.

(** *** Pure helpers of the engine *)

(** [_normalizeTitle] *)
Definition _normalizeTitle (title : string) : string :=
  let title := Str.lower title in
  let title := re_sub EnginePatterns.articles (fun _ => "") title in
  let title := re_sub EnginePatterns.punctuation (fun _ => "") title in
  let title := re_sub Patterns.whitespace_run (fun _ => " ") title in
  Str.strip title.

(** [_initializeBiblicalSources] *)
Definition biblical_translations : gmap string string :=
  list_to_map
    [ ("ESV", "English Standard Version");
      ("NIV", "New International Version");
      ("KJV", "King James Version");
      ("NASB", "New American Standard Bible");
      ("NRSV", "New Revised Standard Version") ].

(** [_cleanPassageText] *)
Definition clean_line (line : string) : string :=
  Str.strip (re_sub EnginePatterns.numbered_lines (fun _ => "") line).

Definition _cleanPassageText (lines : list string) : string :=
  Str.join (String "010" "") (filter (fun l => Str.truthy l = true) (map clean_line lines)).

(** [_calculateTextQuality]: the four indicators, in the order of the
    [quality_indicators] literal, and their mean; the empty text is
    answered before any indicator is computed. *)
Definition quality_indicators (text : string) : list (string * Q) :=
  [ ("length", Qmin 1 (inject_Z (Z.of_nat (String.length text)) / 200));
    ("completeness", if negb (Str.endswith "..." text) then 1 else 0.8);
    ("readability",
       match re_search EnginePatterns.sentence_end text with
       | Some _ => 1 | None => 0.6 end);
    ("cleanliness",
       match re_search EnginePatterns.bracketed text with
       | None => 1 | Some _ => 0.7 end) ]%Q.

Definition _calculateTextQuality (text : string) : Q :=
  if negb (Str.truthy text) then 0%Q
  else
    let indicators := quality_indicators text in
    (Qsum (map snd indicators) / inject_Z (Z.of_nat (length indicators)))%Q.

(** [_getSourceReliability] *)
Definition _getSourceReliability (source : string) : Q :=
  if Str.startswith "bible:" source then 0.95%Q
  else if Str.startswith "gutenberg:" source then 0.85%Q
  else 0.7%Q.

(** [_getMetadataCompleteness] *)
Definition _getMetadataCompleteness (metadata : gmap string pyval) : Q :=
  let required_fields :=
    match metadata !! "book" with
    | None => ["title"; "author"]
    | Some _ => ["book"; "chapter"; "verses"]
    end in
  let present_fields :=
    length (filter (fun field => get_truthy metadata field = true) required_fields) in
  (inject_Z (Z.of_nat present_fields) / inject_Z (Z.of_nat (length required_fields)))%Q.

(** [_getCitationMatchScore] *)
Definition _getCitationMatchScore (candidate : PassageCandidate)
    (original_citation : string) : result Q :=
  let citation_lower := Str.lower original_citation in
  let score := 0.5%Q in
  let* title := lower_method (get_default (metadata candidate) "title" (VStr "")) in
  let score := if Str.contains title citation_lower then (score + 0.3)%Q else score in
  let* author := lower_method (get_default (metadata candidate) "author" (VStr "")) in
  let score := if Str.contains author citation_lower then (score + 0.2)%Q else score in
  Ok (Qmin 1 score).

(** The [weights] literal of [calculateConfidenceScore]. *)
Definition weights : list (string * Q) :=
  [ ("text_quality", 0.3); ("source_reliability", 0.2);
    ("metadata_completeness", 0.2); ("citation_match", 0.3) ]%Q.

Fixpoint lookup_weight (table : list (string * Q)) (key : string) : result Q :=
  match table with
  | [] => Raise (KeyError key)
  | (k, w) :: t => if String.eqb k key then Ok w else lookup_weight t key
  end.

(** [calculateConfidenceScore] *)
Definition calculateConfidenceScore (candidate : PassageCandidate)
    (original_citation : string) : result Q :=
  let base_confidence := confidence candidate in
  let text_quality := _calculateTextQuality (text candidate) in
  let source_reliability := _getSourceReliability (source candidate) in
  let metadata_completeness := _getMetadataCompleteness (metadata candidate) in
  let* citation_match := _getCitationMatchScore candidate original_citation in
  let factors :=
    [ ("text_quality", text_quality); ("source_reliability", source_reliability);
      ("metadata_completeness", metadata_completeness);
      ("citation_match", citation_match) ] in
  let* terms :=
    mapM (fun kv : string * Q =>
            let* w := lookup_weight weights (fst kv) in Ok (snd kv * w)%Q) factors in
  let weighted_score := Qsum terms in
  let final_confidence := ((base_confidence + weighted_score) / 2)%Q in
  Ok (Qmin 1 (Qmax 0 final_confidence)).

Definition set_confidence (c : PassageCandidate) (q : Q) : PassageCandidate :=
  mkPassageCandidate (source c) q (text c) (metadata c) (start_position c) (end_position c).

(** The loop of [rankCandidates]: every candidate's confidence is replaced
    by its score against the empty citation. *)
Definition rescore (candidate : PassageCandidate) : result PassageCandidate :=
  let* score := calculateConfidenceScore candidate "" in
  Ok (set_confidence candidate score).

(** [rankCandidates] *)
Definition rankCandidates (candidates : list PassageCandidate)
    : result (list PassageCandidate) :=
  let* candidates := mapM rescore candidates in
  Ok (sort_desc confidence candidates).

(** *** Biblical passages *)

(** The [sample_passages] literal of [_generateSampleBiblicalText]. *)
Definition sample_passages : gmap (string * Z) (gmap Z string) :=
  list_to_map
    [ (("Genesis", 1),
       list_to_map
         [ (1, "In the beginning, God created the heavens and the earth.");
           (2, "The earth was without form and void, and darkness was over the face of the deep.");
           (3, String.concat "" ["And God said, "; String "034" ""; "Let there be light,";
                                 String "034" ""; " and there was light."]) ]);
      (("Matthew", 5),
       list_to_map
         [ (3, "Blessed are the poor in spirit, for theirs is the kingdom of heaven.");
           (4, "Blessed are those who mourn, for they shall be comforted.");
           (5, "Blessed are the meek, for they shall inherit the earth.") ]);
      (("Romans", 8),
       list_to_map
         [ (28, "And we know that for those who love God all things work together for good, for those who are called according to his purpose.") ]);
      (("1 Corinthians", 13),
       list_to_map
         [ (4, "Love is patient and kind; love does not envy or boast; it is not arrogant");
           (5, "or rude. It does not insist on its own way; it is not irritable or resentful;");
           (6, "it does not rejoice at wrongdoing, but rejoices with the truth.");
           (7, "Love bears all things, believes all things, hopes all things, endures all things.") ]) ].

(** The verse range as it is printed: "3" or "3-7". *)
Definition verse_range (start_verse end_verse : Z) : string :=
  if negb (start_verse =? end_verse)
  then Str.of_int start_verse ++ "-" ++ Str.of_int end_verse
  else Str.of_int start_verse.

(** [_generateSampleBiblicalText].  Every path returns a string. *)
Definition _generateSampleBiblicalText (book : string) (chapter start_verse end_verse : Z)
    (translation : string) : string :=
  match sample_passages !! (book, chapter) with
  | None =>
      book ++ " " ++ Str.of_int chapter ++ ":" ++ Str.of_int start_verse
      ++ (if negb (start_verse =? end_verse) then "-" ++ Str.of_int end_verse else "")
  | Some verses =>
      let passage_verses :=
        map (fun verse_num =>
               match verses !! verse_num with
               | Some verse_text => Str.of_int verse_num ++ " " ++ verse_text
               | None => Str.of_int verse_num ++ " [Verse text not available in demo]"
               end)
            (py_range start_verse (end_verse + 1)) in
      Str.join " " passage_verses
  end.

(** [_isValidBiblicalReference] *)
Definition _isValidBiblicalReference (book : string) (chapter start_verse end_verse : Z) : bool :=
  if (chapter <=? 0) || (start_verse <=? 0) || (end_verse <? start_verse) then false
  else match normalizeBookNames book with Some _ => true | None => false end.

(** [extractBiblicalPassage] *)
Definition extractBiblicalPassage (book : string) (chapter start_verse end_verse : Z)
    (translation : string) : option PassageCandidate :=
  let translation :=
    match biblical_translations !! translation with
    | None => "ESV"
    | Some _ => translation
    end in
  let passage_text :=
    _generateSampleBiblicalText book chapter start_verse end_verse translation in
  if negb (Str.truthy passage_text) then None
  else
    let metadata_ : gmap string pyval :=
      list_to_map
        [ ("book", VStr book); ("chapter", VInt chapter);
          ("verses", VStr (verse_range start_verse end_verse));
          ("translation", VStr translation); ("source", VStr "bible_api") ] in
    let confidence_ :=
      if _isValidBiblicalReference book chapter start_verse end_verse
      then 0.95%Q else 0.3%Q in
    Some (mkPassageCandidate ("bible:" ++ Str.lower translation) confidence_
            passage_text metadata_ None None).

(** *** The part of the engine that depends on the corpus *)

Section Engine.

(** [self.literary_works], in insertion order. *)
Variable literary_works : list (string * WorkInfo).

(** [open(path).readlines()]; [None] when opening or reading raises. *)
Variable readlines : string -> option (list string).

(** [SequenceMatcher(None, a, b).ratio()] *)
Variable ratio : string -> string -> Q.

Fixpoint lookup_work (works : list (string * WorkInfo)) (work_id : string) : option WorkInfo :=
  match works with
  | [] => None
  | (k, info) :: t => if String.eqb k work_id then Some info else lookup_work t work_id
  end.

(** [extractLiteraryPassage]; an exception inside its [try] block gives
    [None]. *)
Definition extractLiteraryPassage (work_id : string) (start_line end_line : Z)
    : option PassageCandidate :=
  match lookup_work literary_works work_id with
  | None => None
  | Some work_info =>
      match readlines (file_path work_info) with
      | None => None
      | Some lines =>
          if (start_line <=? 0) || (end_line >? Z.of_nat (length lines)) then None
          else
            let passage_lines := py_slice lines (start_line - 1) end_line in
            let passage_text := _cleanPassageText passage_lines in
            let confidence_ := _calculateTextQuality passage_text in
            let metadata_ : gmap string pyval :=
              list_to_map
                [ ("lines", VStr (Str.of_int start_line ++ "-" ++ Str.of_int end_line));
                  ("author", get_default (work_metadata work_info) "author" (VStr ""));
                  ("title", get_default (work_metadata work_info) "title" (VStr ""));
                  ("source_file", VStr (file_path work_info));
                  ("total_lines", VInt (Z.of_nat (length lines))) ] in
            Some (mkPassageCandidate ("gutenberg:" ++ work_id) confidence_
                    passage_text metadata_ (Some start_line) (Some end_line))
      end
  end.

(** The call [extractLiteraryPassage(work_id, start_line, end_line)] on
    values read from a dictionary: comparing a string with a number raises
    inside the [try] block, which gives [None]. *)
Definition extractLiteraryPassage_dyn (work_id : string) (start_line end_line : pyval)
    : option PassageCandidate :=
  match start_line, end_line with
  | VInt a, VInt b => extractLiteraryPassage work_id a b
  | _, _ => None
  end.

(** The first loop of [_findLiteraryMatches]: the works above the
    threshold, each with its similarity. *)
Definition work_scores (normalized_title_ : string) : list (string * Q * WorkInfo) :=
  flat_map
    (fun entry : string * WorkInfo =>
       let similarity := ratio normalized_title_ (normalized_title (snd entry)) in
       if negb (Qle_bool similarity 0.3) then [(fst entry, similarity, snd entry)] else [])
    literary_works.

(** [work_scores.sort(key=lambda x: x[1], reverse=True)] and [[:3]] *)
Definition top_matches (normalized_title_ : string) : list (string * Q * WorkInfo) :=
  py_slice (sort_desc (fun x => snd (fst x)) (work_scores normalized_title_)) 0 3.

(** [_findLiteraryMatches] *)
Definition _findLiteraryMatches (work_title : string) (citation_data : gmap string pyval)
    : list PassageCandidate :=
  let normalized_title_ := _normalizeTitle work_title in
  flat_map
    (fun m : string * Q * WorkInfo =>
       let work_id := fst (fst m) in
       let similarity := snd (fst m) in
       let start_line_ := get_default citation_data "start_line" (VInt 1) in
       let end_line_ := get_default citation_data "end_line" start_line_ in
       match extractLiteraryPassage_dyn work_id start_line_ end_line_ with
       | Some candidate =>
           [set_confidence candidate (confidence candidate * similarity)%Q]
       | None => []
       end)
    (top_matches normalized_title_).

(** The body of the loop of [generatePassageCandidates] for one parsed
    citation. *)
Definition candidates_of (parsed_citation : gmap string pyval)
    : result (list PassageCandidate) :=
  let* type_ := getitem parsed_citation "type" in
  if pyval_is_str type_ "bible" then
    let* book_ := getitem parsed_citation "book" in
    let* chapter_ := getitem parsed_citation "chapter" in
    let* start_verse_ := getitem parsed_citation "start_verse" in
    let* end_verse_ := getitem parsed_citation "end_verse" in
    let* book_ := as_str book_ in
    let* chapter_ := as_int chapter_ in
    let* start_verse_ := as_int start_verse_ in
    let* end_verse_ := as_int end_verse_ in
    match extractBiblicalPassage book_ chapter_ start_verse_ end_verse_ "ESV" with
    | Some biblical_candidate => Ok [biblical_candidate]
    | None => Ok []
    end
  else if pyval_is_str type_ "literature" then
    let* work_title := getitem parsed_citation "work" in
    let* work_title := as_str work_title in
    Ok (_findLiteraryMatches work_title parsed_citation)
  else Ok [].

(** [generatePassageCandidates] *)
Definition generatePassageCandidates (citation : string) (max_candidates : Z)
    : result (list PassageCandidate) :=
  let* parsed := parseCitation citation in
  let* found := mapM candidates_of (citations parsed) in
  let candidates := concat found in
  let* ranked_candidates := rankCandidates candidates in
  Ok (py_slice ranked_candidates 0 max_candidates).

Definition default_max_candidates : Z := 5.

Record CandidateDict : Type := mkCandidateDict {
  cd_source : string;
  cd_confidence : Q;
  cd_text : string;
  cd_metadata : gmap string pyval
}.

Record ExtractionResult : Type := mkExtractionResult {
  original_citation : string;
  candidates : list CandidateDict;
  best_match : option CandidateDict
}.

(** [extractPassageFromCitation] *)
Definition extractPassageFromCitation (citation : string) : result ExtractionResult :=
  let* found := generatePassageCandidates citation default_max_candidates in
  let candidate_dicts :=
    map (fun candidate =>
           mkCandidateDict (source candidate) (py_round3 (confidence candidate))
             (text candidate) (metadata candidate))
        found in
  Ok (mkExtractionResult citation candidate_dicts (head candidate_dicts)).

End Engine.

(* ================================================================= *)
(** ** citation_parser.py: the public helpers the parser does not call *)

(** [str.isdigit] on one character: the decimal digits and the
    superscripts two, three and one. *)
Definition py_isdigit (c : ascii) : bool :=
  Char.py_isdecimal c || (Char.code c =? 178)%N || (Char.code c =? 179)%N
  || (Char.code c =? 185)%N.

(** [s.isdigit()]: every character is a digit and there is at least one. *)
Definition isdigit (s : string) : bool := Str.truthy s && Str.forallb py_isdigit s.

Module InlinePatterns.

(** The inline pattern of [extractWorkTitle], compiled with IGNORECASE:
    ^ cf\. \s* *)
Definition cf_prefix : pattern :=
  Pattern true (Bos ⋅ Word "cf." ⋅ Patterns.opt_spaces)%re.

(** The inline pattern of [parseReferenceRange], without flags:
    (\d+) (?:-(\d+))? *)
Definition number_range : pattern :=
  Pattern false (Group 1 Patterns.digits ⋅ Opt (Lit "-" ⋅ Group 2 Patterns.digits))%re.

End InlinePatterns.

(** [extractWorkTitle] *)
Definition extractWorkTitle (citation : string) : result (option string) :=
  let citation := re_sub InlinePatterns.cf_prefix (fun _ => "") citation in
  let citation := Str.strip citation in
  match re_match Patterns.literature_drama citation with
  | Some drama_match =>
      let* title := str_receiver (group drama_match 1) in Ok (Some (Str.strip title))
  | None =>
  match re_match Patterns.literature_book citation with
  | Some book_match =>
      let* title := str_receiver (group book_match 1) in Ok (Some (Str.strip title))
  | None =>
  match re_match Patterns.literature_simple citation with
  | Some simple_match =>
      let* title := str_receiver (group simple_match 1) in Ok (Some (Str.strip title))
  | None => Ok None
  end end end.

(** [parseReferenceRange] *)
Definition parseReferenceRange (range_text : string) : result (option Z * option Z) :=
  let range_text := Str.strip range_text in
  if isdigit range_text then
    let* num := PyInt.parse range_text in
    Ok (Some num, Some num)
  else
    match re_match InlinePatterns.number_range range_text with
    | Some range_match =>
        let* start := py_int (group range_match 1) in
        let* end_ :=
          (if truthy_opt Str.truthy (group range_match 2)
           then py_int (group range_match 2) else Ok start) in
        Ok (Some start, Some end_)
    | None => Ok (None, None)
    end.

(* ================================================================= *)
(** ** citation_extraction_engine.py: building the work index *)

Module IndexPatterns.

(** The inline pattern of [_extractWorkMetadata], with IGNORECASE:
    by \s+ ([A-Za-z\s.]+) *)
Definition author_line : pattern :=
  Pattern true
    (Word "by" ⋅ Patterns.spaces
     ⋅ Group 1 (Plus (Chr (CUnion Patterns.letter_or_space (CLit ".")))))%re.

End IndexPatterns.

(** [works[key] = value] on a dictionary kept in insertion order. *)
Fixpoint dict_set {V : Type} (key : string) (value : V) (d : list (string * V))
    : list (string * V) :=
  match d with
  | [] => [(key, value)]
  | (k, v) :: t =>
      if String.eqb k key then (k, value) :: t else (k, v) :: dict_set key value t
  end.

Section Index.

(** [open(path).readlines()]; [None] when opening or reading raises. *)
Variable readlines : string -> option (list string).

(** [Path(path).stem] and [str.title]. *)
Variable stem : string -> string.
Variable title_case : string -> string.

(** The state of the loop over the first lines: the title and the author
    found so far, and whether an exception ended the loop. *)
Inductive scan_outcome : Type :=
| Scanned (title author : string)
| Interrupted (title author : string).

Definition skipped_headers : list string := ["project gutenberg"; "ebook"; "produced by"].

(** One iteration of the loop of [_extractWorkMetadata]. *)
Definition scan_line (title author line : string) : scan_outcome :=
  let line := Str.strip line in
  let title :=
    if negb (Str.truthy title) && Str.truthy line
       && negb (Str.startswith "Project Gutenberg" line)
    then
      if negb (existsb (fun skip => Str.contains skip (Str.lower line)) skipped_headers)
      then line else title
    else title in
  if Str.contains "by " (Str.lower line) && negb (Str.truthy author) then
    match re_search IndexPatterns.author_line line with
    | Some author_match =>
        match group author_match 1 with
        | Some found => Scanned title (Str.strip found)
        | None => Interrupted title author
        end
    | None => Scanned title author
    end
  else Scanned title author.

Fixpoint scan_lines (lines : list string) (title author : string) : scan_outcome :=
  match lines with
  | [] => Scanned title author
  | line :: rest =>
      match scan_line title author line with
      | Scanned title author => scan_lines rest title author
      | Interrupted title author => Interrupted title author
      end
  end.

(** The [metadata] dictionary of [_extractWorkMetadata]. *)
Definition metadata_dict (title author : string) (lines : Z) : gmap string pyval :=
  list_to_map [ ("title", VStr title); ("author", VStr author);
                ("source", VStr "gutenberg"); ("lines", VInt lines) ].

(** [_extractWorkMetadata]; an exception inside its [try] block leaves the
    dictionary as it is at that point. *)
Definition _extractWorkMetadata (file_path : string) : gmap string pyval :=
  match readlines file_path with
  | None => metadata_dict "" "" 0
  | Some lines =>
      let count := Z.of_nat (length lines) in
      match scan_lines (py_slice lines 0 10) "" "" with
      | Interrupted title author => metadata_dict title author count
      | Scanned title author =>
          let title :=
            if negb (Str.truthy title)
            then title_case (Str.replace "-" " " (Str.replace "_" " " (stem file_path)))
            else title in
          metadata_dict title author count
      end
  end.

(** The loop of [_indexLiteraryWorks] over the files of the "cleaned"
    directory. *)
Fixpoint index_files (files : list string) (works : list (string * WorkInfo))
    : result (list (string * WorkInfo)) :=
  match files with
  | [] => Ok works
  | text_file :: rest =>
      let work_id := stem text_file in
      let metadata_ := _extractWorkMetadata text_file in
      let* normalized :=
        match get_default metadata_ "title" (VStr work_id) with
        | VStr title => Ok (_normalizeTitle title)
        | VInt _ => Raise AttributeError
        end in
      index_files rest (dict_set work_id (mkWorkInfo text_file metadata_ normalized) works)
  end.

(** [_indexLiteraryWorks]; [cleaned_files] is [None] when the corpus or
    its "cleaned" directory does not exist, and otherwise the files that
    [glob("*.txt")] yields. *)
Definition _indexLiteraryWorks (cleaned_files : option (list string))
    : result (list (string * WorkInfo)) :=
  match cleaned_files with
  | None => Ok []
  | Some files => index_files files []
  end.

End Index.

(* ================================================================= *)
(** ** citation_api_server.py *)

Module Api.

(** What [lookup_citation] looks at in the request: whether the decoded
    body is a JSON object, and what it holds under the key "citation".
    Anything that is not a string has no [strip] method; a body that is not
    an object has no [get] method, and a body that cannot be decoded makes
    [get_json] raise. *)
Inductive citation_field : Type :=
| Absent
| Text (s : string)
| NotText.

Inductive request_body : Type :=
| Object (citation : citation_field)
| NotObject (e : exn).

Inductive payload : Type :=
| Success (original_citation : string) (candidates : list CandidateDict)
          (best_match : option CandidateDict)
| CitationRequired
| Failed (e : exn).

Record response : Type := mkResponse { status : Z; body : payload }.

Section Server.

Variable literary_works : list (string * WorkInfo).
Variable readlines : string -> option (list string).
Variable ratio : string -> string -> Q.

(** The [try] block of [lookup_citation]. *)
Definition lookup_attempt (request : request_body) : result response :=
  let* data := match request with Object f => Ok f | NotObject e => Raise e end in
  let* citation_text :=
    match data with
    | Absent => Ok ""
    | Text s => Ok s
    | NotText => Raise AttributeError
    end in
  let citation_text := Str.strip citation_text in
  if negb (Str.truthy citation_text) then Ok (mkResponse 400 CitationRequired)
  else
    let* result :=
      extractPassageFromCitation literary_works readlines ratio citation_text in
    Ok (mkResponse 200
          (Success (original_citation result) (candidates result) (best_match result))).

(** [lookup_citation]: [except Exception] answers every exception with
    status 500. *)
Definition lookup_citation (request : request_body) : response :=
  match lookup_attempt request with
  | Ok r => r
  | Raise e => mkResponse 500 (Failed e)
  end.

End Server.

End Api.

(* ================================================================= *)
(** * Vocabulary of the statements

    The definitions below are not part of the program: they name what the
    theorems say about it, and, for the claims that compare the code with
    the specification's wording, give that wording as a second definition. *)

(** ** Words a pattern consumes *)

Module ReSpec.

(** [Derive ic r w cs cs']: the pattern [r] can consume exactly [w],
    turning the captures [cs] into [cs'].  Anchors consume nothing; the
    relation does not record the context they test. *)
Inductive Derive (ic : bool) : regex -> string -> caps -> caps -> Prop :=
| D_Eps cs : Derive ic Eps "" cs cs
| D_Chr set c cs :
    in_charset ic set c = true -> Derive ic (Chr set) (String c "") cs cs
| D_Seq r1 r2 w1 w2 cs cs1 cs2 :
    Derive ic r1 w1 cs cs1 -> Derive ic r2 w2 cs1 cs2 ->
    Derive ic (Seq r1 r2) (w1 ++ w2) cs cs2
| D_AltL r1 r2 w cs cs' : Derive ic r1 w cs cs' -> Derive ic (Alt r1 r2) w cs cs'
| D_AltR r1 r2 w cs cs' : Derive ic r2 w cs cs' -> Derive ic (Alt r1 r2) w cs cs'
| D_StarNil g r cs : Derive ic (Star g r) "" cs cs
| D_StarCons g r w1 w2 cs cs1 cs2 :
    Derive ic r w1 cs cs1 -> Derive ic (Star g r) w2 cs1 cs2 ->
    Derive ic (Star g r) (w1 ++ w2) cs cs2
| D_Group i r w cs cs' : Derive ic r w cs cs' -> Derive ic (Group i r) w cs ((i, w) :: cs')
| D_Bos cs : Derive ic Bos "" cs cs
| D_Eos cs : Derive ic Eos "" cs cs
| D_WordB cs : Derive ic WordB "" cs cs.

(** What a continuation-passing matcher for [r] promises: a success
    consumed a word of [r] and then the continuation succeeded. *)
Definition sound_for {A : Type} (ic : bool) (r : regex)
    (m : cursor -> caps -> @cont A -> option A) : Prop :=
  forall cu cs k res,
    m cu cs k = Some res ->
    exists w cu' cs',
      rest cu = w ++ rest cu' /\ Derive ic r w cs cs' /\ k cu' cs' = Some res.

(** The pattern has no capturing group. *)
Fixpoint groupless (r : regex) : bool :=
  match r with
  | Group _ _ => false
  | Seq r1 r2 | Alt r1 r2 => groupless r1 && groupless r2
  | Star _ r1 => groupless r1
  | _ => true
  end.

(** A non-empty string of decimal digits: what a [\d+] group holds. *)
Definition is_number (w : string) : Prop :=
  w <> "" /\ Str.forallb Char.py_isdecimal w = true.

(** Where a maximal run of [set] characters ends. *)
Fixpoint run_end (ic : bool) (set : charset) (p : option ascii) (s : string) : cursor :=
  match s with
  | String c t => if in_charset ic set c then run_end ic set (Some c) t else Cursor p s
  | EmptyString => Cursor p s
  end.

(** Greedy repetition of a class in front of [k]: the longest run first,
    then one character less at a time. *)
Fixpoint greedy_class {A : Type} (ic : bool) (set : charset) (k : @cont A)
    (p : option ascii) (s : string) (cs : caps) : option A :=
  match s with
  | String c t =>
      if in_charset ic set c
      then orelse (greedy_class ic set k (Some c) t cs) (k (Cursor p s) cs)
      else k (Cursor p s) cs
  | EmptyString => k (Cursor p s) cs
  end.

(** Lazy repetition of a class in front of [k]: the continuation first,
    then one character more at a time. *)
Fixpoint lazy_class {A : Type} (ic : bool) (set : charset) (k : @cont A)
    (p : option ascii) (s : string) (cs : caps) : option A :=
  orelse (k (Cursor p s) cs)
    match s with
    | String c t => if in_charset ic set c then lazy_class ic set k (Some c) t cs else None
    | EmptyString => None
    end.

(** A continuation that accepts wherever it is called. *)
Definition accepting {A : Type} (k : @cont A) : Prop :=
  forall cu cs, k cu cs <> None.

(** What follows the lazy repetition in the bracketed-placeholder pattern. *)
Definition close_then_accept : @cont (cursor * caps) :=
  fun cu cs => mtch false (Lit "]") cu cs accept.

End ReSpec.

(** ** References and their dictionaries *)

Module ParserSpec.

(** A numeric field that, when set, is not negative. *)
Definition nonneg (field : option Z) : Prop :=
  forall z, field = Some z -> 0 <= z.

(** A book name that the normalizer returns for some raw name. *)
Definition resolves (b : string) : Prop :=
  exists raw, normalizeBookNames raw = Some b.

(** What holds of every reference the parser builds. *)
Record ref_ok (r : CitationResult) : Prop := {
  ok_type : type r = "bible" \/ type r = "literature";
  ok_book : type r = "bible" -> exists b, book r = Some b /\ resolves b;
  ok_chapter : nonneg (chapter r);
  ok_start_verse : nonneg (start_verse r);
  ok_end_verse : nonneg (end_verse r);
  ok_start_line : nonneg (start_line r);
  ok_end_line : nonneg (end_line r)
}.

(** The biblical pattern matches somewhere and its book token normalizes. *)
Definition biblical_pattern_normalizes (citation : string) : bool :=
  match re_search Patterns.bible_standard citation with
  | Some m =>
      match group m 1 with
      | Some book_candidate =>
          match normalizeBookNames book_candidate with
          | Some _ => true
          | None => false
          end
      | None => false
      end
  | None => false
  end.

(** A stored value is the type, a truthy text field or a non-zero number
    field of the reference. *)
Inductive stored (r : CitationResult) : string -> pyval -> Prop :=
| stored_type : stored r "type" (VStr (type r))
| stored_str k field s :
    In (k, field) [("work", work r); ("book", book r); ("act", act r);
                   ("scene", scene r); ("book_number", book_number r)] ->
    field = Some s -> Str.truthy s = true -> stored r k (VStr s)
| stored_int k field n :
    In (k, field) [("chapter", chapter r); ("start_verse", start_verse r);
                   ("end_verse", end_verse r); ("start_line", start_line r);
                   ("end_line", end_line r)] ->
    field = Some n -> n <> 0 -> stored r k (VInt n).

End ParserSpec.

(** The classifier's decision rule, in the order the specification gives. *)
Module ClassifierSpec.

Definition has_cf_marker (citation : string) : bool :=
  Str.contains "cf." (Str.lower citation).

Definition has_semicolon (citation : string) : bool := Str.has_char ";" citation.

Definition has_colon (citation : string) : bool := Str.has_char ":" citation.

Definition classify (citation : string) : string :=
  if has_cf_marker citation && has_semicolon citation then "mixed"
  else if ParserSpec.biblical_pattern_normalizes citation then "bible"
  else if has_semicolon citation && has_colon citation then "bible"
  else "literature".

End ClassifierSpec.

(** ** The normalizer, step by step *)

Module NormalizerSpec.

(** Every maximal run of whitespace becomes one space.  [in_run] tells
    that the previous character was whitespace. *)
Fixpoint collapse_aux (in_run : bool) (s : string) : string :=
  match s with
  | EmptyString => EmptyString
  | String c t =>
      if Char.py_isspace c
      then if in_run then collapse_aux true t else String " " (collapse_aux true t)
      else String c (collapse_aux false t)
  end.

Definition collapse_whitespace (s : string) : string := collapse_aux false s.

(** A numbered-book form is a leading number, optional whitespace and a
    lower-case letter; it gets exactly one space after the number. *)
Definition space_numbered (s : string) : string :=
  let number := Str.take_while Char.py_isdecimal s in
  let after := Str.drop_while Char.py_isspace (Str.drop_while Char.py_isdecimal s) in
  match number, after with
  | String _ _, String c _ =>
      if Char.is_ascii_lower c then number ++ " " ++ after else s
  | _, _ => s
  end.

(** The key that is looked up: trimmed, lower-cased, whitespace collapsed,
    numbered form spaced. *)
Definition lookup_key (raw : string) : string :=
  space_numbered (collapse_whitespace (Str.lower (Str.strip raw))).

Definition without_spaces (s : string) : string := Str.replace " " "" s.

(** Direct lookup, then the retry with the spaces removed. *)
Definition normalize_spec (raw : string) : option string :=
  match biblical_books !! lookup_key raw with
  | Some canonical => Some canonical
  | None => biblical_books !! without_spaces (lookup_key raw)
  end.

(** The length of the leading run of characters satisfying [f]. *)
Fixpoint run_length (f : ascii -> bool) (s : string) : nat :=
  match s with
  | String c t => if f c then S (run_length f t) else O
  | EmptyString => O
  end.

(** The two replacement templates of [normalizeBookNames]: a space, and
    group 1, a space, group 2. *)
Definition one_space : caps -> string := fun _ => " ".

(** What follows the leading number and the whitespace after it. *)
Definition after_number (s : string) : string :=
  Str.drop_while Char.py_isspace (Str.drop_while Char.py_isdecimal s).

Definition spaced : caps -> string :=
  fun m => group_or_empty m 1 ++ " " ++ group_or_empty m 2.

End NormalizerSpec.

(** ** Order of a ranked list *)

Module ListSpec.

(** Descending by [key]: every element is at least every later one. *)
Definition descending {A : Type} (key : A -> Q) (l : list A) : Prop :=
  StronglySorted (fun a b => (key b <= key a)%Q) l.

(** The elements whose key ties with [q], in order. *)
Definition tied {A : Type} (key : A -> Q) (q : Q) (l : list A) : list A :=
  List.filter (fun a => Qeq_bool (key a) q) l.

End ListSpec.

(** ** The scorer, as the specification words it *)

Module ScorerSpec.

(** Clamp to [0, 1]. *)
Definition clamp01 (x : Q) : Q :=
  if Qlt_le_dec x 0 then 0%Q else if Qlt_le_dec 1 x then 1%Q else x.

(** The text contains terminal punctuation. *)
Definition has_sentence_end (text : string) : bool :=
  Str.existsb (fun c => (c =? ".")%char || (c =? "!")%char || (c =? "?")%char) text.

(** The text contains a bracketed placeholder: an opening bracket and,
    later on the same line, a closing one. *)
Fixpoint closes_bracket (s : string) : bool :=
  match s with
  | EmptyString => false
  | String c t =>
      if (c =? "]")%char then true
      else if (c =? "010")%char then false
      else closes_bracket t
  end.

Fixpoint has_placeholder (s : string) : bool :=
  match s with
  | EmptyString => false
  | String c t => ((c =? "[")%char && closes_bracket t) || has_placeholder t
  end.

Definition length_adequacy (text : string) : Q :=
  Qmin 1 (inject_Z (Z.of_nat (String.length text)) / 200).

Definition completeness (text : string) : Q :=
  if Str.endswith "..." text then 0.8%Q else 1%Q.

Definition readability (text : string) : Q :=
  if has_sentence_end text then 1%Q else 0.6%Q.

Definition cleanliness (text : string) : Q :=
  if has_placeholder text then 0.7%Q else 1%Q.

(** The average of the four indicators. *)
Definition four_indicator_mean (text : string) : Q :=
  ((length_adequacy text + completeness text + readability text + cleanliness text) / 4)%Q.

(** Text quality as the code computes it: the empty text scores 0. *)
Definition text_quality (text : string) : Q :=
  if Str.truthy text then four_indicator_mean text else 0%Q.

Definition weighted_sum (text_q source_r metadata_c citation_m : Q) : Q :=
  (0.30 * text_q + 0.20 * source_r + 0.20 * metadata_c + 0.30 * citation_m)%Q.

(** The score for a given text-quality term. *)
Definition score_with (text_q : Q) (candidate : PassageCandidate) (citation_m : Q) : Q :=
  clamp01
    ((confidence candidate
      + weighted_sum text_q (_getSourceReliability (source candidate))
          (_getMetadataCompleteness (metadata candidate)) citation_m) / 2)%Q.

(** The score of claim C7: text quality is the four-indicator average for
    every text. *)
Definition claimed_score (candidate : PassageCandidate) (citation_m : Q) : Q :=
  score_with (four_indicator_mean (text candidate)) candidate citation_m.

(** The score with the code's text quality. *)
Definition score (candidate : PassageCandidate) (citation_m : Q) : Q :=
  score_with (text_quality (text candidate)) candidate citation_m.

(** A dictionary field that, when present, holds a string. *)
Definition text_field (d : gmap string pyval) (key : string) : Prop :=
  forall v, d !! key = Some v -> exists s, v = VStr s.

(** A candidate whose title and author, when present, are strings. *)
Definition scorable (candidate : PassageCandidate) : Prop :=
  text_field (metadata candidate) "title" /\ text_field (metadata candidate) "author".

(** A work index whose titles and authors, when present, are strings. *)
Definition index_typed (works : list (string * WorkInfo)) : Prop :=
  forall work_id info, In (work_id, info) works ->
    text_field (work_metadata info) "title" /\ text_field (work_metadata info) "author".

End ScorerSpec.

(** ** Ranking *)

Module EngineSpec.

(** [c'] is [c] with its confidence replaced by its score against the
    empty citation. *)
Definition rescored_from (c c' : PassageCandidate) : Prop :=
  exists q, calculateConfidenceScore c "" = Ok q /\ c' = set_confidence c q.

End EngineSpec.

(** ** Trimmed strings *)

Module StrSpec.

(** No whitespace at either end. *)
Definition trimmed (s : string) : Prop :=
  Str.drop_while Char.py_isspace s = s /\
  Str.drop_while Char.py_isspace (Str.rev s) = Str.rev s.

End StrSpec.

(** ** Ranges as [parseReferenceRange] reads them *)

Module RangeSpec.

(** The text starts with a decimal digit. *)
Definition starts_with_decimal (s : string) : bool :=
  match s with String c _ => Char.py_isdecimal c | EmptyString => false end.

(** The groups of the number-range pattern on a string that starts with a
    digit: the leading number and, when a hyphen and a digit follow it, the
    number after the hyphen. *)
Definition range_captures (s : string) : caps :=
  let first := Str.take_while Char.py_isdecimal s in
  match Str.drop_while Char.py_isdecimal s with
  | String d (String c2 t2) =>
      if (d =? "-")%char && Char.py_isdecimal c2
      then [(2%nat, Str.take_while Char.py_isdecimal (String c2 t2)); (1%nat, first)]
      else [(1%nat, first)]
  | _ => [(1%nat, first)]
  end.

End RangeSpec.

(** ** What a pattern needs of a text *)

Module CaptureSpec.

(** The pattern has a group numbered [i]. *)
Fixpoint mentions (i : nat) (r : regex) : bool :=
  match r with
  | Group j r1 => Nat.eqb i j || mentions i r1
  | Seq r1 r2 | Alt r1 r2 => mentions i r1 || mentions i r2
  | Star _ r1 => mentions i r1
  | _ => false
  end.

(** The pattern starts with group [i], which occurs nowhere else in it:
    the content of that group. *)
Fixpoint head_group (i : nat) (r : regex) : option regex :=
  match r with
  | Group j g => if Nat.eqb i j && negb (mentions i g) then Some g else None
  | Seq r1 r2 => if mentions i r2 then None else head_group i r1
  | _ => None
  end.

(** Every word of the pattern holds a decimal digit. *)
Fixpoint needs_digit (r : regex) : bool :=
  match r with
  | Chr CDigit => true
  | Seq r1 r2 => needs_digit r1 || needs_digit r2
  | Alt r1 r2 => needs_digit r1 && needs_digit r2
  | Group _ r1 => needs_digit r1
  | _ => false
  end.

(** Every kind of character found in [x] is found in [w]. *)
Definition within (x w : string) : Prop :=
  forall p, Str.existsb p x = true -> Str.existsb p w = true.

(** No decimal digit occurs in the text. *)
Definition digitless (s : string) : Prop := Str.existsb Char.py_isdecimal s = false.

End CaptureSpec.

(** ** The references the parser emits *)

Module ReferenceSpec.

(** The first of the three literary patterns that matches, in the order
    drama, book, simple. *)
Definition first_literary_match (citation : string) : option caps :=
  match re_match Patterns.literature_drama citation with
  | Some m => Some m
  | None =>
      match re_match Patterns.literature_book citation with
      | Some m => Some m
      | None => re_match Patterns.literature_simple citation
      end
  end.

(** The two kinds of reference the parser builds. *)
Definition bible_ref (b : string) (c s e : Z) : CitationResult :=
  mkCitationResult "bible" None (Some b) (Some c) (Some s) (Some e)
    None None None None None.

Definition literary_ref (w : string) (sl el : Z) (a sc bn : option string)
    : CitationResult :=
  mkCitationResult "literature" (Some w) None None None None (Some sl) (Some el) a sc bn.

Inductive emitted : CitationResult -> Prop :=
| emitted_bible b c s e :
    ParserSpec.resolves b -> 0 <= c -> 0 <= s -> 0 <= e -> emitted (bible_ref b c s e)
| emitted_literary w sl el a sc bn :
    Str.truthy w = true -> 0 <= sl -> 0 <= el -> emitted (literary_ref w sl el a sc bn).

(** The text does not start with whitespace. *)
Definition starts_clean (s : string) : Prop :=
  match s with String c _ => Char.py_isspace c = false | EmptyString => True end.

(** The first key that [generatePassageCandidates] reads with [d[key]] and
    that [parseCitation] did not store for the reference [r]. *)
Definition missing_key (r : CitationResult) : option string :=
  if String.eqb (type r) "bible" then
    if negb (truthy_opt Str.truthy (book r)) then Some "book"
    else if negb (truthy_opt int_truthy (chapter r)) then Some "chapter"
    else if negb (truthy_opt int_truthy (start_verse r)) then Some "start_verse"
    else if negb (truthy_opt int_truthy (end_verse r)) then Some "end_verse"
    else None
  else if String.eqb (type r) "literature" then
    if negb (truthy_opt Str.truthy (work r)) then Some "work" else None
  else None.

Fixpoint first_missing (refs : list CitationResult) : option string :=
  match refs with
  | [] => None
  | r :: t =>
      match missing_key r with
      | Some k => Some k
      | None => first_missing t
      end
  end.

(** What [citation_dict] stores under a key. *)

Definition stored_str_value (field : option string) : option pyval :=
  match field with
  | Some s => if Str.truthy s then Some (VStr s) else None
  | None => None
  end.

Definition stored_int_value (field : option Z) : option pyval :=
  match field with
  | Some n => if int_truthy n then Some (VInt n) else None
  | None => None
  end.

Section Candidates.

Variable literary_works : list (string * WorkInfo).
Variable readlines : string -> option (list string).
Variable ratio : string -> string -> Q.

(** The candidates [generatePassageCandidates] collects for a reference
    all of whose keys are stored. *)
Definition candidates_for (r : CitationResult) : list PassageCandidate :=
  if String.eqb (type r) "bible" then
    match book r, chapter r, start_verse r, end_verse r with
    | Some b, Some c, Some s, Some e =>
        match extractBiblicalPassage b c s e "ESV" with
        | Some biblical_candidate => [biblical_candidate]
        | None => []
        end
    | _, _, _, _ => []
    end
  else if String.eqb (type r) "literature" then
    match work r with
    | Some w => _findLiteraryMatches literary_works readlines ratio w (citation_dict r)
    | None => []
    end
  else [].

End Candidates.

End ReferenceSpec.

(** ** Chains of biblical references *)

Module ChainSpec.

(** The pieces between semicolons, each parsed on its own. *)
Definition piecewise (citation : string) : result (list CitationResult) :=
  let* results := mapM parse_single_biblical (Str.split ";" citation) in
  Ok (concat results).

End ChainSpec.

(** ** Lines without their number, citations without their "cf." *)

Module LineSpec.

(** An optional full stop or colon. *)
Definition drop_punct (s : string) : string :=
  match s with
  | String c t => if (c =? ".")%char || (c =? ":")%char then t else s
  | EmptyString => EmptyString
  end.

(** A line without its leading number: optional whitespace, the digits,
    optional whitespace, an optional full stop or colon, optional
    whitespace.  A line that does not start so is left as it is. *)
Definition without_line_number (line : string) : string :=
  let u := Str.drop_while Char.py_isspace line in
  if RangeSpec.starts_with_decimal u
  then Str.drop_while Char.py_isspace
         (drop_punct (Str.drop_while Char.py_isspace
                        (Str.drop_while Char.py_isdecimal u)))
  else line.

(** A text without a leading "cf." in any letter case and the whitespace
    after it. *)
Definition without_cf (s : string) : string :=
  match s with
  | String c (String f (String d t)) =>
      if (Char.char_lower c =? "c")%char && (Char.char_lower f =? "f")%char
         && (d =? ".")%char
      then Str.drop_while Char.py_isspace t
      else s
  | _ => s
  end.

(** The pattern matches at the start of the text only. *)
Definition anchored (p : pattern) : Prop :=
  forall x t, match_at p (Cursor (Some x) t) = None.

(** The tail of the line-number pattern: [[.:]?\s*]. *)
Definition punct_tail : @cont (cursor * caps) :=
  fun cu cs =>
    mtch false (Opt (Chr (CUnion (CLit ".") (CLit ":")))) cu cs
      (fun cu' cs' => mtch false Patterns.opt_spaces cu' cs' accept).

End LineSpec.

(** ** The characters of a normalised title *)

Module TitleSpec.

(** A character that [str.lower] leaves alone. *)
Definition lower_fixed (c : ascii) : bool := (Char.char_lower c =? c)%char.

(** What is left of a title: word characters and spaces. *)
Definition word_or_space (c : ascii) : bool := Char.py_isword c || (c =? " ")%char.

Definition word_or_whitespace (c : ascii) : bool := Char.py_isword c || Char.py_isspace c.

End TitleSpec.

(** ** Well-formed biblical references *)

Module BibleMatchSpec.

(** The repetition of a class stops in front of [s]. *)
Definition stops (ic : bool) (set : charset) (s : string) : Prop :=
  match s with
  | String c _ => in_charset ic set c = false
  | EmptyString => True
  end.

(** A letter of [A-Za-z]. *)
Definition is_letter (c : ascii) : bool := Char.is_ascii_upper c || Char.is_ascii_lower c.

(** A name made of letters only, such as "Genesis" or "Rom". *)
Definition is_name (w : string) : Prop := w <> "" /\ Str.forallb is_letter w = true.

(** The end of a range as it is written: nothing, or a hyphen and a number. *)
Definition range_suffix (last : option string) : string :=
  match last with Some e => "-" ++ e | None => "" end.

(** A match that ends with the captures [out]. *)
Definition yields (o : option (cursor * caps)) (out : caps) : Prop :=
  exists cu, o = Some (cu, out).

(** The captures of the biblical pattern on such a reference. *)
Definition reference_caps (book chapter_ verse_ : string) (last : option string) : caps :=
  match last with
  | Some e => [(4%nat, e); (3%nat, verse_); (2%nat, chapter_); (1%nat, book)]
  | None => [(3%nat, verse_); (2%nat, chapter_); (1%nat, book)]
  end.

(** A reference as it is written: name, chapter, colon, verse and the end of
    the range. *)
Definition reference_text (book chapter_ verse_ : string) (last : option string) : string :=
  book ++ " " ++ chapter_ ++ ":" ++ verse_ ++ range_suffix last.

End BibleMatchSpec.

(** ** The candidate of a valid biblical reference *)

Module CandidateSpec.

(** The candidate [extractBiblicalPassage] builds from the ESV for a valid
    reference. *)
Definition esv_candidate (book : string) (chapter start_verse end_verse : Z)
    : PassageCandidate :=
  mkPassageCandidate "bible:esv" 0.95%Q
    (_generateSampleBiblicalText book chapter start_verse end_verse "ESV")
    (list_to_map
       [ ("book", VStr book); ("chapter", VInt chapter);
         ("verses", VStr (verse_range start_verse end_verse));
         ("translation", VStr "ESV"); ("source", VStr "bible_api") ])
    None None.

End CandidateSpec.

(** ** Mixed citations *)

Module MixedSpec.

(** The text starts with "cf." in some letter case. *)
Definition starts_with_cf (s : string) : bool :=
  match s with
  | String c (String f (String d _)) =>
      (Char.char_lower c =? "c")%char && (Char.char_lower f =? "f")%char
      && (d =? ".")%char
  | _ => false
  end.

(** A reference of a mixed citation: not empty, without a semicolon, and
    not starting with whitespace. *)
Definition is_reference (a : string) : Prop :=
  a <> "" /\ Str.has_char ";" a = false /\ ReferenceSpec.starts_clean a.

(** The rest of a mixed citation after its second reference: nothing, or a
    further semicolon and whatever follows it. *)
Definition is_remainder (rest : string) : Prop :=
  match rest with
  | String c _ => c = ";"%char
  | EmptyString => True
  end.

End MixedSpec.

(** ** The metadata of an indexed file *)

Module IndexSpec.

(** Every match of the pattern sets group [i]. *)
Fixpoint sets (i : nat) (r : regex) : bool :=
  match r with
  | Group j r1 => Nat.eqb i j || sets i r1
  | Seq r1 r2 => sets i r1 || sets i r2
  | Alt r1 r2 => sets i r1 && sets i r2
  | _ => false
  end.

(** A line the title detection accepts: not empty once stripped, not
    starting with "Project Gutenberg" and holding none of the skipped
    headers in any case. *)
Definition title_line (line : string) : bool :=
  Str.truthy (Str.strip line)
  && negb (Str.startswith "Project Gutenberg" (Str.strip line))
  && negb (existsb (fun skip => Str.contains skip (Str.lower (Str.strip line)))
             skipped_headers).

(** The author a line names: what follows the first "by" and whitespace,
    as far as letters, whitespace and full stops go, stripped. *)
Definition author_of (line : string) : string :=
  if Str.contains "by " (Str.lower (Str.strip line)) then
    match re_search IndexPatterns.author_line (Str.strip line) with
    | Some author_match => Str.strip (group_or_empty author_match 1)
    | None => ""
    end
  else "".

Definition first_title (lines : list string) : string :=
  match find title_line lines with
  | Some line => Str.strip line
  | None => ""
  end.

Definition first_author (lines : list string) : string :=
  match find (fun line => Str.truthy (author_of line)) lines with
  | Some line => author_of line
  | None => ""
  end.

Section Detected.

Variable readlines : string -> option (list string).
Variable stem : string -> string.
Variable title_case : string -> string.

(** The title derived from the file name. *)
Definition fallback_title (file_path : string) : string :=
  title_case (Str.replace "-" " " (Str.replace "_" " " (stem file_path))).

Definition detected_title (file_path : string) : string :=
  match readlines file_path with
  | None => ""
  | Some lines =>
      let title := first_title (firstn 10 lines) in
      if Str.truthy title then title else fallback_title file_path
  end.

Definition detected_author (file_path : string) : string :=
  match readlines file_path with
  | None => ""
  | Some lines => first_author (firstn 10 lines)
  end.

Definition line_count (file_path : string) : Z :=
  match readlines file_path with
  | None => 0
  | Some lines => Z.of_nat (length lines)
  end.

(** The entry the index holds for a file. *)
Definition entry_of (file_path : string) : WorkInfo :=
  mkWorkInfo file_path
    (metadata_dict (detected_title file_path) (detected_author file_path)
       (line_count file_path))
    (_normalizeTitle (detected_title file_path)).

End Detected.

End IndexSpec.

(** ** Inputs at which the theorems are instantiated *)

(** A candidate with an empty text. *)
Definition empty_text_candidate : PassageCandidate :=
  mkPassageCandidate "bible:esv" 0.95%Q "" ∅ None None.

(** A biblical and a literary candidate, as the engine builds them. *)
Definition romans_candidate : PassageCandidate :=
  mkPassageCandidate "bible:esv" 0.95%Q
    "28 And we know that for those who love God all things work together for good."
    (list_to_map [ ("book", VStr "Romans"); ("chapter", VInt 8); ("verses", VStr "28");
                   ("translation", VStr "ESV"); ("source", VStr "bible_api") ])
    None None.

Definition dryden_candidate : PassageCandidate :=
  mkPassageCandidate "gutenberg:absalom" 0.5%Q
    "In pious times, ere priestcraft did begin"
    (list_to_map [ ("lines", VStr "1-1"); ("author", VStr "John Dryden");
                   ("title", VStr "Absalom and Achitophel");
                   ("source_file", VStr "absalom.txt"); ("total_lines", VInt 3) ])
    (Some 1) (Some 1).

(** A corpus of one work, and the candidates generated from it. *)
Definition demo_works : list (string * WorkInfo) :=
  [ ("absalom",
     mkWorkInfo "absalom.txt"
       (list_to_map [ ("title", VStr "Absalom and Achitophel");
                      ("author", VStr "John Dryden") ])
       "absalom and achitophel") ].

Definition demo_readlines (path : string) : option (list string) :=
  if String.eqb path "absalom.txt"
  then Some [ "1 In pious times, ere priestcraft did begin,";
              "Before polygamy was made a sin;";
              "  3. When man on many multiplied his kind" ]
  else None.

Definition demo_ratio (a b : string) : Q := if String.eqb a b then 1%Q else 0.5%Q.

Definition demo_citation : string := "Romans 8:28; 1 Cor 13:4-7".

Definition demo_found : list PassageCandidate :=
  Eval vm_compute in
    match generatePassageCandidates demo_works demo_readlines demo_ratio demo_citation 5 with
    | Ok found => found
    | Raise _ => []
    end.

(* ================================================================= *)
(** * Theorems *)

(** ** The string methods on small inputs *)

Example strip_example : Str.strip "  1 Cor  " = "1 Cor".
Proof. reflexivity. Qed.

Example split_example : Str.split ";" "a;;b;" = ["a"; ""; "b"; ""].
Proof. reflexivity. Qed.

Example of_int_example : Str.of_int (-12) = "-12" /\ Str.of_int 0 = "0".
Proof. split; reflexivity. Qed.

Example lower_example : Str.lower "1 Cor. XIV" = "1 cor. xiv".
Proof. reflexivity. Qed.

Example int_example : PyInt.parse "0120" = Ok 120 /\ PyInt.parse "1a" = Raise ValueError.
Proof. split; reflexivity. Qed.

(* ================================================================= *)
(** ** Facts about strings *)

Module StrFacts.

Lemma app_nil_r (s : string) : s ++ "" = s.
Proof. induction s as [|c s IH]; simpl; congruence. Qed.

Lemma app_assoc (a b c : string) : a ++ (b ++ c) = (a ++ b) ++ c.
Proof. induction a as [|x a IH]; simpl; congruence. Qed.

Lemma length_app (a b : string) :
  String.length (a ++ b) = (String.length a + String.length b)%nat.
Proof. induction a as [|x a IH]; simpl; congruence. Qed.

Lemma take_app (w t : string) :
  Str.take (String.length (w ++ t) - String.length t) (w ++ t) = w.
Proof.
  rewrite length_app.
  replace (String.length w + String.length t - String.length t)%nat
    with (String.length w) by lia.
  induction w as [|c w IH]; simpl.
  - destruct t; reflexivity.
  - now rewrite IH.
Qed.

Lemma forallb_app (p : ascii -> bool) (a b : string) :
  Str.forallb p (a ++ b) = Str.forallb p a && Str.forallb p b.
Proof. induction a as [|x a IH]; simpl; [reflexivity|]. rewrite IH. now destruct (p x). Qed.

Lemma has_char_app (c : ascii) (a b : string) :
  Str.has_char c (a ++ b) = Str.has_char c a || Str.has_char c b.
Proof.
  induction a as [|x a IH]; simpl; [reflexivity|].
  rewrite IH. now destruct (x =? c)%char.
Qed.

End StrFacts.

(* ================================================================= *)
(** ** What a successful match tells about the input and the captures *)

Module ReFacts.

Import ReSpec.

Section Soundness.

Context {A : Type}.
Variable ic : bool.

Lemma star_loop_sound (g : bool) (r : regex)
    (body : cursor -> caps -> @cont A -> option A) :
  sound_for ic r body ->
  forall n, sound_for ic (Star g r) (fun cu cs k => star_loop body g k n cu cs).
Proof.
  intros Hbody n. induction n as [|n IH]; intros cu cs k res H.
  - simpl in H. destruct g; simpl in H;
      (destruct (k cu cs) eqn:Hk; [|discriminate]);
      exists "", cu, cs;
      (split; [reflexivity | split; [apply D_StarNil | injection H as ->; exact Hk]]).
  - simpl in H.
    assert (Hstop : k cu cs = Some res ->
              exists w cu' cs', rest cu = w ++ rest cu' /\
                Derive ic (Star g r) w cs cs' /\ k cu' cs' = Some res).
    { intros Hk. exists "", cu, cs.
      split; [reflexivity | split; [apply D_StarNil | assumption]]. }
    assert (Hmore : forall x,
              body cu cs (fun cu' cs' =>
                if (String.length (rest cu') <? String.length (rest cu))%nat
                then star_loop body g k n cu' cs' else None) = Some x ->
              x = res ->
              exists w cu' cs', rest cu = w ++ rest cu' /\
                Derive ic (Star g r) w cs cs' /\ k cu' cs' = Some res).
    { intros x Hx ->. apply Hbody in Hx as (w1 & cu1 & cs1 & Hw1 & Hd1 & Hk1).
      destruct (String.length (rest cu1) <? String.length (rest cu))%nat; [|discriminate].
      apply IH in Hk1 as (w2 & cu2 & cs2 & Hw2 & Hd2 & Hk2).
      exists (w1 ++ w2), cu2, cs2. repeat split.
      - rewrite Hw1, Hw2. apply StrFacts.app_assoc.
      - econstructor; eassumption.
      - assumption. }
    destruct g; unfold orelse in H.
    + destruct (body cu cs _) eqn:Hb.
      * injection H as ->. exact (Hmore _ eq_refl eq_refl).
      * auto.
    + destruct (k cu cs) eqn:Hk.
      * injection H as ->. auto.
      * destruct (body cu cs _) eqn:Hb; [|discriminate].
        injection H as ->. exact (Hmore _ eq_refl eq_refl).
Qed.

Theorem mtch_sound (r : regex) : sound_for (A := A) ic r (mtch ic r).
Proof.
  induction r as [|set|r1 IH1 r2 IH2|r1 IH1 r2 IH2|g r IH|i r IH| | |];
    intros cu cs k res H; simpl in H.
  - exists "", cu, cs. repeat split; [constructor|assumption].
  - destruct cu as [p [|c t]]; simpl in H; [discriminate|].
    destruct (in_charset ic set c) eqn:Hc; [|discriminate].
    exists (String c ""), (Cursor (Some c) t), cs.
    repeat split; [now constructor|assumption].
  - apply IH1 in H as (w1 & cu1 & cs1 & Hw1 & Hd1 & H).
    apply IH2 in H as (w2 & cu2 & cs2 & Hw2 & Hd2 & H).
    exists (w1 ++ w2), cu2, cs2. repeat split.
    + rewrite Hw1, Hw2. apply StrFacts.app_assoc.
    + econstructor; eassumption.
    + assumption.
  - unfold orelse in H. destruct (mtch ic r1 cu cs k) eqn:H1.
    + injection H as ->. apply IH1 in H1 as (w & cu' & cs' & ? & ? & ?).
      exists w, cu', cs'. repeat split; [assumption|now apply D_AltL|assumption].
    + apply IH2 in H as (w & cu' & cs' & ? & ? & ?).
      exists w, cu', cs'. repeat split; [assumption|now apply D_AltR|assumption].
  - eapply (star_loop_sound g r (mtch ic r) IH); exact H.
  - apply IH in H as (w & cu' & cs' & Hw & Hd & H).
    exists w, cu', ((i, w) :: cs'). repeat split; [assumption|now constructor|].
    unfold consumed in H. rewrite Hw in H at 1 2. now rewrite StrFacts.take_app in H.
  - destruct (prev cu); [discriminate|].
    exists "", cu, cs. repeat split; [constructor|assumption].
  - destruct (at_end cu); [|discriminate].
    exists "", cu, cs. repeat split; [constructor|assumption].
  - destruct (at_word_boundary cu); [|discriminate].
    exists "", cu, cs. repeat split; [constructor|assumption].
Qed.

End Soundness.

Lemma match_at_sound (p : pattern) (cu cu' : cursor) (cs : caps) :
  match_at p cu = Some (cu', cs) ->
  exists w, rest cu = w ++ rest cu' /\ Derive (p_icase p) (p_re p) w [] cs.
Proof.
  unfold match_at. intros H.
  apply mtch_sound in H as (w & cu1 & cs1 & Hw & Hd & Hk).
  unfold accept in Hk. injection Hk as <- <-. eauto.
Qed.

Lemma re_match_sound (p : pattern) (s : string) (cs : caps) :
  re_match p s = Some cs ->
  exists w t, s = w ++ t /\ Derive (p_icase p) (p_re p) w [] cs.
Proof.
  unfold re_match. destruct (match_at p (Cursor None s)) as [[cu' cs']|] eqn:H; [|discriminate].
  simpl. intros [= <-]. apply match_at_sound in H as (w & Hw & Hd).
  exists w, (rest cu'). auto.
Qed.

Lemma search_from_sound (p : pattern) (s : string) :
  forall before cs,
    search_from p before s = Some cs ->
    exists w, Derive (p_icase p) (p_re p) w [] cs.
Proof.
  induction s as [|c t IH]; intros before cs H; simpl in H.
  - destruct (match_at p (Cursor before "")) as [[cu' cs']|] eqn:Hm; [|discriminate].
    injection H as <-. apply match_at_sound in Hm as (w & _ & Hd). eauto.
  - destruct (match_at p (Cursor before (String c t))) as [[cu' cs']|] eqn:Hm.
    + injection H as <-. apply match_at_sound in Hm as (w & _ & Hd). eauto.
    + eauto.
Qed.

(** *** Patterns without groups leave the captures alone *)

Lemma Derive_groupless ic r w cs cs' :
  Derive ic r w cs cs' -> groupless r = true -> cs' = cs.
Proof.
  induction 1; simpl; intros Hg; try reflexivity;
    try (apply andb_prop in Hg as [Hg1 Hg2]); try discriminate; auto.
  - rewrite IHDerive2, IHDerive1; auto.
  - rewrite IHDerive2, IHDerive1; auto.
Qed.

(** *** Repetitions of a character class *)

Lemma Derive_chr ic set w cs cs' :
  Derive ic (Chr set) w cs cs' ->
  cs' = cs /\ exists c, w = String c "" /\ in_charset ic set c = true.
Proof. intros H. inversion H; subst. eauto. Qed.

Lemma Derive_star_class ic g set w cs cs' :
  Derive ic (Star g (Chr set)) w cs cs' ->
  cs' = cs /\ Str.forallb (in_charset ic set) w = true.
Proof.
  remember (Star g (Chr set)) as r eqn:Hr. intros H. revert Hr.
  induction H; intros Hr; try discriminate.
  - auto.
  - injection Hr as -> ->. destruct (IHDerive2 eq_refl) as [-> Hall].
    apply Derive_chr in H as (-> & c & -> & Hc). split; [reflexivity|].
    simpl. now rewrite Hc, Hall.
Qed.

Lemma Derive_plus_class ic set w cs cs' :
  Derive ic (Plus (Chr set)) w cs cs' ->
  cs' = cs /\ w <> "" /\ Str.forallb (in_charset ic set) w = true.
Proof.
  unfold Plus. intros H. inversion H as [| |? ? w1 w2 ? cs1 ? Hd1 Hd2| | | | | | | |]; subst.
  apply Derive_star_class in Hd2 as [-> Hall].
  apply Derive_chr in Hd1 as (-> & c & -> & Hc).
  repeat split; [discriminate|].
  simpl. now rewrite Hc, Hall.
Qed.

Lemma in_charset_digit ic c : in_charset ic CDigit c = Char.py_isdecimal c.
Proof. destruct ic; destruct c as [[] [] [] [] [] [] [] []]; reflexivity. Qed.

Lemma Derive_digits ic w cs cs' :
  Derive ic Patterns.digits w cs cs' -> cs' = cs /\ is_number w.
Proof.
  intros H. apply Derive_plus_class in H as (-> & Hne & Hall).
  repeat split; [assumption|].
  clear Hne. induction w as [|c w IH]; [reflexivity|].
  cbn [Str.forallb] in *. rewrite in_charset_digit in Hall.
  destruct (Char.py_isdecimal c); [|discriminate]. simpl in *. auto.
Qed.

(** [int] never fails on such a group, and the value is not negative. *)
Lemma go_digits w : forall acc,
  Str.forallb Char.py_isdecimal w = true -> 0 <= acc ->
  exists z, PyInt.go acc w = Some z /\ 0 <= z.
Proof.
  induction w as [|c w IH]; intros acc Hall Hacc; simpl.
  - eauto.
  - simpl in Hall. apply andb_prop in Hall as [Hc Hall].
    unfold PyInt.digit. rewrite Hc.
    apply IH; [assumption|].
    assert (48 <= Z.of_N (Char.code c)).
    { unfold Char.py_isdecimal, Char.in_range, Char.between in Hc.
      apply andb_prop in Hc as [Hlo _]. apply N.leb_le in Hlo.
      change (Char.code "0") with 48%N in Hlo. lia. }
    lia.
Qed.

Lemma parse_number w :
  is_number w -> exists z, PyInt.parse w = Ok z /\ 0 <= z.
Proof.
  intros [Hne Hall]. unfold PyInt.parse.
  destruct w as [|c w]; [congruence|].
  destruct (go_digits (String c w) 0 Hall ltac:(lia)) as (z & -> & Hz). eauto.
Qed.

Lemma is_number_truthy w : is_number w -> Str.truthy w = true.
Proof. intros [Hne _]. destruct w; [congruence|reflexivity]. Qed.

(** Takes a derivation of a transcribed pattern apart, down to its
    groups. *)
Ltac invert_derive :=
  repeat match goal with
  | H : Derive _ Patterns.digits _ _ _ |- _ =>
      apply Derive_digits in H as [? ?]; subst
  | H : Derive _ ?r _ _ _ |- _ =>
      apply Derive_groupless in H; [subst | reflexivity]
  | H : Derive _ (Opt _) _ _ _ |- _ => unfold Opt in H
  | H : Derive _ (Seq _ _) _ _ _ |- _ => inversion H; subst; clear H
  | H : Derive _ (Group _ _) _ _ _ |- _ => inversion H; subst; clear H
  | H : Derive _ (Alt _ _) _ _ _ |- _ => inversion H; subst; clear H
  end.

(** *** The captures of each pattern of the parser *)

Lemma bible_standard_shape w cs :
  Derive true (p_re Patterns.bible_standard) w [] cs ->
  exists b c v, is_number c /\ is_number v /\
    (cs = [(3%nat, v); (2%nat, c); (1%nat, b)] \/
     exists e, is_number e /\ cs = [(4%nat, e); (3%nat, v); (2%nat, c); (1%nat, b)]).
Proof.
  cbv [p_re Patterns.bible_standard]. intros H. invert_derive.
  - eauto 10.
  - eauto 10.
Qed.

Lemma literature_drama_shape w cs :
  Derive true (p_re Patterns.literature_drama) w [] cs ->
  exists t a sc l, is_number l /\
    (cs = [(4%nat, l); (3%nat, sc); (2%nat, a); (1%nat, t)] \/
     exists e, is_number e /\
       cs = [(5%nat, e); (4%nat, l); (3%nat, sc); (2%nat, a); (1%nat, t)]).
Proof.
  cbv [p_re Patterns.literature_drama]. intros H. invert_derive.
  - eauto 10.
  - eauto 10.
Qed.

Lemma literature_book_shape w cs :
  Derive true (p_re Patterns.literature_book) w [] cs ->
  exists t bn l, is_number l /\
    (cs = [(3%nat, l); (2%nat, bn); (1%nat, t)] \/
     exists e, is_number e /\ cs = [(4%nat, e); (3%nat, l); (2%nat, bn); (1%nat, t)]).
Proof.
  cbv [p_re Patterns.literature_book]. intros H. invert_derive.
  all: eauto 10.
Qed.

Lemma literature_simple_shape w cs :
  Derive true (p_re Patterns.literature_simple) w [] cs ->
  exists t l, is_number l /\
    (cs = [(2%nat, l); (1%nat, t)] \/
     exists e, is_number e /\ cs = [(3%nat, e); (2%nat, l); (1%nat, t)]).
Proof.
  cbv [p_re Patterns.literature_simple]. intros H. invert_derive.
  all: eauto 10.
Qed.

Lemma mixed_reference_shape w cs :
  Derive true (p_re Patterns.mixed_reference) w [] cs ->
  exists a b, cs = [(2%nat, b); (1%nat, a)].
Proof.
  cbv [p_re Patterns.mixed_reference]. intros H. invert_derive. eauto.
Qed.

End ReFacts.

(* ================================================================= *)
(** ** The parser never raises, and what its references look like *)

Module ParserFacts.

Import ReSpec ReFacts ParserSpec.

#[local] Arguments normalizeBookNames : simpl never.
#[local] Arguments re_match : simpl never.
#[local] Arguments re_search : simpl never.
#[local] Arguments PyInt.parse : simpl never.
#[local] Arguments Str.strip : simpl never.

(** *** The book table *)

Lemma biblical_books_lookup (k v : string) :
  biblical_books !! k = Some v -> In (k, v) biblical_books_items.
Proof.
  intros H. apply list_elem_of_In.
  apply (elem_of_list_to_map_2 (M := gmap string)). exact H.
Qed.

Lemma biblical_books_values_truthy (k v : string) :
  biblical_books !! k = Some v -> Str.truthy v = true.
Proof.
  intros H. apply biblical_books_lookup in H.
  assert (Hall : forallb (fun kv => Str.truthy (snd kv)) biblical_books_items = true)
    by (vm_compute; reflexivity).
  rewrite forallb_forall in Hall. exact (Hall _ H).
Qed.

(** Every canonical name of the table normalizes to itself. *)
Lemma canonical_fixed (key canonical : string) :
  biblical_books !! key = Some canonical ->
  normalizeBookNames canonical = Some canonical.
Proof.
  intros H. apply biblical_books_lookup in H.
  assert (Hall : forallb
            (fun kv : string * string =>
               match normalizeBookNames (snd kv) with
               | Some c => String.eqb c (snd kv)
               | None => false
               end) biblical_books_items = true) by (vm_compute; reflexivity).
  rewrite forallb_forall in Hall. specialize (Hall _ H). cbn [snd] in Hall.
  destruct (normalizeBookNames canonical) as [c|]; [|discriminate].
  apply String.eqb_eq in Hall. now subst.
Qed.

(** The normalizer only returns values of the table. *)
Lemma normalizeBookNames_in_table (raw b : string) :
  normalizeBookNames raw = Some b -> exists key, biblical_books !! key = Some b.
Proof.
  unfold normalizeBookNames.
  set (clean := match re_match _ _ with Some _ => _ | None => _ end).
  destruct (biblical_books !! clean) as [v|] eqn:Hdirect.
  - intros [= <-]. eauto.
  - eauto.
Qed.

Lemma normalizeBookNames_truthy (raw b : string) :
  normalizeBookNames raw = Some b -> Str.truthy b = true.
Proof.
  unfold normalizeBookNames.
  set (clean := match re_match _ _ with Some _ => _ | None => _ end).
  destruct (biblical_books !! clean) as [v|] eqn:Hdirect.
  - intros [= <-]. eapply biblical_books_values_truthy; eassumption.
  - apply biblical_books_values_truthy.
Qed.

(** *** [mapM] over a body that does not raise *)

Lemma mapM_total {A B : Type} (f : A -> result B) (P : B -> Prop) (l : list A) :
  (forall a, In a l -> exists b, f a = Ok b /\ P b) ->
  exists bs, mapM f l = Ok bs /\ Forall P bs.
Proof.
  induction l as [|a l IH]; intros H; simpl.
  - eauto.
  - destruct (H a (or_introl eq_refl)) as (b & -> & Hb).
    destruct IH as (bs & -> & Hbs); [intros; apply H; now right|].
    simpl. eauto.
Qed.

Lemma mapM_ext_in {A B : Type} (f g : A -> result B) (l : list A) :
  (forall a, In a l -> f a = g a) -> mapM f l = mapM g l.
Proof.
  induction l as [|a l IH]; intros H; simpl; [reflexivity|].
  rewrite (H a (or_introl eq_refl)), IH; [reflexivity|].
  intros; apply H; now right.
Qed.

Lemma Forall_concat {A : Type} (P : A -> Prop) (ls : list (list A)) :
  Forall (Forall P) ls -> Forall P (concat ls).
Proof.
  induction 1; simpl; [constructor|]. apply Forall_app; auto.
Qed.

(** *** The pieces of a split carry no separator *)

Lemma split_no_sep (sep : ascii) (s p : string) :
  In p (Str.split sep s) -> Str.has_char sep p = false.
Proof.
  revert p. induction s as [|c t IH]; intros p; simpl.
  - intros [<-|[]]. reflexivity.
  - destruct (Ascii.eqb c sep) eqn:Hc.
    + intros [<-|Hin]; [reflexivity|auto].
    + destruct (Str.split sep t) as [|q qs] eqn:Hsplit.
      * intros [<-|[]]. simpl. now rewrite Hc.
      * intros [<-|Hin]; [|apply IH; now right].
        simpl. rewrite Hc. apply IH. now left.
Qed.

Lemma has_char_rev_onto (c : ascii) (s acc : string) :
  Str.has_char c (Str.rev_onto s acc) = Str.has_char c s || Str.has_char c acc.
Proof.
  revert acc. induction s as [|x s IH]; intros acc; simpl; [reflexivity|].
  rewrite IH. simpl. destruct (Ascii.eqb x c), (Str.has_char c s); reflexivity.
Qed.

Lemma has_char_rev (c : ascii) (s : string) :
  Str.has_char c (Str.rev s) = Str.has_char c s.
Proof. unfold Str.rev. rewrite has_char_rev_onto. simpl. apply orb_false_r. Qed.

Lemma has_char_drop_while (c : ascii) (p : ascii -> bool) (s : string) :
  Str.has_char c s = false -> Str.has_char c (Str.drop_while p s) = false.
Proof.
  induction s as [|x s IH]; simpl; [reflexivity|].
  intros H. apply orb_false_elim in H as [Hx Hs].
  destruct (p x); [auto|]. simpl. now rewrite Hx, Hs.
Qed.

Lemma has_char_strip (c : ascii) (s : string) :
  Str.has_char c s = false -> Str.has_char c (Str.strip s) = false.
Proof.
  intros H. unfold Str.strip.
  rewrite has_char_rev. apply has_char_drop_while.
  rewrite has_char_rev. now apply has_char_drop_while.
Qed.

(** *** References *)

Lemma nonneg_None : nonneg None.
Proof. intros z [=]. Qed.

Lemma nonneg_Some z : 0 <= z -> nonneg (Some z).
Proof. intros Hz z' [= <-]. exact Hz. Qed.

#[local] Hint Resolve nonneg_None nonneg_Some : core.

(** The optional end of a range: absent, it is the start. *)
Lemma range_end (cs : caps) (i : nat) (start : Z) :
  0 <= start ->
  (group cs i = None \/ exists e, group cs i = Some e /\ is_number e) ->
  exists z,
    (if truthy_opt Str.truthy (group cs i) then py_int (group cs i) else Ok start) = Ok z
    /\ 0 <= z.
Proof.
  intros Hs [->|(e & -> & He)]; simpl; [eauto|].
  rewrite (is_number_truthy _ He). apply parse_number. exact He.
Qed.

Lemma parse_single_biblical_total (citation : string) :
  exists rs, parse_single_biblical citation = Ok rs /\ Forall ref_ok rs.
Proof.
  unfold parse_single_biblical.
  destruct (re_match _ _) as [m|] eqn:Hm; [|eauto].
  apply re_match_sound in Hm as (w & t & _ & Hd).
  apply bible_standard_shape in Hd as (b & c & v & Hc & Hv & Hshape).
  destruct (parse_number _ Hc) as (zc & Ec & Hzc).
  destruct (parse_number _ Hv) as (zv & Ev & Hzv).
  assert (Hg : group m 1 = Some b /\ group m 2 = Some c /\ group m 3 = Some v /\
               (group m 4 = None \/ exists e, group m 4 = Some e /\ is_number e)).
  { destruct Hshape as [->|(e & He & ->)]; simpl; eauto 10. }
  destruct Hg as (-> & -> & -> & H4).
  destruct (range_end m 4 zv Hzv H4) as (ze & Ee & Hze).
  cbn [bind py_int str_receiver]. rewrite Ec, Ev. cbn [bind]. rewrite Ee. cbn [bind].
  destruct (normalizeBookNames b) as [nb|] eqn:Hn; [|eauto].
  rewrite (normalizeBookNames_truthy _ _ Hn).
  eexists; split; [reflexivity|].
  constructor; [|constructor].
  constructor; simpl; auto.
  intros _. exists nb. split; [reflexivity|]. now exists b.
Qed.

Lemma parseBiblical_rec_total (depth : nat) :
  forall citation,
    exists rs, parseBiblical_rec depth citation = Ok rs /\ Forall ref_ok rs.
Proof.
  induction depth as [|d IH]; intros citation; simpl.
  - destruct (Str.has_char ";" citation); [eauto|apply parse_single_biblical_total].
  - destruct (Str.has_char ";" citation); [|apply parse_single_biblical_total].
    destruct (mapM_total (parseBiblical_rec d) (Forall ref_ok)
                (map Str.strip (Str.split ";" citation))) as (rss & -> & Hall).
    { intros a _. apply IH. }
    simpl. eexists; split; [reflexivity|]. now apply Forall_concat.
Qed.

(** One level of self-calls is all [_parseBiblicalCitation] ever makes:
    a deeper bound gives the same result. *)
Lemma parseBiblical_depth (depth : nat) (citation : string) :
  parseBiblical_rec (S depth) citation = _parseBiblicalCitation citation.
Proof.
  unfold _parseBiblicalCitation. simpl.
  destruct (Str.has_char ";" citation); [|reflexivity].
  f_equal. apply mapM_ext_in. intros p Hp.
  apply in_map_iff in Hp as (q & <- & Hq).
  apply split_no_sep in Hq. apply (has_char_strip ";") in Hq.
  destruct depth; simpl; now rewrite Hq.
Qed.

Lemma parseBiblicalCitation_total (citation : string) :
  exists rs, _parseBiblicalCitation citation = Ok rs /\ Forall ref_ok rs.
Proof. apply parseBiblical_rec_total. Qed.

Lemma parseLiteraryCitation_total (citation : string) :
  exists rs, _parseLiteraryCitation citation = Ok rs /\ Forall ref_ok rs.
Proof.
  assert (Hlit : forall w sl el a sc bn, 0 <= sl -> 0 <= el ->
            Forall ref_ok [ mkCitationResult "literature" w None None None None
                              (Some sl) (Some el) a sc bn ]).
  { intros. constructor; [|constructor].
    constructor; simpl; auto. discriminate. }
  unfold _parseLiteraryCitation.
  destruct (re_match Patterns.literature_drama citation) as [m|] eqn:Hdrama.
  { apply re_match_sound in Hdrama as (w & t & _ & Hd).
    apply literature_drama_shape in Hd as (ti & a & sc & l & Hl & Hshape).
    destruct (parse_number _ Hl) as (zl & El & Hzl).
    assert (Hg : group m 1 = Some ti /\ group m 4 = Some l /\
                 (group m 5 = None \/ exists e, group m 5 = Some e /\ is_number e)).
    { destruct Hshape as [->|(e & He & ->)]; simpl; eauto 10. }
    destruct Hg as (E1 & E4 & H5).
    destruct (range_end m 5 zl Hzl H5) as (ze & Ee & Hze).
    rewrite E1, E4. cbn [bind py_int str_receiver]. rewrite El. cbn [bind].
    rewrite Ee. cbn [bind]. eauto. }
  destruct (re_match Patterns.literature_book citation) as [m|] eqn:Hbook.
  { apply re_match_sound in Hbook as (w & t & _ & Hd).
    apply literature_book_shape in Hd as (ti & bn & l & Hl & Hshape).
    destruct (parse_number _ Hl) as (zl & El & Hzl).
    assert (Hg : group m 1 = Some ti /\ group m 3 = Some l /\
                 (group m 4 = None \/ exists e, group m 4 = Some e /\ is_number e)).
    { destruct Hshape as [->|(e & He & ->)]; simpl; eauto 10. }
    destruct Hg as (E1 & E3 & H4).
    destruct (range_end m 4 zl Hzl H4) as (ze & Ee & Hze).
    rewrite E1, E3. cbn [bind py_int str_receiver]. rewrite El. cbn [bind].
    rewrite Ee. cbn [bind]. eauto. }
  destruct (re_match Patterns.literature_simple citation) as [m|] eqn:Hsimple; [|eauto].
  apply re_match_sound in Hsimple as (w & t & _ & Hd).
  apply literature_simple_shape in Hd as (ti & l & Hl & Hshape).
  destruct (parse_number _ Hl) as (zl & El & Hzl).
  assert (Hg : group m 1 = Some ti /\ group m 2 = Some l /\
               (group m 3 = None \/ exists e, group m 3 = Some e /\ is_number e)).
  { destruct Hshape as [->|(e & He & ->)]; simpl; eauto 10. }
  destruct Hg as (E1 & E2 & H3).
  destruct (range_end m 3 zl Hzl H3) as (ze & Ee & Hze).
  rewrite E1, E2. cbn [bind py_int str_receiver]. rewrite El. cbn [bind].
  rewrite Ee. cbn [bind]. eauto.
Qed.

(** *** The classifier *)

Lemma identifySourceType_biblical (citation : string) :
  match re_search Patterns.bible_standard citation with
  | Some biblical_match =>
      let* book_candidate := str_receiver (group biblical_match 1) in
      Ok (truthy_opt Str.truthy (normalizeBookNames book_candidate))
  | None => Ok false
  end = Ok (biblical_pattern_normalizes citation).
Proof.
  unfold biblical_pattern_normalizes.
  destruct (re_search Patterns.bible_standard citation) as [m|] eqn:Hs; [|reflexivity].
  apply search_from_sound in Hs as (w & Hd).
  apply bible_standard_shape in Hd as (b & c & v & _ & _ & Hshape).
  assert (E1 : group m 1 = Some b)
    by (destruct Hshape as [->|(e & He & ->)]; reflexivity).
  rewrite E1. cbn [bind str_receiver].
  destruct (normalizeBookNames b) as [nb|] eqn:Hn; [|reflexivity].
  simpl. now rewrite (normalizeBookNames_truthy _ _ Hn).
Qed.

Lemma identifySourceType_total (citation : string) :
  exists t, identifySourceType citation = Ok t /\
            (t = "mixed" \/ t = "bible" \/ t = "literature").
Proof.
  unfold identifySourceType.
  destruct (_ && _); [eauto|].
  rewrite identifySourceType_biblical. cbn [bind].
  destruct (biblical_pattern_normalizes citation); [eauto|].
  destruct (_ && _); eauto.
Qed.

Lemma parse_reference_total (ref : string) :
  exists rs, parse_reference ref = Ok rs /\ Forall ref_ok rs.
Proof.
  unfold parse_reference.
  destruct (identifySourceType_total ref) as (t & -> & _). cbn [bind].
  destruct (String.eqb t "bible");
    [apply parseBiblicalCitation_total|apply parseLiteraryCitation_total].
Qed.

Lemma parseMixedCitation_total (citation : string) :
  exists rs, _parseMixedCitation citation = Ok rs /\ Forall ref_ok rs.
Proof.
  unfold _parseMixedCitation.
  destruct (re_match Patterns.mixed_reference citation) as [m|] eqn:Hm; [|eauto].
  apply re_match_sound in Hm as (w & t & _ & Hd).
  apply mixed_reference_shape in Hd as (a & b & ->).
  cbn [group Nat.eqb bind str_receiver].
  destruct (parse_reference_total (Str.strip a)) as (r1 & -> & H1).
  destruct (parse_reference_total (Str.strip b)) as (r2 & -> & H2).
  cbn [bind]. eexists; split; [reflexivity|]. now apply Forall_app.
Qed.

Lemma parse_references_total (text : string) :
  exists t rs, parse_references text = Ok (t, rs) /\ Forall ref_ok rs /\
               identifySourceType text = Ok t.
Proof.
  unfold parse_references.
  destruct (identifySourceType_total text) as (t & Ht & Hcases). rewrite Ht. cbn [bind].
  destruct Hcases as [-> | [-> | ->]]; cbn [String.eqb Ascii.eqb Bool.eqb].
  - destruct (parseMixedCitation_total text) as (rs & E & Hrs).
    change (if "mixed" =? "bible" then _ else _)%string with (_parseMixedCitation text).
    rewrite E. cbn [bind]. eauto.
  - destruct (parseBiblicalCitation_total text) as (rs & E & Hrs).
    change (if "bible" =? "bible" then _ else _)%string with (_parseBiblicalCitation text).
    rewrite E. cbn [bind]. eauto.
  - destruct (parseLiteraryCitation_total text) as (rs & E & Hrs).
    change (if "literature" =? "bible" then _ else _)%string
      with (_parseLiteraryCitation text).
    rewrite E. cbn [bind]. eauto.
Qed.

(** [parseCitation] returns for every input. *)
Lemma parseCitation_total (text : string) :
  exists t rs,
    parseCitation text = Ok (mkParseResult (map citation_dict rs) t (Str.strip text))
    /\ Forall ref_ok rs
    /\ parse_references (Str.strip text) = Ok (t, rs).
Proof.
  unfold parseCitation.
  destruct (parse_references_total (Str.strip text)) as (t & rs & E & Hrs & _).
  rewrite E. cbn [bind fst snd]. eauto.
Qed.

End ParserFacts.

(* ================================================================= *)
(** ** What the matcher computes on a repeated character class *)

Module ReEval.

Import ReSpec.

Lemma star_class_greedy {A : Type} (ic : bool) (set : charset) (k : @cont A) (cs : caps) :
  forall n p s, (String.length s <= n)%nat ->
    star_loop (mtch ic (Chr set)) true k n (Cursor p s) cs = greedy_class ic set k p s cs.
Proof.
  induction n as [|n IH]; intros p s Hn.
  - destruct s; [reflexivity|simpl in Hn; lia].
  - destruct s as [|c t]; [reflexivity|].
    cbn [star_loop mtch rest greedy_class].
    destruct (in_charset ic set c); [|reflexivity].
    cbn [rest String.length].
    rewrite (proj2 (Nat.ltb_lt _ _)) by lia.
    rewrite IH by (simpl in Hn; lia). reflexivity.
Qed.

Lemma mtch_star_class {A : Type} (ic : bool) (set : charset) (k : @cont A) p s cs :
  mtch ic (Star true (Chr set)) (Cursor p s) cs k = greedy_class ic set k p s cs.
Proof. cbn [mtch rest]. now apply star_class_greedy. Qed.

Lemma mtch_plus_class {A : Type} (ic : bool) (set : charset) (k : @cont A) p s cs :
  mtch ic (Plus (Chr set)) (Cursor p s) cs k =
  match s with
  | String c t => if in_charset ic set c then greedy_class ic set k (Some c) t cs else None
  | EmptyString => None
  end.
Proof.
  unfold Plus. cbn [mtch rest]. destruct s as [|c t]; [reflexivity|].
  destruct (in_charset ic set c); [|reflexivity].
  now apply star_class_greedy.
Qed.

(** The continuation accepts at the end of the run: that is the answer. *)
Lemma greedy_class_longest {A : Type} (ic : bool) (set : charset) (k : @cont A) (cs : caps) x :
  forall s p, k (run_end ic set p s) cs = Some x -> greedy_class ic set k p s cs = Some x.
Proof.
  induction s as [|c t IH]; intros p H; simpl in *; [assumption|].
  destruct (in_charset ic set c); [|assumption].
  now rewrite (IH _ H).
Qed.

(** The continuation rejects the end of the run and every position in
    front of a [set] character: the repetition fails. *)
Lemma greedy_class_fails {A : Type} (ic : bool) (set : charset) (k : @cont A) (cs : caps) :
  (forall p c t, in_charset ic set c = true -> k (Cursor p (String c t)) cs = None) ->
  forall s p, k (run_end ic set p s) cs = None -> greedy_class ic set k p s cs = None.
Proof.
  intros Hmid. induction s as [|c t IH]; intros p H; simpl in *; [assumption|].
  destruct (in_charset ic set c) eqn:Hc; [|assumption].
  rewrite (IH _ H). simpl. now apply Hmid.
Qed.

Lemma run_end_rest (ic : bool) (set : charset) p s :
  rest (run_end ic set p s) = Str.drop_while (in_charset ic set) s.
Proof.
  revert p. induction s as [|c t IH]; intros p; simpl; [reflexivity|].
  destruct (in_charset ic set c); [apply IH|reflexivity].
Qed.

Lemma take_drop_while (f : ascii -> bool) (s : string) :
  Str.take_while f s ++ Str.drop_while f s = s.
Proof.
  induction s as [|c t IH]; simpl; [reflexivity|].
  destruct (f c); simpl; [now rewrite IH|reflexivity].
Qed.

Lemma length_drop_while (f : ascii -> bool) (s : string) :
  String.length s =
  (String.length (Str.take_while f s) + String.length (Str.drop_while f s))%nat.
Proof. rewrite <- StrFacts.length_app. now rewrite take_drop_while. Qed.

(** A run of [set] characters followed by nothing else of the pattern. *)
Lemma plus_class_accept (ic : bool) (set : charset) p s cs :
  mtch ic (Plus (Chr set)) (Cursor p s) cs accept =
  match s with
  | String c t =>
      if in_charset ic set c then Some (run_end ic set (Some c) t, cs) else None
  | EmptyString => None
  end.
Proof.
  rewrite mtch_plus_class. destruct s as [|c t]; [reflexivity|].
  destruct (in_charset ic set c); [|reflexivity].
  now apply greedy_class_longest.
Qed.

End ReEval.

(* ================================================================= *)
(** ** The normalizer, step by step *)

Module NormalizerFacts.

Import ReSpec ReEval NormalizerSpec.

(** *** [re.sub] of a whitespace run by one space *)

Lemma run_length_take_while f s : run_length f s = String.length (Str.take_while f s).
Proof. induction s as [|c t IH]; simpl; [reflexivity|]. destruct (f c); simpl; auto. Qed.

Lemma match_whitespace_run p s :
  match_at Patterns.whitespace_run (Cursor p s) =
  match s with
  | String c t =>
      if Char.py_isspace c then Some (run_end false CSpace (Some c) t, []) else None
  | EmptyString => None
  end.
Proof.
  unfold match_at, Patterns.whitespace_run, Patterns.spaces. cbn [p_icase p_re].
  rewrite plus_class_accept. destruct s as [|c t]; [reflexivity|].
  change (in_charset false CSpace c) with (Char.py_isspace c || false).
  now rewrite orb_false_r.
Qed.

Lemma in_charset_space c : in_charset false CSpace c = Char.py_isspace c.
Proof. simpl. apply orb_false_r. Qed.

Lemma length_run_end_space p s :
  (String.length s - String.length (rest (run_end false CSpace p s)))%nat
  = run_length Char.py_isspace s.
Proof.
  rewrite run_end_rest, run_length_take_while.
  rewrite (length_drop_while (in_charset false CSpace) s) at 1.
  rewrite Nat.add_sub. f_equal.
  clear. induction s as [|c t IH]; [reflexivity|].
  cbn [Str.take_while]. rewrite in_charset_space.
  destruct (Char.py_isspace c); [now rewrite IH|reflexivity].
Qed.

Lemma sub_whitespace_both (s : string) :
  (forall p, sub_go Patterns.whitespace_run one_space p s O = collapse_aux false s) /\
  (forall p, sub_go Patterns.whitespace_run one_space p s (run_length Char.py_isspace s)
             = collapse_aux true s).
Proof.
  induction s as [|c t [IH0 IHrun]].
  - split; intros p; reflexivity.
  - assert (H0 : forall p, sub_go Patterns.whitespace_run one_space p (String c t) O
                           = collapse_aux false (String c t)).
    { intros p. cbn [sub_go]. rewrite match_whitespace_run.
      cbn [collapse_aux]. destruct (Char.py_isspace c) eqn:Hc.
      - change (String.length (String c t)) with (S (String.length t)).
        assert (Hlen : (S (String.length t)
                        - String.length (rest (run_end false CSpace (Some c) t)))%nat
                       = S (run_length Char.py_isspace t)).
        { rewrite <- (length_run_end_space (Some c) t).
          rewrite run_end_rest.
          pose proof (length_drop_while (in_charset false CSpace) t). lia. }
        rewrite Hlen. unfold one_space at 1. cbn [String.append].
        now rewrite IHrun.
      - now rewrite IH0. }
    split; [exact H0|].
    intros p. cbn [run_length collapse_aux].
    destruct (Char.py_isspace c) eqn:Hc.
    + cbn [sub_go]. apply IHrun.
    + specialize (H0 p). cbn [collapse_aux] in H0. now rewrite Hc in H0.
Qed.

Lemma sub_whitespace (s : string) :
  re_sub Patterns.whitespace_run (fun _ => " ") s = collapse_whitespace s.
Proof. apply (proj1 (sub_whitespace_both s)). Qed.

(** *** The numbered-book patterns *)

Lemma space_not_lower c : Char.py_isspace c = true -> Char.is_ascii_lower c = false.
Proof. destruct c as [[] [] [] [] [] [] [] []]; vm_compute; congruence. Qed.

Lemma digit_not_space c : Char.py_isdecimal c = true -> Char.py_isspace c = false.
Proof. destruct c as [[] [] [] [] [] [] [] []]; vm_compute; congruence. Qed.

Lemma digit_not_lower c : Char.py_isdecimal c = true -> Char.is_ascii_lower c = false.
Proof. destruct c as [[] [] [] [] [] [] [] []]; vm_compute; congruence. Qed.

Lemma in_charset_lower c : in_charset false (CRange "a" "z") c = Char.is_ascii_lower c.
Proof. simpl. apply orb_false_r. Qed.

Lemma run_end_eq (ic : bool) (set : charset) (f : ascii -> bool) :
  (forall c, in_charset ic set c = f c) ->
  forall s p, rest (run_end ic set p s) = Str.drop_while f s.
Proof.
  intros Hf s p. rewrite run_end_rest.
  induction s as [|c t IH]; simpl; [reflexivity|].
  rewrite <- Hf. simpl. destruct (in_charset ic set c); [apply IH|reflexivity].
Qed.

Lemma run_end_stay (ic : bool) (set : charset) p c t :
  in_charset ic set c = false -> run_end ic set p (String c t) = Cursor p (String c t).
Proof. intros H. simpl. now rewrite H. Qed.

(** [[a-z]+] in front of an accepting continuation. *)
Lemma letters_eval {A : Type} (k : @cont A) p u cs :
  accepting k ->
  mtch false Patterns.lower_letters (Cursor p u) cs k =
  match u with
  | String a v =>
      if Char.is_ascii_lower a then k (run_end false (CRange "a" "z") (Some a) v) cs
      else None
  | EmptyString => None
  end.
Proof.
  intros Hk. unfold Patterns.lower_letters. rewrite mtch_plus_class.
  destruct u as [|a v]; [reflexivity|]. rewrite in_charset_lower.
  destruct (Char.is_ascii_lower a); [|reflexivity].
  destruct (k (run_end false (CRange "a" "z") (Some a) v) cs) as [x|] eqn:Hx.
  - now apply greedy_class_longest.
  - now apply Hk in Hx.
Qed.

(** [\s*[a-z]+]: the letters must start right after the whitespace. *)
Lemma spaces_letters_eval {A : Type} (k : cursor -> @cont A) p u cs :
  (forall cu, accepting (k cu)) ->
  mtch false Patterns.opt_spaces (Cursor p u) cs
    (fun cu3 cs3 => mtch false Patterns.lower_letters cu3 cs3 (k cu3)) =
  let cu3 := run_end false CSpace p u in
  mtch false Patterns.lower_letters cu3 cs (k cu3).
Proof.
  intros Hk. unfold Patterns.opt_spaces, Many. rewrite mtch_star_class.
  cbv zeta.
  destruct (mtch false Patterns.lower_letters (run_end false CSpace p u) cs
              (k (run_end false CSpace p u))) as [x|] eqn:Hx.
  - now apply greedy_class_longest.
  - apply greedy_class_fails; [|exact Hx].
    intros p' c t Hc. rewrite letters_eval by apply Hk.
    rewrite in_charset_space in Hc. now rewrite (space_not_lower _ Hc).
Qed.

(** [\d+\s*[a-z]+]: the number is the whole run of digits. *)
Lemma digits_spaces_letters_eval {A : Type}
    (f : cursor -> caps -> caps) (k : cursor -> cursor -> @cont A) p s cs :
  (forall cu2 cu3, accepting (k cu2 cu3)) ->
  mtch false Patterns.digits (Cursor p s) cs
    (fun cu2 cs2 =>
       mtch false Patterns.opt_spaces cu2 (f cu2 cs2)
         (fun cu3 cs3 => mtch false Patterns.lower_letters cu3 cs3 (k cu2 cu3))) =
  match s with
  | String c t =>
      if Char.py_isdecimal c then
        let cu2 := run_end false CDigit (Some c) t in
        let cu3 := run_end false CSpace (prev cu2) (rest cu2) in
        mtch false Patterns.lower_letters cu3 (f cu2 cs) (k cu2 cu3)
      else None
  | EmptyString => None
  end.
Proof.
  intros Hk. unfold Patterns.digits. rewrite mtch_plus_class.
  destruct s as [|c t]; [reflexivity|]. rewrite ReFacts.in_charset_digit.
  destruct (Char.py_isdecimal c); [|reflexivity]. cbv zeta.
  set (K := fun cu2 cs2 => mtch false Patterns.opt_spaces cu2 (f cu2 cs2) _).
  assert (HK : forall cu2 cs2,
             K cu2 cs2 =
             mtch false Patterns.lower_letters
               (run_end false CSpace (prev cu2) (rest cu2)) (f cu2 cs2)
               (k cu2 (run_end false CSpace (prev cu2) (rest cu2)))).
  { intros [p2 u2] cs2. unfold K.
    now rewrite (spaces_letters_eval (k (Cursor p2 u2)) p2 u2 _ (Hk _)). }
  rewrite <- HK.
  destruct (K (run_end false CDigit (Some c) t) cs) as [x|] eqn:Hx.
  - now apply greedy_class_longest.
  - apply greedy_class_fails; [|exact Hx].
    intros p' c' t' Hc'. rewrite ReFacts.in_charset_digit in Hc'.
    rewrite HK. cbn [prev rest].
    rewrite run_end_stay by (rewrite in_charset_space; now apply digit_not_space).
    rewrite letters_eval by apply Hk.
    now rewrite (digit_not_lower _ Hc').
Qed.

Lemma accepting_accept : accepting accept.
Proof. intros cu cs. discriminate. Qed.

Lemma rest_after_number c t :
  Char.py_isdecimal c = true ->
  rest (run_end false CSpace
          (prev (run_end false CDigit (Some c) t))
          (rest (run_end false CDigit (Some c) t)))
  = after_number (String c t).
Proof.
  intros Hc. unfold after_number. cbn [Str.drop_while]. rewrite Hc.
  rewrite (run_end_eq false CSpace Char.py_isspace in_charset_space).
  now rewrite (run_end_eq false CDigit Char.py_isdecimal (ReFacts.in_charset_digit false)).
Qed.

(** [re.match] of the numbered-book pattern succeeds exactly on a number,
    optional whitespace, and a lower-case letter. *)
Lemma match_numbered_book (s : string) :
  re_match Patterns.numbered_book s <> None <->
  exists c t a v,
    s = String c t /\ Char.py_isdecimal c = true /\
    after_number s = String a v /\ Char.is_ascii_lower a = true.
Proof.
  unfold re_match, match_at, Patterns.numbered_book. cbn [p_icase p_re].
  cbn [mtch prev].
  rewrite (digits_spaces_letters_eval (fun _ cs => cs) (fun _ _ => accept) None s []
             (fun _ _ => accepting_accept)).
  destruct s as [|c t].
  - split; [intros H; now contradiction H|intros (c & t & a & v & [=] & _)].
  - destruct (Char.py_isdecimal c) eqn:Hc.
    + cbv zeta. set (cu3 := run_end false CSpace _ _).
      assert (Hrest : rest cu3 = after_number (String c t))
        by now apply rest_after_number.
      destruct cu3 as [p3 u3]. cbn [rest] in Hrest. subst u3.
      rewrite letters_eval by apply accepting_accept.
      destruct (after_number (String c t)) as [|a v] eqn:Hafter.
      * split; [intros H; now contradiction H|].
        intros (? & ? & ? & ? & _ & _ & [=] & _).
      * destruct (Char.is_ascii_lower a) eqn:Ha.
        -- split; [|discriminate]. intros _. exists c, t, a, v. auto.
        -- split; [intros H; now contradiction H|].
           intros (? & ? & ? & ? & _ & _ & [= <- <-] & Ha'). congruence.
    + split; [intros H; now contradiction H|].
      intros (? & ? & ? & ? & [= <- <-] & Hc' & _). congruence.
Qed.

(** *** [re.sub] of the numbered-book pattern *)

Lemma take_length_drop_while (f : ascii -> bool) (s : string) :
  Str.take (String.length s - String.length (Str.drop_while f s)) s = Str.take_while f s.
Proof.
  rewrite <- (take_drop_while f s) at 1 3. apply StrFacts.take_app.
Qed.

Lemma drop_app (w r : string) : Str.drop (String.length w) (w ++ r) = r.
Proof. induction w as [|c w IH]; simpl; [now destruct r|exact IH]. Qed.

Lemma drop_length_drop_while (f : ascii -> bool) (s : string) :
  Str.drop (String.length s - String.length (Str.drop_while f s)) s = Str.drop_while f s.
Proof.
  rewrite (length_drop_while f s) at 1. rewrite Nat.add_sub.
  rewrite <- (take_drop_while f s) at 2. apply drop_app.
Qed.

(** Past the start of the string the pattern cannot match: the rest is
    copied. *)
Lemma sub_numbered_skip (s : string) :
  forall n p, sub_go Patterns.numbered_book_groups spaced (Some p) s n = Str.drop n s.
Proof.
  induction s as [|c t IH]; intros n p.
  - destruct n; reflexivity.
  - destruct n as [|n].
    + cbn [sub_go]. unfold match_at, Patterns.numbered_book_groups.
      cbn [p_icase p_re mtch prev]. now rewrite IH.
    + cbn [sub_go Str.drop]. apply IH.
Qed.

Lemma match_numbered_book_groups (c : ascii) (t : string) (a : ascii) (v : string) :
  Char.py_isdecimal c = true ->
  after_number (String c t) = String a v ->
  Char.is_ascii_lower a = true ->
  exists p4,
    match_at Patterns.numbered_book_groups (Cursor None (String c t)) =
    Some (Cursor p4 (Str.drop_while Char.is_ascii_lower (String a v)),
          [(2%nat, Str.take_while Char.is_ascii_lower (String a v));
           (1%nat, Str.take_while Char.py_isdecimal (String c t))]).
Proof.
  intros Hc Hafter Ha.
  unfold match_at, Patterns.numbered_book_groups. cbn [p_icase p_re].
  cbn [mtch prev].
  rewrite (digits_spaces_letters_eval
             (fun cu2 cs2 => (1%nat, consumed (Cursor None (String c t)) cu2) :: cs2)
             (fun _ cu3 cu4 cs4 => accept cu4 ((2%nat, consumed cu3 cu4) :: cs4))
             None (String c t) []);
    [|intros cu2 cu3 cu4 cs4; discriminate].
  rewrite Hc. cbv zeta.
  pose proof (rest_after_number c t Hc) as Hrest. rewrite Hafter in Hrest.
  set (cu2 := run_end false CDigit (Some c) t) in *.
  set (cu3 := run_end false CSpace (prev cu2) (rest cu2)) in *.
  assert (Hcu2 : rest cu2 = Str.drop_while Char.py_isdecimal (String c t)).
  { unfold cu2. cbn [Str.drop_while]. rewrite Hc.
    apply (run_end_eq false CDigit Char.py_isdecimal (ReFacts.in_charset_digit false)). }
  destruct cu3 as [p3 u3] eqn:Ecu3. cbn [rest] in Hrest. subst u3.
  rewrite letters_eval by (intros cu4 cs4; discriminate).
  rewrite Ha.
  set (cu4 := run_end false (CRange "a" "z") (Some a) v).
  assert (Hcu4 : rest cu4 = Str.drop_while Char.is_ascii_lower (String a v)).
  { unfold cu4. cbn [Str.drop_while]. rewrite Ha.
    apply (run_end_eq false (CRange "a" "z") Char.is_ascii_lower in_charset_lower). }
  exists (prev cu4). unfold accept. f_equal. f_equal.
  - destruct cu4 as [p4 u4]. cbn [rest prev] in *. now subst u4.
  - unfold consumed. cbn [rest]. rewrite Hcu4, Hcu2.
    now rewrite !take_length_drop_while.
Qed.

Lemma sub_numbered_book (s : string) :
  match re_match Patterns.numbered_book s with
  | Some _ => re_sub Patterns.numbered_book_groups spaced s
  | None => s
  end = space_numbered s.
Proof.
  pose proof (match_numbered_book s) as Hiff.
  destruct (re_match Patterns.numbered_book s) as [m|] eqn:Hm.
  - destruct (proj1 Hiff ltac:(discriminate)) as (c & t & a & v & -> & Hc & Hafter & Ha).
    destruct (match_numbered_book_groups c t a v Hc Hafter Ha) as (p4 & Hgroups).
    unfold re_sub. cbn [sub_go]. rewrite Hgroups. cbn [rest].
    unfold space_numbered. fold (after_number (String c t)). rewrite Hafter, Ha.
    assert (Hnum : exists d, Str.take_while Char.py_isdecimal (String c t) = String c d).
    { cbn [Str.take_while]. rewrite Hc. eauto. }
    destruct Hnum as (d & Hnum). rewrite Hnum.
    (* the length of the match *)
    assert (Hsuffix :
      Str.drop (String.length (String c t)
                - String.length (Str.drop_while Char.is_ascii_lower (String a v)))
               (String c t)
      = Str.drop_while Char.is_ascii_lower (String a v)).
    { set (r := Str.drop_while Char.is_ascii_lower (String a v)).
      assert (Hs : exists w, String c t = w ++ r).
      { exists (Str.take_while Char.py_isdecimal (String c t)
                ++ Str.take_while Char.py_isspace
                     (Str.drop_while Char.py_isdecimal (String c t))
                ++ Str.take_while Char.is_ascii_lower (String a v)).
        rewrite <- !StrFacts.app_assoc. unfold r.
        rewrite take_drop_while. rewrite <- Hafter. unfold after_number.
        now rewrite !take_drop_while. }
      destruct Hs as (w & Hs). rewrite Hs at 1 2.
      rewrite StrFacts.length_app, Nat.add_sub. apply drop_app. }
    destruct (String.length (String c t)
              - String.length (Str.drop_while Char.is_ascii_lower (String a v)))%nat
      as [|len] eqn:Hlen.
    + (* a match is never empty: it holds the digit *)
      exfalso. cbn [Str.drop] in Hsuffix.
      assert (Hl : (String.length (String c t)
                    <= String.length (Str.drop_while Char.is_ascii_lower (String a v)))%nat)
        by lia.
      rewrite <- Hsuffix in Hl.
      assert (Hlt : (String.length (Str.drop_while Char.is_ascii_lower (String a v))
                     < String.length (String a v))%nat).
      { pose proof (length_drop_while Char.is_ascii_lower (String a v)) as Hd.
        cbn [Str.take_while] in Hd. rewrite Ha in Hd. simpl in Hd. simpl. lia. }
      assert (Hle : (String.length (String a v) <= String.length (String c t))%nat).
      { rewrite <- Hafter. unfold after_number.
        pose proof (length_drop_while Char.py_isspace
                      (Str.drop_while Char.py_isdecimal (String c t))).
        pose proof (length_drop_while Char.py_isdecimal (String c t)). lia. }
      rewrite Hsuffix in Hl. lia.
    + rewrite sub_numbered_skip. cbn [Str.drop] in Hsuffix. rewrite Hsuffix.
      unfold spaced, group_or_empty. cbn [group Nat.eqb].
      rewrite <- !StrFacts.app_assoc. cbn [String.append].
      now rewrite take_drop_while.
  - unfold space_numbered.
    destruct (Str.take_while Char.py_isdecimal s) as [|c d] eqn:Hnum; [reflexivity|].
    fold (after_number s).
    destruct (after_number s) as [|a v] eqn:Hafter; [reflexivity|].
    destruct (Char.is_ascii_lower a) eqn:Ha; [|reflexivity].
    exfalso. apply (proj2 Hiff); [|reflexivity].
    destruct s as [|c' t]; [discriminate|].
    cbn [Str.take_while] in Hnum.
    destruct (Char.py_isdecimal c') eqn:Hc'; [|discriminate].
    exists c', t, a, v. auto.
Qed.

(** [normalizeBookNames] is the stepwise normalizer. *)
Lemma normalizeBookNames_spec (raw : string) :
  normalizeBookNames raw = normalize_spec raw.
Proof.
  unfold normalizeBookNames, normalize_spec, lookup_key, without_spaces.
  rewrite sub_whitespace.
  change (fun m : caps => group_or_empty m 1 ++ " " ++ group_or_empty m 2) with spaced.
  now rewrite sub_numbered_book.
Qed.

End NormalizerFacts.

(* ================================================================= *)
(** ** The dictionaries [parseCitation] returns *)

Module DictFacts.

Import ParserSpec ParserFacts.

Lemma lookup_put_str key v (d : gmap string pyval) k x :
  put_str key v d !! k = Some x ->
  (k = key /\ exists s, v = Some s /\ Str.truthy s = true /\ x = VStr s)
  \/ d !! k = Some x.
Proof.
  unfold put_str. destruct v as [s|]; simpl; [|auto].
  destruct (Str.truthy s) eqn:Hs; [|auto].
  rewrite lookup_insert. case_decide; [|auto].
  intros [= <-]. left. eauto.
Qed.

Lemma lookup_put_int key v (d : gmap string pyval) k x :
  put_int key v d !! k = Some x ->
  (k = key /\ exists n, v = Some n /\ n <> 0 /\ x = VInt n)
  \/ d !! k = Some x.
Proof.
  unfold put_int. destruct v as [n|]; simpl; [|auto].
  unfold int_truthy. destruct (n =? 0) eqn:Hn; simpl; [auto|].
  rewrite lookup_insert. case_decide; [|auto].
  intros [= <-]. left. split; [congruence|]. exists n. repeat split. lia.
Qed.

Lemma lookup_put_str_ne key v (d : gmap string pyval) k :
  key <> k -> put_str key v d !! k = d !! k.
Proof.
  intros Hne. unfold put_str. destruct v as [s|]; simpl; [|reflexivity].
  destruct (Str.truthy s); [|reflexivity]. now rewrite lookup_insert_ne.
Qed.

Lemma lookup_put_int_ne key v (d : gmap string pyval) k :
  key <> k -> put_int key v d !! k = d !! k.
Proof.
  intros Hne. unfold put_int. destruct v as [n|]; simpl; [|reflexivity].
  destruct (int_truthy n); [|reflexivity]. now rewrite lookup_insert_ne.
Qed.

Lemma citation_dict_lookup r k x :
  citation_dict r !! k = Some x -> stored r k x.
Proof.
  unfold citation_dict. intros H.
  repeat match type of H with
  | put_str _ _ _ !! _ = Some _ =>
      apply lookup_put_str in H as [(-> & s & Hv & Hs & ->)|H];
        [eapply stored_str; [|exact Hv|exact Hs]; simpl; tauto|]
  | put_int _ _ _ !! _ = Some _ =>
      apply lookup_put_int in H as [(-> & n & Hv & Hn & ->)|H];
        [eapply stored_int; [|exact Hv|exact Hn]; simpl; tauto|]
  end.
  apply lookup_singleton_Some in H as [<- <-]. constructor.
Qed.

Lemma citation_dict_type r : citation_dict r !! "type" = Some (VStr (type r)).
Proof.
  unfold citation_dict.
  rewrite !lookup_put_str_ne, !lookup_put_int_ne, !lookup_put_str_ne by discriminate.
  apply lookup_singleton_eq.
Qed.

Lemma citation_dict_book r b :
  book r = Some b -> Str.truthy b = true -> citation_dict r !! "book" = Some (VStr b).
Proof.
  intros Hb Ht. unfold citation_dict.
  rewrite !lookup_put_str_ne, !lookup_put_int_ne by discriminate.
  unfold put_str at 1. rewrite Hb. simpl. rewrite Ht. apply lookup_insert_eq.
Qed.

Lemma stored_truthy r k x :
  ref_ok r -> stored r k x -> truthy x = true.
Proof.
  intros Hok [|k' field s _ _ Hs|k' field n _ _ Hn]; simpl.
  - destruct (ok_type r Hok) as [-> | ->]; reflexivity.
  - exact Hs.
  - destruct (n =? 0) eqn:E; [lia|reflexivity].
Qed.

Lemma stored_int_positive r k n :
  ref_ok r -> stored r k (VInt n) -> 0 < n.
Proof.
  intros Hok H. remember (VInt n) as x eqn:Hx.
  destruct H as [|? ? ? ? ? ?|k' field n' Hin Hfield Hn]; try discriminate.
  injection Hx as ->.
  assert (Hnn : nonneg field).
  { simpl in Hin.
    destruct Hin as [[= <- <-]|[[= <- <-]|[[= <- <-]|[[= <- <-]|[[= <- <-]|[]]]]]];
      apply Hok. }
  specialize (Hnn _ Hfield). lia.
Qed.

End DictFacts.

(* ================================================================= *)
(** ** Properties of the parser *)



(** C3: the classifier never raises, and its answer follows the decision
    order mixed / biblical pattern with a normalizing book / semicolon and
    colon / literature. *)
Theorem C3_classifier_decision_order :
  forall citation,
    identifySourceType citation = Ok (ClassifierSpec.classify citation).
Proof.
  intros citation. unfold identifySourceType, ClassifierSpec.classify.
  unfold ClassifierSpec.has_cf_marker, ClassifierSpec.has_semicolon, ClassifierSpec.has_colon.
  destruct (Str.contains "cf." (Str.lower citation) && Str.has_char ";" citation);
    [reflexivity|].
  rewrite ParserFacts.identifySourceType_biblical. cbn [bind].
  destruct (ParserSpec.biblical_pattern_normalizes citation); [reflexivity|].
  destruct (Str.has_char ";" citation && Str.has_char ":" citation); reflexivity.
Qed.

(** C4: [normalizeBookNames] lower-cases the trimmed name, collapses its
    whitespace, spaces a numbered-book form, looks the result up, retries
    with the spaces removed, and returns [None] exactly when both lookups
    fail; "1Cor" and "1 Cor" both give "1 Corinthians". *)
Theorem C4_normalizer_algorithm :
  (forall raw, normalizeBookNames raw = NormalizerSpec.normalize_spec raw) /\
  (forall raw,
     normalizeBookNames raw = None <->
     biblical_books !! NormalizerSpec.lookup_key raw = None /\
     biblical_books !! NormalizerSpec.without_spaces (NormalizerSpec.lookup_key raw) = None) /\
  normalizeBookNames "1Cor" = Some "1 Corinthians" /\
  normalizeBookNames "1 Cor" = Some "1 Corinthians".
Proof.
  split; [exact NormalizerFacts.normalizeBookNames_spec|].
  split; [|split; vm_compute; reflexivity].
  intros raw. rewrite NormalizerFacts.normalizeBookNames_spec.
  unfold NormalizerSpec.normalize_spec.
  destruct (biblical_books !! NormalizerSpec.lookup_key raw) as [c|].
  - split; [discriminate|]. intros [[=] _].
  - split; [auto|]. intros [_ H]. exact H.
Qed.

(** C5: normalizing a canonical name, that is any value of the book table
    or, which is the same, any name the normalizer returns, gives that name
    back. *)
Theorem C5_canonical_names_fixed :
  forall canonical,
    ((exists key, biblical_books !! key = Some canonical) \/
     (exists raw, normalizeBookNames raw = Some canonical)) ->
    normalizeBookNames canonical = Some canonical.
Proof.
  intros canonical [(key & H)|(raw & H)].
  - eapply ParserFacts.canonical_fixed; eassumption.
  - apply ParserFacts.normalizeBookNames_in_table in H as (key & H).
    eapply ParserFacts.canonical_fixed; eassumption.
Qed.

Lemma C5_witness_genesis :
  biblical_books !! "gen" = Some "Genesis" /\ normalizeBookNames "Genesis" = Some "Genesis".
Proof.
  split; [vm_compute; reflexivity|].
  apply (C5_canonical_names_fixed "Genesis"). left. exists "gen". vm_compute. reflexivity.
Defined.


(* ================================================================= *)
(** ** Sorting and slicing *)

Module ListFacts.

Import ListSpec.

Section Sorting.

Context {A : Type}.
Variable key : A -> Q.

Lemma insert_desc_perm (x : A) (l : list A) :
  Permutation (x :: l) (insert_desc key x l).
Proof.
  induction l as [|y t IH]; simpl; [reflexivity|].
  destruct (Qle_bool (key y) (key x)); [reflexivity|].
  rewrite perm_swap. now apply perm_skip.
Qed.

Lemma sort_desc_perm (l : list A) : Permutation l (sort_desc key l).
Proof.
  induction l as [|x t IH]; simpl; [reflexivity|].
  rewrite <- insert_desc_perm. now apply perm_skip.
Qed.

Lemma insert_desc_sorted (x : A) (l : list A) :
  descending key l -> descending key (insert_desc key x l).
Proof.
  unfold descending. induction l as [|y t IH]; intros Hs; simpl.
  - constructor; constructor.
  - apply StronglySorted_inv in Hs as [Ht Hy].
    destruct (Qle_bool (key y) (key x)) eqn:Hle.
    + apply Qle_bool_iff in Hle.
      constructor; [constructor; assumption|].
      constructor; [assumption|].
      eapply List.Forall_impl; [|exact Hy]. simpl. intros z Hz. lra.
    + assert (Hlt : (key x < key y)%Q).
      { apply Qnot_le_lt. intros H. apply Qle_bool_iff in H. congruence. }
      constructor; [now apply IH|].
      eapply Permutation_Forall; [apply insert_desc_perm|].
      constructor; [lra|assumption].
Qed.

Lemma sort_desc_sorted (l : list A) : descending key (sort_desc key l).
Proof.
  induction l as [|x t IH]; simpl; [constructor|].
  now apply insert_desc_sorted.
Qed.

(** Stability: the elements of any one key keep their relative order. *)
Lemma insert_desc_tied (q : Q) (x : A) (l : list A) :
  tied key q (insert_desc key x l) = tied key q (x :: l).
Proof.
  unfold tied. induction l as [|y t IH]; [reflexivity|].
  cbn [insert_desc]. destruct (Qle_bool (key y) (key x)) eqn:Hle; [reflexivity|].
  assert (Hlt : (key x < key y)%Q).
  { apply Qnot_le_lt. intros H. apply Qle_bool_iff in H. congruence. }
  cbn [List.filter] in *. rewrite IH.
  destruct (Qeq_bool (key x) q) eqn:Hx; [|reflexivity].
  destruct (Qeq_bool (key y) q) eqn:Hy; [|reflexivity].
  apply Qeq_bool_iff in Hx, Hy. exfalso. lra.
Qed.

Lemma sort_desc_stable (q : Q) (l : list A) :
  tied key q (sort_desc key l) = tied key q l.
Proof.
  induction l as [|x t IH]; [reflexivity|].
  cbn [sort_desc fold_right]. fold (sort_desc key t).
  rewrite insert_desc_tied. unfold tied in *. cbn [List.filter]. now rewrite IH.
Qed.

End Sorting.

(** [l[:n]] for a count that is not negative. *)
Lemma py_slice_prefix {A : Type} (l : list A) (n : Z) :
  0 <= n -> py_slice l 0 n = firstn (Z.to_nat n) l.
Proof.
  intros Hn. unfold py_slice, slice_bound.
  change (0 <? 0) with false. cbv iota.
  destruct (n <? 0) eqn:Hneg; [lia|].
  rewrite (Z.min_l 0) by lia. change (Z.to_nat 0) with O. cbn [skipn].
  rewrite Z.sub_0_r.
  destruct (Z.le_gt_cases n (Z.of_nat (length l))) as [Hle|Hgt].
  - now rewrite Z.min_l by lia.
  - rewrite Z.min_r by lia. rewrite Nat2Z.id.
    rewrite !firstn_all2; cbn [skipn]; solve [reflexivity|lia].
Qed.

Lemma py_slice_prefix_length {A : Type} (l : list A) (n : Z) :
  0 <= n -> Z.of_nat (length (py_slice l 0 n)) <= n.
Proof.
  intros Hn. rewrite py_slice_prefix by assumption.
  rewrite length_firstn. lia.
Qed.

End ListFacts.

(* ================================================================= *)
(** ** The scorer, as the specification words it *)

Module ScorerFacts.

Import ReSpec ReEval ScorerSpec.

(** *** Searching for one character of a class *)

Lemma search_class (set : charset) (s : string) :
  forall before,
    match search_from (Pattern false (Chr set)) before s with
    | Some _ => true
    | None => false
    end = Str.existsb (in_charset false set) s.
Proof.
  induction s as [|c t IH]; intros before; [reflexivity|].
  cbn [search_from Str.existsb]. unfold match_at. cbn [p_icase p_re mtch rest].
  destruct (in_charset false set c); [reflexivity|]. cbn [orb]. apply IH.
Qed.

Lemma search_sentence_end (text : string) :
  match re_search EnginePatterns.sentence_end text with
  | Some _ => true
  | None => false
  end = has_sentence_end text.
Proof.
  unfold re_search, EnginePatterns.sentence_end. rewrite search_class.
  unfold has_sentence_end. induction text as [|c t IH]; [reflexivity|].
  cbn [Str.existsb]. rewrite IH. f_equal.
  simpl. rewrite !orb_false_r. now rewrite orb_assoc.
Qed.

(** *** Lazy repetition of a class *)

Lemma star_class_lazy {A : Type} (ic : bool) (set : charset) (k : @cont A) (cs : caps) :
  forall n p s, (String.length s <= n)%nat ->
    star_loop (mtch ic (Chr set)) false k n (Cursor p s) cs = lazy_class ic set k p s cs.
Proof.
  induction n as [|n IH]; intros p s Hn.
  - destruct s; [reflexivity|simpl in Hn; lia].
  - destruct s as [|c t]; [reflexivity|].
    cbn [star_loop mtch rest lazy_class].
    destruct (in_charset ic set c); [|reflexivity].
    cbn [rest String.length].
    rewrite (proj2 (Nat.ltb_lt _ _)) by lia.
    rewrite IH by (simpl in Hn; lia). reflexivity.
Qed.

Lemma lazy_until_close (s : string) :
  forall p cs,
    match lazy_class false CDot close_then_accept p s cs with
    | Some _ => true
    | None => false
    end = closes_bracket s.
Proof.
  induction s as [|c t IH]; intros p cs; [reflexivity|].
  cbn [lazy_class closes_bracket]. unfold close_then_accept at 1.
  cbn [mtch Lit rest].
  change (in_charset false (CLit "]") c) with ((c =? "]")%char || false).
  rewrite orb_false_r.
  destruct (c =? "]")%char; [reflexivity|]. cbn [orelse].
  change (in_charset false CDot c) with (negb (c =? "010")%char || false).
  rewrite orb_false_r.
  destruct (c =? "010")%char; [reflexivity|]. apply IH.
Qed.

Lemma mtch_star_class_lazy {A : Type} (ic : bool) (set : charset) (k : @cont A) p s cs :
  mtch ic (Star false (Chr set)) (Cursor p s) cs k = lazy_class ic set k p s cs.
Proof. cbn [mtch rest]. now apply star_class_lazy. Qed.

Lemma match_bracketed p s :
  match match_at EnginePatterns.bracketed (Cursor p s) with
  | Some _ => true
  | None => false
  end =
  match s with
  | String c t => (c =? "[")%char && closes_bracket t
  | EmptyString => false
  end.
Proof.
  unfold match_at, EnginePatterns.bracketed, ManyLazy. cbn [p_icase p_re].
  change (mtch false (Lit "[" ⋅ Star false (Chr CDot) ⋅ Lit "]")%re (Cursor p s) [] accept)
    with (mtch false (Lit "[") (Cursor p s) []
            (fun cu cs => mtch false (Star false (Chr CDot)) cu cs close_then_accept)).
  destruct s as [|c t]; [reflexivity|]. cbn [mtch Lit rest].
  change (in_charset false (CLit "[") c) with ((c =? "[")%char || false).
  rewrite orb_false_r.
  destruct (c =? "[")%char; [|reflexivity]. cbn [andb].
  rewrite <- (lazy_until_close t (Some c) []), <- mtch_star_class_lazy.
  reflexivity.
Qed.

Lemma search_bracketed (text : string) :
  match re_search EnginePatterns.bracketed text with
  | Some _ => true
  | None => false
  end = has_placeholder text.
Proof.
  unfold re_search. generalize (@None ascii) as before.
  induction text as [|c t IH]; intros before.
  - reflexivity.
  - cbn [search_from has_placeholder].
    pose proof (match_bracketed before (String c t)) as Hm.
    destruct (match_at EnginePatterns.bracketed (Cursor before (String c t)))
      as [[cu cs]|].
    + now rewrite <- Hm.
    + rewrite <- Hm. cbn [orb]. apply IH.
Qed.

(** *** Text quality *)

Lemma quality_indicators_spec (text : string) :
  map snd (quality_indicators text) =
  [ length_adequacy text; completeness text; readability text; cleanliness text ].
Proof.
  unfold quality_indicators, completeness, readability, cleanliness. cbn [map snd].
  rewrite <- (search_sentence_end text), <- (search_bracketed text).
  destruct (Str.endswith "..." text),
    (re_search EnginePatterns.sentence_end text),
    (re_search EnginePatterns.bracketed text); reflexivity.
Qed.

Lemma calculateTextQuality_spec (text : string) :
  (_calculateTextQuality text == text_quality text)%Q.
Proof.
  unfold _calculateTextQuality, text_quality.
  destruct (Str.truthy text); cbn [negb]; [|reflexivity].
  rewrite quality_indicators_spec.
  unfold four_indicator_mean, Qsum. cbn [fold_left length quality_indicators].
  change (inject_Z (Z.of_nat 4)) with 4%Q. field.
Qed.

(** *** The clamp *)

Lemma clamp_spec (x y : Q) : (x == y)%Q -> (Qmin 1 (Qmax 0 x) == clamp01 y)%Q.
Proof.
  intros Hxy. unfold clamp01.
  destruct (Q.max_spec 0 x) as [[? Hmax]|[? Hmax]];
    destruct (Q.min_spec 1 (Qmax 0 x)) as [[? Hmin]|[? Hmin]];
    rewrite Hmin; try rewrite Hmax;
    destruct (Qlt_le_dec y 0); try destruct (Qlt_le_dec 1 y); lra.
Qed.

Lemma clamp01_compat (x y : Q) : (x == y)%Q -> (clamp01 x == clamp01 y)%Q.
Proof.
  intros Hxy. unfold clamp01.
  destruct (Qlt_le_dec x 0), (Qlt_le_dec y 0); try lra;
    destruct (Qlt_le_dec 1 x), (Qlt_le_dec 1 y); lra.
Qed.

Lemma clamp01_bounds (x : Q) : (0 <= clamp01 x <= 1)%Q.
Proof.
  unfold clamp01. destruct (Qlt_le_dec x 0); [lra|].
  destruct (Qlt_le_dec 1 x); lra.
Qed.

(** *** The score *)

Lemma lower_method_text_field (d : gmap string pyval) (key : string) :
  text_field d key ->
  exists s, lower_method (get_default d key (VStr "")) = Ok s.
Proof.
  intros H. unfold get_default. destruct (d !! key) as [v|] eqn:Hv.
  - destruct (H v Hv) as (s & ->). simpl. eauto.
  - simpl. eauto.
Qed.

Lemma getCitationMatchScore_total (candidate : PassageCandidate) (original : string) :
  scorable candidate ->
  exists cm, _getCitationMatchScore candidate original = Ok cm.
Proof.
  intros [Ht Ha]. unfold _getCitationMatchScore.
  destruct (lower_method_text_field _ _ Ht) as (t & ->).
  destruct (lower_method_text_field _ _ Ha) as (a & ->).
  cbn [bind]. eauto.
Qed.

(** With the citation-match sub-score [cm], the scorer returns the clamped
    midpoint of the prior confidence and the weighted sum. *)
Lemma calculateConfidenceScore_formula
    (candidate : PassageCandidate) (original : string) (cm : Q) :
  _getCitationMatchScore candidate original = Ok cm ->
  exists q, calculateConfidenceScore candidate original = Ok q /\
            (q == score candidate cm)%Q.
Proof.
  intros Hcm. unfold calculateConfidenceScore. rewrite Hcm. cbn [bind].
  unfold weights. cbn [mapM fst snd lookup_weight String.eqb Ascii.eqb Bool.eqb bind].
  eexists; split; [reflexivity|].
  unfold score, score_with. apply clamp_spec.
  unfold Qsum. cbn [fold_left]. unfold weighted_sum.
  rewrite (calculateTextQuality_spec (text candidate)). field.
Qed.

Lemma calculateConfidenceScore_total (candidate : PassageCandidate) (original : string) :
  scorable candidate ->
  exists cm q,
    _getCitationMatchScore candidate original = Ok cm /\
    calculateConfidenceScore candidate original = Ok q /\
    (q == score candidate cm)%Q.
Proof.
  intros Hs. destruct (getCitationMatchScore_total _ original Hs) as (cm & Hcm).
  destruct (calculateConfidenceScore_formula _ _ _ Hcm) as (q & Hq & Heq).
  eauto.
Qed.

End ScorerFacts.

(* ================================================================= *)
(** ** Properties of the extraction engine *)

Module EngineFacts.

Import ScorerSpec ScorerFacts ListSpec ListFacts EngineSpec.

(** *** Ranking *)

Lemma mapM_rescore (cands : list PassageCandidate) :
  Forall scorable cands ->
  exists rescored, mapM rescore cands = Ok rescored /\ Forall2 rescored_from cands rescored.
Proof.
  induction 1 as [|c cands Hc _ IH]; simpl.
  - exists []. split; [reflexivity|constructor].
  - destruct (calculateConfidenceScore_total c "" Hc) as (cm & q & _ & Hq & _).
    destruct IH as (rest & -> & Hrest).
    unfold rescore at 1. rewrite Hq. cbn [bind].
    eexists; split; [reflexivity|]. constructor; [|assumption].
    exists q. auto.
Qed.

Lemma rankCandidates_spec (cands : list PassageCandidate) :
  Forall scorable cands ->
  exists rescored,
    Forall2 rescored_from cands rescored /\
    rankCandidates cands = Ok (sort_desc confidence rescored).
Proof.
  intros H. destruct (mapM_rescore cands H) as (rescored & Hm & Hf).
  exists rescored. split; [assumption|].
  unfold rankCandidates. now rewrite Hm.
Qed.

Lemma mapM_rescore_inv (cands rescored : list PassageCandidate) :
  mapM rescore cands = Ok rescored -> Forall2 rescored_from cands rescored.
Proof.
  revert rescored. induction cands as [|c cands IH]; intros rescored; simpl.
  - intros [= <-]. constructor.
  - unfold rescore at 1.
    destruct (calculateConfidenceScore c "") as [q|e] eqn:Hq; [|discriminate].
    cbn [bind].
    destruct (mapM rescore cands) as [rest|e]; [|discriminate].
    cbn [bind]. intros [= <-]. constructor; [|now apply IH].
    exists q. auto.
Qed.

(** Ranking only fails when scoring a candidate does; when it returns, the
    result is a sorted list. *)
Lemma rankCandidates_inv (cands ranked : list PassageCandidate) :
  rankCandidates cands = Ok ranked ->
  exists rescored, mapM rescore cands = Ok rescored /\ ranked = sort_desc confidence rescored.
Proof.
  unfold rankCandidates. destruct (mapM rescore cands) as [rescored|e]; [|discriminate].
  cbn [bind]. intros [= <-]. eauto.
Qed.

Lemma generatePassageCandidates_inv
    (lw : list (string * WorkInfo)) (rl : string -> option (list string))
    (ratio : string -> string -> Q) (citation : string) (max_candidates : Z)
    (found : list PassageCandidate) :
  generatePassageCandidates lw rl ratio citation max_candidates = Ok found ->
  exists cands ranked,
    rankCandidates cands = Ok ranked /\ found = py_slice ranked 0 max_candidates.
Proof.
  unfold generatePassageCandidates.
  destruct (parseCitation citation) as [parsed|e]; [|discriminate]. cbn [bind].
  destruct (mapM (candidates_of lw rl ratio) (citations parsed)) as [fs|e]; [|discriminate].
  cbn [bind].
  destruct (rankCandidates (concat fs)) as [ranked|e] eqn:Hr; [|discriminate].
  cbn [bind]. intros [= <-]. eauto.
Qed.

(** *** The candidates the engine builds can be scored *)

Lemma get_default_text_field (d : gmap string pyval) (key : string) :
  text_field d key -> exists s, get_default d key (VStr "") = VStr s.
Proof.
  intros H. unfold get_default. destruct (d !! key) as [v|] eqn:Hv; [|eauto].
  destruct (H v Hv) as (s & ->). eauto.
Qed.

Lemma extractBiblicalPassage_scorable
    (book : string) (chapter start_verse end_verse : Z) (translation : string)
    (candidate : PassageCandidate) :
  extractBiblicalPassage book chapter start_verse end_verse translation = Some candidate ->
  scorable candidate.
Proof.
  unfold extractBiblicalPassage.
  destruct (negb (Str.truthy _)); [discriminate|]. intros [= <-].
  split; intros v Hv; cbn [metadata] in Hv; vm_compute in Hv; discriminate.
Qed.

Lemma lookup_work_In (works : list (string * WorkInfo)) (work_id : string) (info : WorkInfo) :
  lookup_work works work_id = Some info -> In (work_id, info) works.
Proof.
  induction works as [|[k i] t IH]; simpl; [discriminate|].
  destruct (String.eqb k work_id) eqn:Hk.
  - intros [= <-]. apply String.eqb_eq in Hk. subst. now left.
  - intros H. right. now apply IH.
Qed.

Lemma extractLiteraryPassage_scorable
    (lw : list (string * WorkInfo)) (rl : string -> option (list string))
    (work_id : string) (start_line end_line : Z) (candidate : PassageCandidate) :
  index_typed lw ->
  extractLiteraryPassage lw rl work_id start_line end_line = Some candidate ->
  scorable candidate.
Proof.
  intros Hix. unfold extractLiteraryPassage.
  destruct (lookup_work lw work_id) as [info|] eqn:Hinfo; [|discriminate].
  apply lookup_work_In in Hinfo. destruct (Hix _ _ Hinfo) as [Ht Ha].
  destruct (rl (file_path info)) as [lines|]; [|discriminate].
  destruct (_ || _); [discriminate|]. intros [= <-]. cbn [metadata].
  destruct (get_default_text_field _ _ Ht) as (t & ->).
  destruct (get_default_text_field _ _ Ha) as (a & ->).
  split; intros v Hv; vm_compute in Hv; injection Hv as <-; eauto.
Qed.

(** *** Strings that are not empty *)

Lemma truthy_app_l (a b : string) : Str.truthy a = true -> Str.truthy (a ++ b) = true.
Proof. destruct a; [discriminate|reflexivity]. Qed.

Lemma truthy_app_r (a b : string) : Str.truthy b = true -> Str.truthy (a ++ b) = true.
Proof. destruct a; [auto|reflexivity]. Qed.

Lemma truthy_join (sep x : string) (l : list string) :
  Str.truthy x = true -> Str.truthy (Str.join sep (x :: l)) = true.
Proof. intros H. cbn [Str.join]. destruct l; [assumption|now apply truthy_app_l]. Qed.

Lemma generateSampleBiblicalText_truthy
    (book : string) (chapter start_verse end_verse : Z) (translation : string) :
  start_verse <= end_verse ->
  Str.truthy (_generateSampleBiblicalText book chapter start_verse end_verse translation)
  = true.
Proof.
  intros Hrange. unfold _generateSampleBiblicalText.
  destruct (sample_passages !! (book, chapter)) as [verses|].
  - unfold py_range. rewrite seqZ_cons by lia. cbn [map].
    apply truthy_join.
    destruct (verses !! start_verse); apply truthy_app_r; reflexivity.
  - apply truthy_app_r. reflexivity.
Qed.

End EngineFacts.

(** C2: on "Genesis 0:1" the end-to-end call does not return: the parsed
    record has no "chapter" key (the value 0 is falsy) and reading it raises
    [KeyError], whatever the corpus is. *)
Theorem C2_zero_chapter_raises :
  forall (literary_works : list (string * WorkInfo))
         (readlines : string -> option (list string))
         (ratio : string -> string -> Q),
    extractPassageFromCitation literary_works readlines ratio "Genesis 0:1"
    = Raise (KeyError "chapter").
Proof. intros. vm_compute. reflexivity. Qed.


(** C7, as the specification states it, fails on the empty text: the code
    scores its text quality 0, the four-indicator average is 0.65, and the
    final scores differ (0.72 against 0.8175). *)
Lemma C7_counterexample_empty_text :
  exists cm q,
    _getCitationMatchScore empty_text_candidate "" = Ok cm /\
    calculateConfidenceScore empty_text_candidate "" = Ok q /\
    ~ (q == ScorerSpec.claimed_score empty_text_candidate cm)%Q /\
    (q == 0.72)%Q /\
    (ScorerSpec.claimed_score empty_text_candidate cm == 0.8175)%Q /\
    (_calculateTextQuality "" == 0)%Q /\
    (ScorerSpec.four_indicator_mean "" == 0.65)%Q.
Proof.
  eexists. eexists.
  split; [vm_compute; reflexivity|].
  split; [vm_compute; reflexivity|].
  repeat split; vm_compute; congruence.
Qed.

(** C7, amended: for every candidate whose title and author are strings
    and every original citation, the scorer returns the clamp to [0,1] of
    the average of the prior confidence and
    0.30*textQuality + 0.20*sourceReliability + 0.20*metadataCompleteness
    + 0.30*citationMatch, where textQuality is 0 for the empty text and the
    average of the four indicators for every other text. *)
Theorem C7_score_formula :
  forall (candidate : PassageCandidate) (original_citation : string),
    ScorerSpec.scorable candidate ->
    exists cm q,
      _getCitationMatchScore candidate original_citation = Ok cm /\
      calculateConfidenceScore candidate original_citation = Ok q /\
      (q == ScorerSpec.clamp01
              ((confidence candidate
                + (0.30 * _calculateTextQuality (text candidate)
                   + 0.20 * _getSourceReliability (source candidate)
                   + 0.20 * _getMetadataCompleteness (metadata candidate)
                   + 0.30 * cm)) / 2))%Q /\
      (_calculateTextQuality (text candidate) ==
         if Str.truthy (text candidate)
         then (ScorerSpec.length_adequacy (text candidate)
               + ScorerSpec.completeness (text candidate)
               + ScorerSpec.readability (text candidate)
               + ScorerSpec.cleanliness (text candidate)) / 4
         else 0)%Q /\
      (0 <= q <= 1)%Q.
Proof.
  intros candidate original Hs.
  destruct (ScorerFacts.calculateConfidenceScore_total candidate original Hs)
    as (cm & q & Hcm & Hq & Heq).
  exists cm, q. split; [assumption|]. split; [assumption|].
  pose proof (ScorerFacts.calculateTextQuality_spec (text candidate)) as Htq.
  assert (Hscore :
    (ScorerSpec.score candidate cm ==
     ScorerSpec.clamp01
       ((confidence candidate
         + (0.30 * _calculateTextQuality (text candidate)
            + 0.20 * _getSourceReliability (source candidate)
            + 0.20 * _getMetadataCompleteness (metadata candidate)
            + 0.30 * cm)) / 2))%Q).
  { unfold ScorerSpec.score, ScorerSpec.score_with, ScorerSpec.weighted_sum.
    apply ScorerFacts.clamp01_compat. rewrite Htq. reflexivity. }
  split; [now rewrite Heq|].
  split; [exact Htq|].
  rewrite Heq. apply ScorerFacts.clamp01_bounds.
Qed.

Lemma romans_candidate_scorable : ScorerSpec.scorable romans_candidate.
Proof. split; intros v Hv; vm_compute in Hv; discriminate. Defined.

Lemma dryden_candidate_scorable : ScorerSpec.scorable dryden_candidate.
Proof. split; intros v Hv; vm_compute in Hv; injection Hv as <-; eauto. Defined.

Lemma C7_witness_romans :
  ScorerSpec.scorable romans_candidate /\
  exists cm q,
    _getCitationMatchScore romans_candidate "Romans 8:28" = Ok cm /\
    calculateConfidenceScore romans_candidate "Romans 8:28" = Ok q /\
    (q == ScorerSpec.clamp01
            ((confidence romans_candidate
              + (0.30 * _calculateTextQuality (text romans_candidate)
                 + 0.20 * _getSourceReliability (source romans_candidate)
                 + 0.20 * _getMetadataCompleteness (metadata romans_candidate)
                 + 0.30 * cm)) / 2))%Q /\
    (_calculateTextQuality (text romans_candidate) ==
       if Str.truthy (text romans_candidate)
       then (ScorerSpec.length_adequacy (text romans_candidate)
             + ScorerSpec.completeness (text romans_candidate)
             + ScorerSpec.readability (text romans_candidate)
             + ScorerSpec.cleanliness (text romans_candidate)) / 4
       else 0)%Q /\
    (0 <= q <= 1)%Q.
Proof.
  split; [exact romans_candidate_scorable|].
  apply (C7_score_formula romans_candidate "Romans 8:28"). exact romans_candidate_scorable.
Defined.



(** C9: for a verse range whose end is not below its start,
    [extractBiblicalPassage] returns a candidate, for every book, chapter
    and translation: the sample text is never empty.  It is the fallback
    "<book> <chapter>:<range>" when the book and chapter are not in the
    sample table, and an unknown translation is read as ESV. *)
Theorem C9_biblical_passage_returned :
  forall (book : string) (chapter start_verse end_verse : Z) (translation : string),
    start_verse <= end_verse ->
    exists candidate,
      extractBiblicalPassage book chapter start_verse end_verse translation
        = Some candidate /\
      Str.truthy (text candidate) = true /\
      (sample_passages !! (book, chapter) = None ->
       text candidate
       = book ++ " " ++ Str.of_int chapter ++ ":" ++ verse_range start_verse end_verse) /\
      (biblical_translations !! translation = None -> source candidate = "bible:esv").
Proof.
  intros book chapter start_verse end_verse translation Hrange.
  unfold extractBiblicalPassage.
  set (tr := match biblical_translations !! translation with
             | Some _ => translation | None => "ESV" end).
  rewrite (EngineFacts.generateSampleBiblicalText_truthy _ _ _ _ tr Hrange).
  cbn [negb]. eexists; split; [reflexivity|]. cbn [text source].
  split; [now apply EngineFacts.generateSampleBiblicalText_truthy|].
  split.
  - intros Hnone. unfold _generateSampleBiblicalText, verse_range. rewrite Hnone.
    destruct (negb (start_verse =? end_verse)); [reflexivity|].
    now rewrite StrFacts.app_nil_r.
  - intros Hnone. unfold tr. rewrite Hnone. reflexivity.
Qed.

Lemma C9_witness_genesis :
  1 <= 3 /\
  exists candidate,
    extractBiblicalPassage "Genesis" 1 1 3 "ESV" = Some candidate /\
    Str.truthy (text candidate) = true /\
    (sample_passages !! ("Genesis", 1) = None ->
     text candidate = "Genesis" ++ " " ++ Str.of_int 1 ++ ":" ++ verse_range 1 3) /\
    (biblical_translations !! "ESV" = None -> source candidate = "bible:esv").
Proof.
  split; [lia|]. apply (C9_biblical_passage_returned "Genesis" 1 1 3 "ESV"). lia.
Defined.

(* ================================================================= *)
(** * Further properties of the code *)

Module StripFacts.

Import StrSpec.

Lemma rev_onto_app (a b acc : string) :
  Str.rev_onto (a ++ b) acc = Str.rev_onto b (Str.rev_onto a acc).
Proof. revert acc; induction a as [|c a IH]; intros acc; simpl; [reflexivity|apply IH]. Qed.

Lemma rev_onto_acc (s : string) :
  forall acc, Str.rev_onto s acc = Str.rev_onto s "" ++ acc.
Proof.
  induction s as [|c s IH]; intros acc; simpl; [reflexivity|].
  rewrite (IH (String c acc)), (IH (String c "")).
  rewrite <- StrFacts.app_assoc. reflexivity.
Qed.

Lemma rev_cons (c : ascii) (s : string) : Str.rev (String c s) = Str.rev s ++ String c "".
Proof. unfold Str.rev. simpl. apply rev_onto_acc. Qed.

Lemma rev_app (a b : string) : Str.rev (a ++ b) = Str.rev b ++ Str.rev a.
Proof.
  unfold Str.rev. rewrite rev_onto_app. apply rev_onto_acc.
Qed.

Lemma rev_involutive (s : string) : Str.rev (Str.rev s) = s.
Proof.
  induction s as [|c s IH]; [reflexivity|].
  rewrite rev_cons, rev_app, IH. reflexivity.
Qed.

Lemma length_rev_onto (s : string) :
  forall acc, String.length (Str.rev_onto s acc) = (String.length s + String.length acc)%nat.
Proof. induction s as [|c s IH]; intros acc; simpl; [reflexivity|]. rewrite IH. simpl. lia. Qed.

Lemma length_rev (s : string) : String.length (Str.rev s) = String.length s.
Proof. unfold Str.rev. rewrite length_rev_onto. simpl. lia. Qed.

Lemma drop_while_idem (p : ascii -> bool) (s : string) :
  Str.drop_while p (Str.drop_while p s) = Str.drop_while p s.
Proof.
  induction s as [|c s IH]; simpl; [reflexivity|].
  destruct (p c) eqn:E; [exact IH|]. simpl. now rewrite E.
Qed.

Lemma length_drop_while_le (p : ascii -> bool) (s : string) :
  (String.length (Str.drop_while p s) <= String.length s)%nat.
Proof. induction s as [|c s IH]; simpl; [lia|]. destruct (p c); simpl; lia. Qed.

(** A string on which [drop_while] does nothing does not start with a
    character of the class. *)
Lemma drop_while_fix_head (p : ascii -> bool) (c : ascii) (t : string) :
  Str.drop_while p (String c t) = String c t -> p c = false.
Proof.
  simpl. destruct (p c) eqn:E; [|reflexivity].
  intros H. pose proof (length_drop_while_le p t) as L.
  rewrite H in L. simpl in L. lia.
Qed.

Lemma drop_while_head_fix (p : ascii -> bool) (s : string) :
  match s with String c _ => p c = false | EmptyString => True end ->
  Str.drop_while p s = s.
Proof. destruct s as [|c t]; simpl; [reflexivity|]. now intros ->. Qed.

Lemma drop_while_snoc_stop (p : ascii -> bool) (s : string) (c : ascii) :
  p c = false ->
  Str.drop_while p (s ++ String c "") = Str.drop_while p s ++ String c "".
Proof.
  intros Hc. induction s as [|a s IH]; simpl.
  - now rewrite Hc.
  - destruct (p a); [exact IH|reflexivity].
Qed.

Lemma drop_while_all (p : ascii -> bool) (a b : string) :
  Str.forallb p a = true -> Str.drop_while p (a ++ b) = Str.drop_while p b.
Proof.
  induction a as [|c a IH]; simpl; [reflexivity|].
  intros H. apply andb_prop in H as [-> H]. now apply IH.
Qed.

(** [strip] removes the whitespace at both ends... *)
Lemma strip_trimmed (s : string) : trimmed (Str.strip s).
Proof.
  unfold trimmed, Str.strip. split.
  - set (u := Str.drop_while Char.py_isspace s).
    assert (Hu : Str.drop_while Char.py_isspace u = u) by apply drop_while_idem.
    clearbody u. destruct u as [|c u]; [reflexivity|].
    apply drop_while_fix_head in Hu.
    rewrite rev_cons, (drop_while_snoc_stop _ _ _ Hu), rev_app.
    simpl. now rewrite Hu.
  - rewrite rev_involutive. apply drop_while_idem.
Qed.

(** ... and leaves a string alone that has none there. *)
Lemma strip_of_trimmed (s : string) : trimmed s -> Str.strip s = s.
Proof.
  intros [H1 H2]. unfold Str.strip. rewrite H1, H2. apply rev_involutive.
Qed.

Lemma strip_idempotent (s : string) : Str.strip (Str.strip s) = Str.strip s.
Proof. apply strip_of_trimmed, strip_trimmed. Qed.

Lemma strip_head (s : string) (c : ascii) (t : string) :
  Str.strip s = String c t -> Char.py_isspace c = false.
Proof.
  intros H. destruct (strip_trimmed s) as [H1 _]. rewrite H in H1.
  now apply drop_while_fix_head in H1.
Qed.

Lemma strip_empty : Str.strip "" = "".
Proof. reflexivity. Qed.

(** *** Character tests survive [strip] and [lower] *)

Lemma existsb_app (p : ascii -> bool) (a b : string) :
  Str.existsb p (a ++ b) = Str.existsb p a || Str.existsb p b.
Proof.
  induction a as [|c a IH]; simpl; [reflexivity|]. rewrite IH. now rewrite orb_assoc.
Qed.

Lemma existsb_rev (p : ascii -> bool) (s : string) :
  Str.existsb p (Str.rev s) = Str.existsb p s.
Proof.
  induction s as [|c s IH]; [reflexivity|].
  rewrite rev_cons, existsb_app, IH. simpl. rewrite orb_false_r. apply orb_comm.
Qed.

Lemma existsb_drop_while (p q : ascii -> bool) (s : string) :
  Str.existsb p s = false -> Str.existsb p (Str.drop_while q s) = false.
Proof.
  induction s as [|c s IH]; simpl; [reflexivity|].
  intros H. apply orb_false_elim in H as [Hc Hs].
  destruct (q c); [now apply IH|]. simpl. now rewrite Hc, Hs.
Qed.

Lemma existsb_strip (p : ascii -> bool) (s : string) :
  Str.existsb p s = false -> Str.existsb p (Str.strip s) = false.
Proof.
  intros H. unfold Str.strip.
  rewrite existsb_rev. apply existsb_drop_while.
  rewrite existsb_rev. now apply existsb_drop_while.
Qed.

Lemma forallb_rev (p : ascii -> bool) (s : string) :
  Str.forallb p (Str.rev s) = Str.forallb p s.
Proof.
  induction s as [|c s IH]; [reflexivity|].
  rewrite rev_cons, StrFacts.forallb_app, IH. simpl. rewrite andb_true_r. apply andb_comm.
Qed.

Lemma forallb_drop_while (p q : ascii -> bool) (s : string) :
  Str.forallb p s = true -> Str.forallb p (Str.drop_while q s) = true.
Proof.
  induction s as [|c s IH]; simpl; [reflexivity|].
  intros H. apply andb_prop in H as [Hc Hs].
  destruct (q c); [now apply IH|]. simpl. now rewrite Hc, Hs.
Qed.

Lemma forallb_strip (p : ascii -> bool) (s : string) :
  Str.forallb p s = true -> Str.forallb p (Str.strip s) = true.
Proof.
  intros H. unfold Str.strip.
  rewrite forallb_rev. apply forallb_drop_while.
  rewrite forallb_rev. now apply forallb_drop_while.
Qed.

Lemma map_rev_onto (f : ascii -> ascii) (s : string) :
  forall acc, Str.map f (Str.rev_onto s acc) = Str.rev_onto (Str.map f s) (Str.map f acc).
Proof. induction s as [|c s IH]; intros acc; simpl; [reflexivity|]. now rewrite IH. Qed.

Lemma map_rev (f : ascii -> ascii) (s : string) : Str.map f (Str.rev s) = Str.rev (Str.map f s).
Proof. unfold Str.rev. now rewrite map_rev_onto. Qed.

Lemma map_drop_while (f : ascii -> ascii) (p : ascii -> bool) (s : string) :
  (forall c, p (f c) = p c) ->
  Str.map f (Str.drop_while p s) = Str.drop_while p (Str.map f s).
Proof.
  intros Hp. induction s as [|c s IH]; simpl; [reflexivity|].
  rewrite Hp. destruct (p c); [exact IH|reflexivity].
Qed.

Lemma all_ascii (P : ascii -> Prop) :
  (forall b0 b1 b2 b3 b4 b5 b6 b7 : bool, P (Ascii b0 b1 b2 b3 b4 b5 b6 b7)) ->
  forall c, P c.
Proof. intros H [b0 b1 b2 b3 b4 b5 b6 b7]. apply H. Qed.

Lemma isspace_lower (c : ascii) : Char.py_isspace (Char.char_lower c) = Char.py_isspace c.
Proof. revert c. apply all_ascii. intros [] [] [] [] [] [] [] []; reflexivity. Qed.

Lemma lower_idempotent_char (c : ascii) :
  Char.char_lower (Char.char_lower c) = Char.char_lower c.
Proof. revert c. apply all_ascii. intros [] [] [] [] [] [] [] []; reflexivity. Qed.

Lemma lower_idempotent (s : string) : Str.lower (Str.lower s) = Str.lower s.
Proof.
  unfold Str.lower. induction s as [|c s IH]; simpl; [reflexivity|].
  now rewrite lower_idempotent_char, IH.
Qed.

Lemma strip_lower (s : string) : Str.strip (Str.lower s) = Str.lower (Str.strip s).
Proof.
  unfold Str.strip, Str.lower.
  rewrite map_rev, (map_drop_while _ _ _ isspace_lower), map_rev,
    (map_drop_while _ _ _ isspace_lower).
  reflexivity.
Qed.

End StripFacts.

(* ================================================================= *)
(** ** [int] and [str] on natural numbers *)

Module IntFacts.

Import ReSpec.

Lemma go_app (a b : string) :
  forall acc,
    PyInt.go acc (a ++ b) =
    match PyInt.go acc a with Some v => PyInt.go v b | None => None end.
Proof.
  induction a as [|c a IH]; intros acc; simpl; [reflexivity|].
  destruct (PyInt.digit c); [apply IH|reflexivity].
Qed.

Lemma go_decimal (s : string) :
  forall acc v, PyInt.go acc s = Some v -> Str.forallb Char.py_isdecimal s = true.
Proof.
  induction s as [|c s IH]; intros acc v; simpl; [reflexivity|].
  unfold PyInt.digit. destruct (Char.py_isdecimal c); [|discriminate].
  intros H. now rewrite (IH _ _ H).
Qed.

Lemma digit_char (d : N) :
  (d < 10)%N -> PyInt.digit (pretty_N_char d) = Some (Z.of_N d).
Proof.
  intros H.
  assert (d = 0 \/ d = 1 \/ d = 2 \/ d = 3 \/ d = 4 \/ d = 5 \/ d = 6 \/ d = 7
          \/ d = 8 \/ d = 9)%N as Hd by lia.
  repeat (destruct Hd as [->|Hd]; [reflexivity|]). now subst.
Qed.

Lemma pretty_N_go_app (x : N) :
  forall s, pretty_N_go x s = pretty_N_go x "" ++ s.
Proof.
  induction (N.lt_wf_0 x) as [x _ IH]; intros s.
  destruct (N.eq_dec x 0%N) as [->|Hx].
  - now rewrite !pretty_N_go_0.
  - assert (0 < x)%N as Hpos by lia.
    rewrite (pretty_N_go_step x s Hpos), (pretty_N_go_step x "" Hpos).
    assert (x `div` 10 < x)%N as Hlt by (apply N.div_lt; lia).
    rewrite (IH _ Hlt (String _ s)), (IH _ Hlt (String _ "")).
    now rewrite <- StrFacts.app_assoc.
Qed.

Lemma go_pretty_N (x : N) : PyInt.go 0 (pretty_N_go x "") = Some (Z.of_N x).
Proof.
  induction (N.lt_wf_0 x) as [x _ IH].
  destruct (N.eq_dec x 0%N) as [->|Hx]; [reflexivity|].
  assert (0 < x)%N as Hpos by lia.
  rewrite (pretty_N_go_step x "" Hpos), pretty_N_go_app, go_app.
  rewrite IH by (apply N.div_lt; lia).
  cbn [PyInt.go]. rewrite digit_char by (apply N.mod_lt; lia).
  f_equal. rewrite (N.div_mod x 10) at 3 by lia. lia.
Qed.

(** [int(str(n)) == n] for a natural number. *)
Lemma parse_of_int (n : Z) : 0 <= n -> PyInt.parse (Str.of_int n) = Ok n.
Proof.
  intros Hn. destruct n as [|p|p]; [reflexivity| |lia].
  unfold Str.of_int, pretty, pretty_Z, pretty, pretty_positive, pretty, pretty_N.
  destruct (decide (N.pos p = 0%N)) as [H|_]; [discriminate|].
  pose proof (go_pretty_N (N.pos p)) as Hgo.
  unfold PyInt.parse. destruct (pretty_N_go (N.pos p) "") as [|c s] eqn:E.
  - simpl in Hgo. discriminate.
  - rewrite Hgo. reflexivity.
Qed.

(** [str(n)] of a natural number is a non-empty string of decimal digits. *)
Lemma of_int_number (n : Z) : 0 <= n -> is_number (Str.of_int n).
Proof.
  intros Hn. pose proof (parse_of_int n Hn) as Hp. unfold PyInt.parse in Hp.
  destruct (Str.of_int n) as [|c s] eqn:E; [discriminate|].
  split; [discriminate|].
  destruct (PyInt.go 0 (String c s)) as [v|] eqn:Hgo; [|discriminate].
  now apply go_decimal in Hgo.
Qed.

(** A string that is not all decimal digits: [int] raises. *)
Lemma parse_not_decimal (s : string) :
  Str.forallb Char.py_isdecimal s = false -> PyInt.parse s = Raise ValueError.
Proof.
  intros H. unfold PyInt.parse. destruct s as [|c s]; [reflexivity|].
  destruct (PyInt.go 0 (String c s)) as [v|] eqn:Hgo; [|reflexivity].
  apply go_decimal in Hgo. congruence.
Qed.

End IntFacts.

Module RangeFacts.

Import ReSpec ReEval RangeSpec.

Lemma consumed_run (p : option ascii) (c : ascii) (t : string) :
  Char.py_isdecimal c = true ->
  consumed (Cursor p (String c t)) (run_end false CDigit (Some c) t)
  = Str.take_while Char.py_isdecimal (String c t).
Proof.
  intros Hc. unfold consumed. cbn [rest].
  rewrite (NormalizerFacts.run_end_eq false CDigit Char.py_isdecimal
             (ReFacts.in_charset_digit false)).
  replace (Str.drop_while Char.py_isdecimal t)
    with (Str.drop_while Char.py_isdecimal (String c t))
    by (cbn [Str.drop_while]; now rewrite Hc).
  apply NormalizerFacts.take_length_drop_while.
Qed.

(** [(?:-(\d+))?] at the end of a pattern. *)
Lemma opt_dash_number (cu : cursor) (cs : caps) :
  mtch false (Opt (Lit "-" ⋅ Group 2 Patterns.digits)) cu cs accept =
  match rest cu with
  | String d (String c2 t2) =>
      if (d =? "-")%char && Char.py_isdecimal c2
      then Some (run_end false CDigit (Some c2) t2,
                 (2%nat, Str.take_while Char.py_isdecimal (String c2 t2)) :: cs)
      else Some (cu, cs)
  | _ => Some (cu, cs)
  end.
Proof.
  unfold Opt, Lit. cbn [mtch]. destruct (rest cu) as [|d r]; [reflexivity|].
  cbn [in_charset mem andb]. rewrite orb_false_r.
  destruct (d =? "-")%char; [|now destruct r].
  unfold Patterns.digits. rewrite mtch_plus_class.
  destruct r as [|c2 t2]; [reflexivity|].
  rewrite ReFacts.in_charset_digit. cbn [andb].
  destruct (Char.py_isdecimal c2) eqn:Hc2; [|reflexivity].
  erewrite greedy_class_longest; [|reflexivity].
  cbn [orelse]. now rewrite consumed_run.
Qed.

(** [re.match] of the number-range pattern. *)
Lemma match_number_range (s : string) :
  re_match InlinePatterns.number_range s =
  if starts_with_decimal s then Some (range_captures s) else None.
Proof.
  unfold re_match, match_at, InlinePatterns.number_range. cbn [p_icase p_re].
  cbn [mtch]. unfold Patterns.digits at 1. rewrite mtch_plus_class.
  destruct s as [|c t]; [reflexivity|].
  rewrite ReFacts.in_charset_digit. cbn [starts_with_decimal].
  destruct (Char.py_isdecimal c) eqn:Hc; [|reflexivity].
  set (cu2 := run_end false CDigit (Some c) t).
  assert (Hrest : rest cu2 = Str.drop_while Char.py_isdecimal (String c t)).
  { unfold cu2. cbn [Str.drop_while]. rewrite Hc.
    apply (NormalizerFacts.run_end_eq false CDigit Char.py_isdecimal
             (ReFacts.in_charset_digit false)). }
  match goal with |- option_map snd (greedy_class _ _ ?K _ _ _) = _ => set (k := K) end.
  assert (Hk : option_map snd (k cu2 []) = Some (range_captures (String c t))
               /\ k cu2 [] <> None).
  { unfold k. rewrite opt_dash_number. rewrite Hrest. unfold cu2.
    rewrite consumed_run by exact Hc. unfold range_captures.
    destruct (Str.drop_while Char.py_isdecimal (String c t)) as [|d [|c2 t2]];
      try (split; [reflexivity|discriminate]).
    destruct ((d =? "-")%char && Char.py_isdecimal c2);
      (split; [reflexivity|discriminate]). }
  destruct Hk as [Hk Hsome].
  destruct (k cu2 []) as [x|] eqn:Hx; [|now contradiction Hsome].
  now rewrite (greedy_class_longest _ _ _ _ x _ _ Hx).
Qed.

Lemma number_head (w : string) :
  is_number w ->
  exists c t, w = String c t /\ Char.py_isdecimal c = true
              /\ Str.forallb Char.py_isdecimal t = true.
Proof.
  intros [Hne Hall]. destruct w as [|c t]; [now contradiction Hne|].
  simpl in Hall. apply andb_prop in Hall as [Hc Ht]. eauto.
Qed.

Lemma take_while_all (p : ascii -> bool) (s : string) :
  Str.forallb p s = true -> Str.take_while p s = s.
Proof.
  induction s as [|c s IH]; simpl; [reflexivity|].
  intros H. apply andb_prop in H as [-> H]. now rewrite IH.
Qed.

Lemma take_while_app (p : ascii -> bool) (a b : string) :
  Str.forallb p a = true -> Str.take_while p (a ++ b) = a ++ Str.take_while p b.
Proof.
  induction a as [|c a IH]; simpl; [reflexivity|].
  intros H. apply andb_prop in H as [-> H]. now rewrite IH.
Qed.

Lemma forallb_impl (p q : ascii -> bool) (s : string) :
  (forall c, p c = true -> q c = true) ->
  Str.forallb p s = true -> Str.forallb q s = true.
Proof.
  intros Hpq. induction s as [|c s IH]; simpl; [reflexivity|].
  intros H. apply andb_prop in H as [Hc Hs]. now rewrite (Hpq _ Hc), IH.
Qed.

Lemma isdecimal_isdigit (c : ascii) : Char.py_isdecimal c = true -> py_isdigit c = true.
Proof. intros H. unfold py_isdigit. now rewrite H. Qed.

Lemma number_isdigit (w : string) : is_number w -> isdigit w = true.
Proof.
  intros [Hne Hall]. unfold isdigit.
  rewrite (forallb_impl _ _ _ isdecimal_isdigit Hall), andb_true_r.
  destruct w; [now contradiction Hne|reflexivity].
Qed.

(** A trimmed text: it starts and ends with a character that is not
    whitespace. *)
Lemma trimmed_ends (c : ascii) (m : string) (w : string) :
  Char.py_isspace c = false -> is_number w ->
  StrSpec.trimmed (String c m ++ w).
Proof.
  intros Hc Hw. split.
  - cbn [String.append Str.drop_while]. now rewrite Hc.
  - rewrite StripFacts.rev_app.
    assert (Hrev : is_number (Str.rev w)).
    { destruct Hw as [Hne Hall]. split.
      - intros E. apply (f_equal String.length) in E. rewrite StripFacts.length_rev in E.
        destruct w; [now contradiction Hne|discriminate].
      - now rewrite StripFacts.forallb_rev. }
    destruct (number_head _ Hrev) as (d & t & -> & Hd & _).
    cbn [String.append Str.drop_while].
    now rewrite (NormalizerFacts.digit_not_space _ Hd).
Qed.

Lemma trimmed_number (w : string) : is_number w -> StrSpec.trimmed w.
Proof.
  intros Hw. destruct (number_head _ Hw) as (c & t & -> & Hc & Ht).
  destruct t as [|c' t'].
  - split; cbn; now rewrite (NormalizerFacts.digit_not_space _ Hc).
  - apply (trimmed_ends c "" (String c' t')).
    + now apply NormalizerFacts.digit_not_space.
    + split; [discriminate|exact Ht].
Qed.

Lemma group_range_captures (s : string) :
  group (range_captures s) 1 = Some (Str.take_while Char.py_isdecimal s) /\
  (group (range_captures s) 2 = None \/
   exists e, group (range_captures s) 2 = Some e /\ is_number e).
Proof.
  unfold range_captures.
  destruct (Str.drop_while Char.py_isdecimal s) as [|d [|c2 t2]];
    try (split; [reflexivity|left; reflexivity]).
  destruct (d =? "-")%char; [|split; [reflexivity|left; reflexivity]].
  destruct (Char.py_isdecimal c2) eqn:Hc2; [|split; [reflexivity|left; reflexivity]].
  split; [reflexivity|]. right. eexists. split; [reflexivity|].
  split.
  - cbn [Str.take_while]. rewrite Hc2. discriminate.
  - clear. generalize (String c2 t2). intros u.
    induction u as [|a u IH]; simpl; [reflexivity|].
    destruct (Char.py_isdecimal a) eqn:Ha; [|reflexivity]. simpl. now rewrite Ha.
Qed.

Lemma leading_number (s : string) :
  starts_with_decimal s = true -> is_number (Str.take_while Char.py_isdecimal s).
Proof.
  destruct s as [|c t]; [discriminate|]. cbn [starts_with_decimal]. intros Hc. split.
  - cbn [Str.take_while]. rewrite Hc. discriminate.
  - generalize (String c t). intros u.
    induction u as [|a u IH]; simpl; [reflexivity|].
    destruct (Char.py_isdecimal a) eqn:Ha; [|reflexivity]. simpl. now rewrite Ha.
Qed.

(** What [parseReferenceRange] answers on a text that is already trimmed
    and is a number, or two numbers with a hyphen between them. *)
Lemma range_of_single (w : string) (n : Z) :
  is_number w -> PyInt.parse w = Ok n -> parseReferenceRange w = Ok (Some n, Some n).
Proof.
  intros Hw Hn. unfold parseReferenceRange.
  rewrite (StripFacts.strip_of_trimmed _ (trimmed_number _ Hw)).
  rewrite (number_isdigit _ Hw), Hn. reflexivity.
Qed.

Lemma range_of_pair (w1 w2 : string) (n1 n2 : Z) :
  is_number w1 -> is_number w2 -> PyInt.parse w1 = Ok n1 -> PyInt.parse w2 = Ok n2 ->
  parseReferenceRange (w1 ++ "-" ++ w2) = Ok (Some n1, Some n2).
Proof.
  intros Hw1 Hw2 Hn1 Hn2. unfold parseReferenceRange.
  destruct (number_head _ Hw1) as (c & t & E1 & Hc & Ht).
  assert (Hstrip : Str.strip (w1 ++ "-" ++ w2) = w1 ++ "-" ++ w2).
  { apply StripFacts.strip_of_trimmed. subst w1.
    replace (String c t ++ "-" ++ w2) with (String c (t ++ "-") ++ w2)
      by (cbn [String.append]; now rewrite <- StrFacts.app_assoc).
    apply trimmed_ends; [now apply NormalizerFacts.digit_not_space|exact Hw2]. }
  rewrite Hstrip.
  assert (Hnot : isdigit (w1 ++ "-" ++ w2) = false).
  { unfold isdigit. rewrite StrFacts.forallb_app. cbn [String.append Str.forallb].
    replace (py_isdigit "-") with false by reflexivity.
    cbn [andb]. now rewrite !andb_false_r. }
  rewrite Hnot, match_number_range.
  assert (Hstart : starts_with_decimal (w1 ++ "-" ++ w2) = true) by now subst w1.
  rewrite Hstart.
  destruct (number_head _ Hw2) as (c2 & t2 & E2 & Hc2 & Ht2).
  assert (Hcaps : range_captures (w1 ++ "-" ++ w2) = [(2%nat, w2); (1%nat, w1)]).
  { unfold range_captures. destruct Hw1 as [_ Hall1]. destruct Hw2 as [_ Hall2].
    rewrite (take_while_app _ _ _ Hall1), (StripFacts.drop_while_all _ _ _ Hall1).
    subst w2.
    cbn [String.append Str.take_while Str.drop_while].
    replace (Char.py_isdecimal "-") with false by reflexivity.
    rewrite StrFacts.app_nil_r, Hc2, (take_while_all _ _ Ht2). reflexivity. }
  rewrite Hcaps. cbn [group Nat.eqb py_int]. rewrite Hn1. cbn [bind truthy_opt].
  rewrite (ReFacts.is_number_truthy _ Hw2), Hn2. reflexivity.
Qed.

End RangeFacts.




(* ================================================================= *)
(** ** Bounds of the sub-scores *)

Module ScoreBounds.

Import ScorerSpec ScorerFacts.

(** [lra] with the divisions by a constant turned into multiplications. *)
Ltac qlra := unfold Qdiv in *; cbn [Qinv Qnum Qden] in *; lra.

Lemma inject_nat_nonneg (n : nat) : (0 <= inject_Z (Z.of_nat n))%Q.
Proof. unfold Qle. simpl. lia. Qed.

Lemma ratio_bounds (k n : nat) :
  (k <= n)%nat -> (0 < n)%nat ->
  (0 <= inject_Z (Z.of_nat k) / inject_Z (Z.of_nat n) <= 1)%Q.
Proof.
  intros Hkn Hn.
  assert (Hpos : (0 < inject_Z (Z.of_nat n))%Q) by (unfold Qlt; simpl; lia).
  split.
  - apply Qle_shift_div_l; [exact Hpos|]. rewrite Qmult_0_l. apply inject_nat_nonneg.
  - apply Qle_shift_div_r; [exact Hpos|]. rewrite Qmult_1_l.
    rewrite <- Zle_Qle. lia.
Qed.

Lemma length_adequacy_bounds (text : string) : (0 <= length_adequacy text <= 1)%Q.
Proof.
  unfold length_adequacy.
  pose proof (inject_nat_nonneg (String.length text)) as Hn.
  destruct (Q.min_spec 1 (inject_Z (Z.of_nat (String.length text)) / 200))
    as [[? ->]|[? ->]]; [lra|].
  split; [|assumption].
  apply Qle_shift_div_l; [lra|]. lra.
Qed.

Lemma length_adequacy_positive (text : string) :
  Str.truthy text = true -> (1 # 200 <= length_adequacy text)%Q.
Proof.
  intros Ht. unfold length_adequacy.
  assert (Hn : (1 <= inject_Z (Z.of_nat (String.length text)))%Q).
  { destruct text; [discriminate|]. unfold Qle. simpl. lia. }
  destruct (Q.min_spec 1 (inject_Z (Z.of_nat (String.length text)) / 200))
    as [[? ->]|[? ->]]; [lra|].
  apply Qle_shift_div_l; [lra|]. lra.
Qed.

Lemma text_quality_bounds (text : string) :
  (0 <= text_quality text <= 1)%Q /\
  (Str.truthy text = true -> (0.525 < text_quality text)%Q).
Proof.
  unfold text_quality, four_indicator_mean, completeness, readability, cleanliness.
  pose proof (length_adequacy_bounds text) as [Hl Hu].
  pose proof (length_adequacy_positive text) as Hp.
  destruct (Str.truthy text).
  - specialize (Hp eq_refl).
    destruct (Str.endswith "..." text), (has_sentence_end text), (has_placeholder text);
      (split; [split|intros _]); qlra.
  - split; [lra|discriminate].
Qed.

Lemma calculateTextQuality_bounds (text : string) :
  (0 <= _calculateTextQuality text <= 1)%Q /\
  (Str.truthy text = true -> (0.525 < _calculateTextQuality text)%Q).
Proof.
  rewrite (calculateTextQuality_spec text). apply text_quality_bounds.
Qed.

Lemma getSourceReliability_bounds (source : string) :
  (0.7 <= _getSourceReliability source <= 0.95)%Q.
Proof.
  unfold _getSourceReliability.
  destruct (Str.startswith "bible:" source); [lra|].
  destruct (Str.startswith "gutenberg:" source); lra.
Qed.

Lemma getMetadataCompleteness_bounds (metadata : gmap string pyval) :
  (0 <= _getMetadataCompleteness metadata <= 1)%Q.
Proof.
  unfold _getMetadataCompleteness.
  apply ratio_bounds.
  - apply length_filter.
  - destruct (metadata !! "book"); simpl; lia.
Qed.

Lemma getCitationMatchScore_bounds (candidate : PassageCandidate) (original : string) (cm : Q) :
  _getCitationMatchScore candidate original = Ok cm -> (0.5 <= cm <= 1)%Q.
Proof.
  unfold _getCitationMatchScore.
  destruct (lower_method _) as [t|]; [|discriminate]. cbn [bind].
  destruct (lower_method _) as [a|]; [|discriminate]. cbn [bind].
  intros [= <-].
  destruct (Str.contains t _), (Str.contains a _);
    match goal with |- (_ <= Qmin 1 ?x <= _)%Q =>
      destruct (Q.min_spec 1 x) as [[? ->]|[? ->]] end; lra.
Qed.

(** Whatever the scorer returns was computed from a citation-match
    sub-score. *)
Lemma calculateConfidenceScore_inv (candidate : PassageCandidate) (original : string) (q : Q) :
  calculateConfidenceScore candidate original = Ok q ->
  exists cm, _getCitationMatchScore candidate original = Ok cm /\
             (q == score candidate cm)%Q.
Proof.
  intros Hq.
  destruct (_getCitationMatchScore candidate original) as [cm|e] eqn:Hcm.
  - exists cm. split; [reflexivity|].
    destruct (calculateConfidenceScore_formula _ _ _ Hcm) as (q' & Hq' & Heq).
    rewrite Hq in Hq'. injection Hq' as <-. exact Heq.
  - unfold calculateConfidenceScore in Hq. rewrite Hcm in Hq. discriminate.
Qed.

Lemma clamp01_inactive (x : Q) : (0 <= x <= 1)%Q -> (clamp01 x == x)%Q.
Proof.
  intros [H0 H1]. unfold clamp01.
  destruct (Qlt_le_dec x 0); [lra|]. destruct (Qlt_le_dec 1 x); lra.
Qed.

End ScoreBounds.

(** X3: calculateConfidenceScore: every sub-score lies in its interval, so the
    weighted sum lies in [0.29, 0.99]; the result is always in [0, 1]; and
    for a prior confidence in [0, 1] the clamp does nothing: the result is
    the plain midpoint, between 0.145 and 0.995. *)
Theorem calculateConfidenceScore_bounds
    (candidate : PassageCandidate) (original_citation : string) (q : Q) :
  calculateConfidenceScore candidate original_citation = Ok q ->
  exists cm,
    _getCitationMatchScore candidate original_citation = Ok cm /\
    (0 <= _calculateTextQuality (text candidate) <= 1)%Q /\
    (0.7 <= _getSourceReliability (source candidate) <= 0.95)%Q /\
    (0 <= _getMetadataCompleteness (metadata candidate) <= 1)%Q /\
    (0.5 <= cm <= 1)%Q /\
    (0 <= q <= 1)%Q /\
    ((0 <= confidence candidate <= 1)%Q ->
     (q == (confidence candidate
            + (0.30 * _calculateTextQuality (text candidate)
               + 0.20 * _getSourceReliability (source candidate)
               + 0.20 * _getMetadataCompleteness (metadata candidate)
               + 0.30 * cm)) / 2)%Q /\
     (0.145 <= q <= 0.995)%Q).
Proof.
  intros Hq.
  destruct (ScoreBounds.calculateConfidenceScore_inv _ _ _ Hq) as (cm & Hcm & Heq).
  exists cm.
  pose proof (ScoreBounds.calculateTextQuality_bounds (text candidate)) as [Htq _].
  pose proof (ScoreBounds.getSourceReliability_bounds (source candidate)) as Hsr.
  pose proof (ScoreBounds.getMetadataCompleteness_bounds (metadata candidate)) as Hmc.
  pose proof (ScoreBounds.getCitationMatchScore_bounds _ _ _ Hcm) as Hcmb.
  repeat (split; [assumption|]).
  assert (Hscore : (q == ScorerSpec.clamp01
                     ((confidence candidate
                       + (0.30 * _calculateTextQuality (text candidate)
                          + 0.20 * _getSourceReliability (source candidate)
                          + 0.20 * _getMetadataCompleteness (metadata candidate)
                          + 0.30 * cm)) / 2))%Q).
  { rewrite Heq. unfold ScorerSpec.score, ScorerSpec.score_with, ScorerSpec.weighted_sum.
    apply ScorerFacts.clamp01_compat.
    rewrite (ScorerFacts.calculateTextQuality_spec (text candidate)). reflexivity. }
  split.
  - rewrite Hscore. apply ScorerFacts.clamp01_bounds.
  - intros Hprior.
    rewrite ScoreBounds.clamp01_inactive in Hscore by ScoreBounds.qlra.
    split; [exact Hscore|]. rewrite Hscore. ScoreBounds.qlra.
Qed.

Lemma calculateConfidenceScore_bounds_witness :
  exists q,
    calculateConfidenceScore romans_candidate "Romans 8:28" = Ok q /\
    exists cm,
      _getCitationMatchScore romans_candidate "Romans 8:28" = Ok cm /\
      (0 <= _calculateTextQuality (text romans_candidate) <= 1)%Q /\
      (0.7 <= _getSourceReliability (source romans_candidate) <= 0.95)%Q /\
      (0 <= _getMetadataCompleteness (metadata romans_candidate) <= 1)%Q /\
      (0.5 <= cm <= 1)%Q /\
      (0 <= q <= 1)%Q /\
      ((0 <= confidence romans_candidate <= 1)%Q ->
       (q == (confidence romans_candidate
              + (0.30 * _calculateTextQuality (text romans_candidate)
                 + 0.20 * _getSourceReliability (source romans_candidate)
                 + 0.20 * _getMetadataCompleteness (metadata romans_candidate)
                 + 0.30 * cm)) / 2)%Q /\
       (0.145 <= q <= 0.995)%Q).
Proof.
  eexists. split; [vm_compute; reflexivity|].
  apply (calculateConfidenceScore_bounds romans_candidate "Romans 8:28").
  vm_compute. reflexivity.
Defined.

Module CaptureFacts.

Import ReSpec ReFacts CaptureSpec.

Lemma Derive_unmentioned ic r w cs cs' (i : nat) :
  Derive ic r w cs cs' -> mentions i r = false -> group cs' i = group cs i.
Proof.
  induction 1; simpl; intros Hm; try reflexivity;
    try (apply orb_false_elim in Hm as [Hm1 Hm2]); auto;
    try (rewrite IHDerive2, IHDerive1; now auto).
  rewrite Hm1. auto.
Qed.

Lemma Derive_head_group ic r w cs cs' (i : nat) (g : regex) :
  Derive ic r w cs cs' -> head_group i r = Some g ->
  exists t tail cs1, w = t ++ tail /\ Derive ic g t cs cs1 /\ group cs' i = Some t.
Proof.
  induction 1; simpl; intros Hg; try discriminate.
  - destruct (mentions i r2) eqn:Hm; [discriminate|].
    destruct (IHDerive1 Hg) as (t & tail & cs0 & -> & Hd & Hgrp).
    exists t, (tail ++ w2), cs0. split; [now rewrite StrFacts.app_assoc|].
    split; [exact Hd|].
    now rewrite (Derive_unmentioned _ _ _ _ _ i H0 Hm).
  - destruct (Nat.eqb i i0) eqn:Hi; [|discriminate].
    destruct (negb (mentions i r)); [|discriminate]. injection Hg as <-.
    exists w, "", cs'. split; [now rewrite StrFacts.app_nil_r|].
    split; [exact H|]. simpl. rewrite ?Hi. reflexivity.
Qed.

Lemma Derive_needs_digit ic r w cs cs' :
  Derive ic r w cs cs' -> needs_digit r = true ->
  Str.existsb Char.py_isdecimal w = true.
Proof.
  induction 1; simpl; intros Hn; try discriminate.
  - destruct set; try discriminate. rewrite in_charset_digit in H. now rewrite H.
  - rewrite StripFacts.existsb_app. apply orb_prop in Hn as [Hn|Hn].
    + now rewrite IHDerive1.
    + rewrite IHDerive2 by assumption. apply orb_true_r.
  - apply andb_prop in Hn as [Hn _]. auto.
  - apply andb_prop in Hn as [_ Hn]. auto.
  - auto.
Qed.

Lemma within_refl (w : string) : within w w.
Proof. intros p H. exact H. Qed.

Lemma within_app_l (x a b : string) : within x a -> within x (a ++ b).
Proof. intros H p Hp. rewrite StripFacts.existsb_app, (H p Hp). reflexivity. Qed.

Lemma within_app_r (x a b : string) : within x b -> within x (a ++ b).
Proof. intros H p Hp. rewrite StripFacts.existsb_app, (H p Hp). apply orb_true_r. Qed.

(** A capture made during a match is a piece of the matched text. *)
Lemma Derive_within ic r w cs cs' :
  Derive ic r w cs cs' ->
  forall j x, In (j, x) cs' -> In (j, x) cs \/ within x w.
Proof.
  induction 1; intros j x Hin; auto.
  - destruct (IHDerive2 _ _ Hin) as [Hin1|Hw]; [|right; now apply within_app_r].
    destruct (IHDerive1 _ _ Hin1) as [Hin0|Hw]; [now left|right; now apply within_app_l].
  - destruct (IHDerive2 _ _ Hin) as [Hin1|Hw]; [|right; now apply within_app_r].
    destruct (IHDerive1 _ _ Hin1) as [Hin0|Hw]; [now left|right; now apply within_app_l].
  - destruct Hin as [[= <- <-]|Hin]; [right; apply within_refl|auto].
Qed.

Lemma group_In (cs : caps) (i : nat) (x : string) : group cs i = Some x -> In (i, x) cs.
Proof.
  induction cs as [|[j y] cs IH]; simpl; [discriminate|].
  destruct (Nat.eqb i j) eqn:E.
  - intros [= ->]. apply Nat.eqb_eq in E. subst. now left.
  - intros H. right. now apply IH.
Qed.

(** A group of a successful [re.match] is a piece of the text. *)
Lemma re_match_within (p : pattern) (s : string) (m : caps) (i : nat) (x : string) :
  re_match p s = Some m -> group m i = Some x -> within x s.
Proof.
  intros Hm Hg. apply re_match_sound in Hm as (w & t & -> & Hd).
  apply group_In in Hg.
  destruct (Derive_within _ _ _ _ _ Hd _ _ Hg) as [[]|Hw].
  now apply within_app_l.
Qed.

(** A pattern that needs a digit matches no text without one. *)
Lemma re_match_needs_digit (p : pattern) (s : string) :
  needs_digit (p_re p) = true ->
  Str.existsb Char.py_isdecimal s = false -> re_match p s = None.
Proof.
  intros Hn Hs. destruct (re_match p s) as [m|] eqn:Hm; [|reflexivity].
  apply re_match_sound in Hm as (w & t & -> & Hd).
  apply Derive_needs_digit in Hd; [|exact Hn].
  rewrite StripFacts.existsb_app, Hd in Hs. discriminate.
Qed.

Lemma re_search_needs_digit (p : pattern) (s : string) :
  needs_digit (p_re p) = true ->
  Str.existsb Char.py_isdecimal s = false -> re_search p s = None.
Proof.
  intros Hn. unfold re_search. generalize (@None ascii).
  induction s as [|c s IH]; intros before Hs.
  - cbn [search_from].
    destruct (match_at p (Cursor before "")) as [[cu cs]|] eqn:Hm; [|reflexivity].
    apply match_at_sound in Hm as (w & Hw & Hd). cbn [rest] in Hw.
    apply Derive_needs_digit in Hd; [|exact Hn].
    destruct w; [discriminate|discriminate].
  - cbn [search_from].
    destruct (match_at p (Cursor before (String c s))) as [[cu cs]|] eqn:Hm.
    + apply match_at_sound in Hm as (w & Hw & Hd). cbn [rest] in Hw.
      apply Derive_needs_digit in Hd; [|exact Hn].
      rewrite Hw, StripFacts.existsb_app, Hd in Hs. discriminate.
    + apply IH. simpl in Hs. now apply orb_false_elim in Hs as [_ Hs].
Qed.

(** The words of a lazily repeated class. *)
Lemma Derive_plus_lazy_class ic set w cs cs' :
  Derive ic (PlusLazy (Chr set)) w cs cs' ->
  cs' = cs /\ w <> "" /\ Str.forallb (in_charset ic set) w = true.
Proof.
  unfold PlusLazy. intros H.
  inversion H as [| |? ? w1 w2 ? cs1 ? Hd1 Hd2| | | | | | | |]; subst.
  apply Derive_star_class in Hd2 as [-> Hall].
  apply Derive_chr in Hd1 as (-> & c & -> & Hc).
  repeat split; [discriminate|].
  simpl. now rewrite Hc, Hall.
Qed.

End CaptureFacts.

(* ================================================================= *)
(** ** Texts without a digit *)

Module NoDigitFacts.

Import ReSpec ReFacts ParserFacts CaptureSpec CaptureFacts.

#[local] Arguments normalizeBookNames : simpl never.
#[local] Arguments re_match : simpl never.
#[local] Arguments re_search : simpl never.
#[local] Arguments PyInt.parse : simpl never.
#[local] Arguments Str.strip : simpl never.

Lemma digitless_within (x s : string) : within x s -> digitless s -> digitless x.
Proof.
  unfold digitless. intros Hw Hs.
  destruct (Str.existsb Char.py_isdecimal x) eqn:Hx; [|reflexivity].
  rewrite (Hw _ Hx) in Hs. discriminate.
Qed.

Lemma digitless_strip (s : string) : digitless s -> digitless (Str.strip s).
Proof. apply StripFacts.existsb_strip. Qed.

Lemma split_within (sep : ascii) (s p : string) : In p (Str.split sep s) -> within p s.
Proof.
  revert p. induction s as [|c s IH]; intros p; simpl.
  - intros [<-|[]]. apply within_refl.
  - destruct (c =? sep)%char.
    + intros [<-|Hin]; [intros q [=]|].
      intros q Hq. simpl. rewrite (IH _ Hin q Hq). apply orb_true_r.
    + destruct (Str.split sep s) as [|p0 ps] eqn:Hsplit.
      * intros [<-|[]]. intros q Hq. simpl in *.
        apply orb_prop in Hq as [->|Hq]; [reflexivity|discriminate].
      * intros [<-|Hin].
        -- intros q Hq. simpl in *. apply orb_prop in Hq as [->|Hq]; [reflexivity|].
           rewrite (IH p0 (or_introl eq_refl) q Hq). apply orb_true_r.
        -- intros q Hq. simpl. rewrite (IH p (or_intror Hin) q Hq). apply orb_true_r.
Qed.

Lemma mapM_all_nil {A B : Type} (f : A -> result (list B)) (l : list A) :
  (forall a, In a l -> f a = Ok []) ->
  exists rs, mapM f l = Ok rs /\ concat rs = [].
Proof.
  induction l as [|a l IH]; intros H; simpl.
  - exists []. auto.
  - rewrite (H a (or_introl eq_refl)). cbn [bind].
    destruct IH as (rs & -> & Hrs); [intros; apply H; now right|].
    cbn [bind]. exists ([] :: rs). auto.
Qed.

Lemma parse_single_biblical_digitless (citation : string) :
  digitless citation -> parse_single_biblical citation = Ok [].
Proof.
  intros H. unfold parse_single_biblical.
  rewrite (re_match_needs_digit Patterns.bible_standard);
    [reflexivity|reflexivity|now apply digitless_strip].
Qed.

Lemma parseBiblical_rec_digitless (depth : nat) :
  forall citation, digitless citation -> parseBiblical_rec depth citation = Ok [].
Proof.
  induction depth as [|d IH]; intros citation H; simpl.
  - destruct (Str.has_char ";" citation);
      [reflexivity|now apply parse_single_biblical_digitless].
  - destruct (Str.has_char ";" citation); [|now apply parse_single_biblical_digitless].
    destruct (mapM_all_nil (parseBiblical_rec d) (map Str.strip (Str.split ";" citation)))
      as (rs & -> & Hrs).
    { intros a Ha. apply in_map_iff in Ha as (p & <- & Hp).
      apply IH, digitless_strip. eapply digitless_within; [|exact H].
      now apply split_within in Hp. }
    cbn [bind]. now rewrite Hrs.
Qed.

Lemma parseLiteraryCitation_digitless (citation : string) :
  digitless citation -> _parseLiteraryCitation citation = Ok [].
Proof.
  intros H. unfold _parseLiteraryCitation.
  rewrite (re_match_needs_digit Patterns.literature_drama),
    (re_match_needs_digit Patterns.literature_book),
    (re_match_needs_digit Patterns.literature_simple);
    solve [reflexivity|exact H].
Qed.

Lemma parse_reference_digitless (ref : string) :
  digitless ref -> parse_reference ref = Ok [].
Proof.
  intros H. unfold parse_reference.
  destruct (identifySourceType_total ref) as (t & -> & _). cbn [bind].
  destruct (String.eqb t "bible");
    [now apply parseBiblical_rec_digitless|now apply parseLiteraryCitation_digitless].
Qed.

Lemma parseMixedCitation_digitless (citation : string) :
  digitless citation -> _parseMixedCitation citation = Ok [].
Proof.
  intros H. unfold _parseMixedCitation.
  destruct (re_match Patterns.mixed_reference citation) as [m|] eqn:Hm; [|reflexivity].
  pose proof (fun i x => re_match_within _ _ _ i x Hm) as Hin.
  apply re_match_sound in Hm as (w & t & _ & Hd).
  apply mixed_reference_shape in Hd as (a & b & ->).
  cbn [group Nat.eqb bind str_receiver].
  assert (Ha : digitless (Str.strip a)).
  { apply digitless_strip. apply (digitless_within _ _ (Hin 1%nat a eq_refl) H). }
  assert (Hb : digitless (Str.strip b)).
  { apply digitless_strip. apply (digitless_within _ _ (Hin 2%nat b eq_refl) H). }
  now rewrite !parse_reference_digitless.
Qed.

Lemma parse_references_digitless (text : string) :
  digitless text -> exists t, parse_references text = Ok (t, []).
Proof.
  intros H. unfold parse_references.
  destruct (identifySourceType_total text) as (t & -> & Hcases). cbn [bind].
  exists t. destruct Hcases as [-> | [-> | ->]]; cbn [String.eqb Ascii.eqb Bool.eqb].
  - change (if "mixed" =? "bible" then _ else _)%string with (_parseMixedCitation text).
    now rewrite parseMixedCitation_digitless.
  - change (if "bible" =? "bible" then _ else _)%string with (_parseBiblicalCitation text).
    unfold _parseBiblicalCitation. now rewrite parseBiblical_rec_digitless.
  - change (if "literature" =? "bible" then _ else _)%string
      with (_parseLiteraryCitation text).
    now rewrite parseLiteraryCitation_digitless.
Qed.

End NoDigitFacts.

(** X4: A citation without any decimal digit yields nothing: every pattern of
    the parser needs a number, so parseCitation returns an empty list of
    citations, and extractPassageFromCitation returns no candidate and no
    best match, whatever the corpus. *)
Theorem digitless_citation_yields_nothing
    (literary_works : list (string * WorkInfo))
    (readlines : string -> option (list string))
    (ratio : string -> string -> Q) (citation : string) :
  Str.existsb Char.py_isdecimal citation = false ->
  (exists source_type_,
     parseCitation citation = Ok (mkParseResult [] source_type_ (Str.strip citation))) /\
  extractPassageFromCitation literary_works readlines ratio citation
  = Ok (mkExtractionResult citation [] None).
Proof.
  intros H.
  destruct (NoDigitFacts.parse_references_digitless (Str.strip citation)) as (t & Ht).
  { now apply NoDigitFacts.digitless_strip. }
  assert (Hp : parseCitation citation = Ok (mkParseResult [] t (Str.strip citation))).
  { unfold parseCitation. rewrite Ht. reflexivity. }
  split; [eauto|].
  unfold extractPassageFromCitation, generatePassageCandidates. rewrite Hp. reflexivity.
Qed.

Lemma digitless_citation_witness :
  Str.existsb Char.py_isdecimal "Paradise Lost, Book the First" = false /\
  (exists source_type_,
     parseCitation "Paradise Lost, Book the First"
     = Ok (mkParseResult [] source_type_ (Str.strip "Paradise Lost, Book the First"))) /\
  extractPassageFromCitation demo_works demo_readlines demo_ratio
    "Paradise Lost, Book the First"
  = Ok (mkExtractionResult "Paradise Lost, Book the First" [] None).
Proof.
  split; [reflexivity|].
  apply (digitless_citation_yields_nothing demo_works demo_readlines demo_ratio
           "Paradise Lost, Book the First").
  reflexivity.
Defined.

(* ================================================================= *)
(** ** The references the parser builds *)

Module ReferenceFacts.

Import ReSpec ReFacts ParserSpec ParserFacts CaptureSpec CaptureFacts ReferenceSpec.

#[local] Arguments normalizeBookNames : simpl never.
#[local] Arguments re_match : simpl never.
#[local] Arguments re_search : simpl never.
#[local] Arguments PyInt.parse : simpl never.
#[local] Arguments Str.strip : simpl never.

(** *** The work title *)

Lemma strip_starts_clean (s : string) : starts_clean (Str.strip s).
Proof.
  unfold starts_clean. destruct (Str.strip s) as [|c t] eqn:E; [exact I|].
  now apply StripFacts.strip_head in E.
Qed.

Lemma strip_truthy (s : string) :
  s <> "" -> starts_clean s -> Str.truthy (Str.strip s) = true.
Proof.
  destruct s as [|c t]; [congruence|]. intros _ Hc. simpl in Hc.
  unfold Str.strip. cbn [Str.drop_while]. rewrite Hc.
  rewrite StripFacts.rev_cons, (StripFacts.drop_while_snoc_stop _ _ _ Hc),
    StripFacts.rev_app.
  reflexivity.
Qed.

(** Group 1 of a literary pattern is a non-empty prefix of the text. *)
Lemma literary_title (p : pattern) (citation : string) (m : caps) :
  p_icase p = true ->
  head_group 1 (p_re p) = Some (PlusLazy (Chr Patterns.letter_or_space)) ->
  re_match p citation = Some m ->
  exists title tail, citation = title ++ tail /\ title <> "" /\ group m 1 = Some title.
Proof.
  intros Hic Hhead Hm. apply re_match_sound in Hm as (w & t & -> & Hd).
  rewrite Hic in Hd.
  destruct (Derive_head_group _ _ _ _ _ _ _ Hd Hhead) as (ti & tail & cs1 & -> & Hg & Hgrp).
  apply Derive_plus_lazy_class in Hg as (_ & Hne & _).
  exists ti, (tail ++ t). split; [now rewrite StrFacts.app_assoc|]. auto.
Qed.

Lemma first_literary_match_title (citation : string) (m : caps) :
  first_literary_match citation = Some m ->
  exists title tail, citation = title ++ tail /\ title <> "" /\ group m 1 = Some title.
Proof.
  unfold first_literary_match.
  destruct (re_match Patterns.literature_drama citation) as [m1|] eqn:Hdrama.
  { intros [= <-]. now apply (literary_title Patterns.literature_drama). }
  destruct (re_match Patterns.literature_book citation) as [m2|] eqn:Hbook.
  { intros [= <-]. now apply (literary_title Patterns.literature_book). }
  intros Hsimple. now apply (literary_title Patterns.literature_simple).
Qed.

(** [_parseLiteraryCitation] builds at most one reference: none when no
    pattern matches, and otherwise one whose work is the trimmed group 1 of
    the first pattern that matches. *)
Lemma parseLiteraryCitation_work (citation : string) :
  match first_literary_match citation with
  | None => _parseLiteraryCitation citation = Ok []
  | Some m =>
      exists title tail sl el a sc bn,
        citation = title ++ tail /\ title <> "" /\ group m 1 = Some title /\
        _parseLiteraryCitation citation
        = Ok [literary_ref (Str.strip title) sl el a sc bn] /\
        0 <= sl /\ 0 <= el
  end.
Proof.
  pose proof (first_literary_match_title citation) as Htitle.
  destruct (parseLiteraryCitation_total citation) as (rs & Hrs & Hok).
  unfold first_literary_match in *. unfold _parseLiteraryCitation in *.
  destruct (re_match Patterns.literature_drama citation) as [m1|].
  { destruct (Htitle m1 eq_refl) as (ti & tail & Hc & Hne & E1). exists ti, tail.
    rewrite E1 in *. cbn [bind str_receiver] in *.
    destruct (py_int (group m1 4)) as [sl|]; [|discriminate]. cbn [bind] in *.
    destruct (if truthy_opt Str.truthy (group m1 5) then _ else _) as [el|];
      [|discriminate].
    cbn [bind] in *. injection Hrs as <-. apply Forall_inv in Hok.
    exists sl, el, (group m1 2), (group m1 3), None.
    repeat split; auto; [apply (ok_start_line _ Hok)|apply (ok_end_line _ Hok)];
      reflexivity. }
  destruct (re_match Patterns.literature_book citation) as [m2|].
  { destruct (Htitle m2 eq_refl) as (ti & tail & Hc & Hne & E1). exists ti, tail.
    rewrite E1 in *. cbn [bind str_receiver] in *.
    destruct (py_int (group m2 3)) as [sl|]; [|discriminate]. cbn [bind] in *.
    destruct (if truthy_opt Str.truthy (group m2 4) then _ else _) as [el|];
      [|discriminate].
    cbn [bind] in *. injection Hrs as <-. apply Forall_inv in Hok.
    exists sl, el, None, None, (group m2 2).
    repeat split; auto; [apply (ok_start_line _ Hok)|apply (ok_end_line _ Hok)];
      reflexivity. }
  destruct (re_match Patterns.literature_simple citation) as [m3|]; [|reflexivity].
  destruct (Htitle m3 eq_refl) as (ti & tail & Hc & Hne & E1). exists ti, tail.
  rewrite E1 in *. cbn [bind str_receiver] in *.
  destruct (py_int (group m3 2)) as [sl|]; [|discriminate]. cbn [bind] in *.
  destruct (if truthy_opt Str.truthy (group m3 3) then _ else _) as [el|];
    [|discriminate].
  cbn [bind] in *. injection Hrs as <-. apply Forall_inv in Hok.
  exists sl, el, None, None, None.
  repeat split; auto; [apply (ok_start_line _ Hok)|apply (ok_end_line _ Hok)];
    reflexivity.
Qed.

(** [extractWorkTitle] on the text it matches against. *)
Lemma extractWorkTitle_match (citation : string) :
  extractWorkTitle citation =
  match first_literary_match
          (Str.strip (re_sub InlinePatterns.cf_prefix (fun _ => "") citation)) with
  | Some m =>
      match group m 1 with
      | Some title => Ok (Some (Str.strip title))
      | None => Raise AttributeError
      end
  | None => Ok None
  end.
Proof.
  unfold extractWorkTitle, first_literary_match.
  destruct (re_match Patterns.literature_drama _) as [m1|];
    [now destruct (group m1 1)|].
  destruct (re_match Patterns.literature_book _) as [m2|];
    [now destruct (group m2 1)|].
  destruct (re_match Patterns.literature_simple _) as [m3|];
    [now destruct (group m3 1)|reflexivity].
Qed.

(** *** Every reference is of one of the two kinds *)

Lemma starts_clean_prefix (title tail : string) :
  title <> "" -> starts_clean (title ++ tail) -> starts_clean title.
Proof. destruct title; [congruence|]. auto. Qed.

Lemma parseLiteraryCitation_emitted (citation : string) :
  starts_clean citation ->
  exists rs, _parseLiteraryCitation citation = Ok rs /\ Forall emitted rs.
Proof.
  intros Hclean. pose proof (parseLiteraryCitation_work citation) as H.
  destruct (first_literary_match citation) as [m|]; [|eauto].
  destruct H as (ti & tail & sl & el & a & sc & bn & Hc & Hne & _ & -> & Hsl & Hel).
  eexists; split; [reflexivity|]. constructor; [|constructor].
  apply emitted_literary; auto.
  apply strip_truthy; [exact Hne|]. rewrite Hc in Hclean.
  now apply starts_clean_prefix in Hclean.
Qed.

Lemma parse_single_biblical_emitted (citation : string) :
  exists rs, parse_single_biblical citation = Ok rs /\ Forall emitted rs.
Proof.
  destruct (parse_single_biblical_total citation) as (rs & Hrs & Hok).
  exists rs. split; [exact Hrs|].
  unfold parse_single_biblical in Hrs.
  destruct (re_match _ _) as [m|]; [|injection Hrs as <-; constructor].
  cbn [bind] in Hrs.
  destruct (py_int (group m 2)) as [c|]; [|discriminate]. cbn [bind] in Hrs.
  destruct (py_int (group m 3)) as [s|]; [|discriminate]. cbn [bind] in Hrs.
  destruct (if truthy_opt Str.truthy (group m 4) then _ else _) as [e|]; [|discriminate].
  cbn [bind] in Hrs.
  destruct (str_receiver (group m 1)) as [b|]; [|discriminate]. cbn [bind] in Hrs.
  destruct (normalizeBookNames b) as [nb|] eqn:Hn; [|injection Hrs as <-; constructor].
  destruct (Str.truthy nb); injection Hrs as <-; [|constructor].
  apply Forall_inv in Hok. constructor; [|constructor].
  apply emitted_bible.
  - now exists b.
  - now apply (ok_chapter _ Hok).
  - now apply (ok_start_verse _ Hok).
  - now apply (ok_end_verse _ Hok).
Qed.

Lemma parseBiblical_rec_emitted (depth : nat) :
  forall citation,
    exists rs, parseBiblical_rec depth citation = Ok rs /\ Forall emitted rs.
Proof.
  induction depth as [|d IH]; intros citation; simpl.
  - destruct (Str.has_char ";" citation); [eauto|apply parse_single_biblical_emitted].
  - destruct (Str.has_char ";" citation); [|apply parse_single_biblical_emitted].
    destruct (mapM_total (parseBiblical_rec d) (Forall emitted)
                (map Str.strip (Str.split ";" citation))) as (rss & -> & Hall).
    { intros a _. apply IH. }
    simpl. eexists; split; [reflexivity|]. now apply Forall_concat.
Qed.

Lemma parse_reference_emitted (ref : string) :
  starts_clean ref ->
  exists rs, parse_reference ref = Ok rs /\ Forall emitted rs.
Proof.
  intros Hclean. unfold parse_reference.
  destruct (identifySourceType_total ref) as (t & -> & _). cbn [bind].
  destruct (String.eqb t "bible");
    [apply parseBiblical_rec_emitted|now apply parseLiteraryCitation_emitted].
Qed.

Lemma parseMixedCitation_emitted (citation : string) :
  exists rs, _parseMixedCitation citation = Ok rs /\ Forall emitted rs.
Proof.
  unfold _parseMixedCitation.
  destruct (re_match Patterns.mixed_reference citation) as [m|] eqn:Hm; [|eauto].
  apply re_match_sound in Hm as (w & t & _ & Hd).
  apply mixed_reference_shape in Hd as (a & b & ->).
  cbn [group Nat.eqb bind str_receiver].
  destruct (parse_reference_emitted (Str.strip a) (strip_starts_clean a)) as (r1 & -> & H1).
  destruct (parse_reference_emitted (Str.strip b) (strip_starts_clean b)) as (r2 & -> & H2).
  cbn [bind]. eexists; split; [reflexivity|]. now apply Forall_app.
Qed.

Lemma parse_references_emitted (text : string) :
  starts_clean text ->
  exists t rs, parse_references text = Ok (t, rs) /\ Forall emitted rs.
Proof.
  intros Hclean. unfold parse_references.
  destruct (identifySourceType_total text) as (t & Ht & Hcases). rewrite Ht. cbn [bind].
  destruct Hcases as [-> | [-> | ->]]; cbn [String.eqb Ascii.eqb Bool.eqb].
  - destruct (parseMixedCitation_emitted text) as (rs & E & Hrs).
    change (if "mixed" =? "bible" then _ else _)%string with (_parseMixedCitation text).
    rewrite E. cbn [bind]. eauto.
  - destruct (parseBiblical_rec_emitted 1 text) as (rs & E & Hrs).
    change (if "bible" =? "bible" then _ else _)%string with (_parseBiblicalCitation text).
    unfold _parseBiblicalCitation. rewrite E. cbn [bind]. eauto.
  - destruct (parseLiteraryCitation_emitted text Hclean) as (rs & E & Hrs).
    change (if "literature" =? "bible" then _ else _)%string
      with (_parseLiteraryCitation text).
    rewrite E. cbn [bind]. eauto.
Qed.

(** [parseCitation] and the references behind its dictionaries. *)
Lemma parseCitation_emitted (text : string) :
  exists t rs,
    parse_references (Str.strip text) = Ok (t, rs) /\ Forall emitted rs /\
    parseCitation text = Ok (mkParseResult (map citation_dict rs) t (Str.strip text)).
Proof.
  destruct (parse_references_emitted (Str.strip text) (strip_starts_clean text))
    as (t & rs & E & Hrs).
  exists t, rs. repeat split; auto. unfold parseCitation. now rewrite E.
Qed.

End ReferenceFacts.



(* ================================================================= *)
(** ** From the references to the candidates *)

Module PipelineFacts.

Import ParserSpec ParserFacts DictFacts ScorerSpec ScorerFacts EngineFacts ReferenceSpec
  ReferenceFacts.

Lemma put_str_eq key v (d : gmap string pyval) :
  d !! key = None -> put_str key v d !! key = stored_str_value v.
Proof.
  intros Hd. unfold put_str, stored_str_value. destruct v as [s|]; simpl; [|exact Hd].
  destruct (Str.truthy s); [apply lookup_insert_eq|exact Hd].
Qed.

Lemma put_int_eq key v (d : gmap string pyval) :
  d !! key = None -> put_int key v d !! key = stored_int_value v.
Proof.
  intros Hd. unfold put_int, stored_int_value. destruct v as [n|]; simpl; [|exact Hd].
  destruct (int_truthy n); [apply lookup_insert_eq|exact Hd].
Qed.

Ltac skip_other_keys :=
  repeat first [ rewrite lookup_put_str_ne by discriminate
               | rewrite lookup_put_int_ne by discriminate ].

Ltac dict_lookup :=
  unfold citation_dict; skip_other_keys;
  first [ apply put_str_eq | apply put_int_eq ];
  skip_other_keys; now apply lookup_singleton_ne.

Lemma citation_dict_work r : citation_dict r !! "work" = stored_str_value (work r).
Proof. dict_lookup. Qed.

Lemma citation_dict_book_value r : citation_dict r !! "book" = stored_str_value (book r).
Proof. dict_lookup. Qed.

Lemma citation_dict_chapter r : citation_dict r !! "chapter" = stored_int_value (chapter r).
Proof. dict_lookup. Qed.

Lemma citation_dict_start_verse r :
  citation_dict r !! "start_verse" = stored_int_value (start_verse r).
Proof. dict_lookup. Qed.

Lemma citation_dict_end_verse r :
  citation_dict r !! "end_verse" = stored_int_value (end_verse r).
Proof. dict_lookup. Qed.

Lemma citation_dict_start_line r :
  citation_dict r !! "start_line" = stored_int_value (start_line r).
Proof. dict_lookup. Qed.

Lemma citation_dict_end_line r :
  citation_dict r !! "end_line" = stored_int_value (end_line r).
Proof. dict_lookup. Qed.

(** *** One reference *)

Section Corpus.

Variable literary_works : list (string * WorkInfo).
Variable readlines : string -> option (list string).
Variable ratio : string -> string -> Q.

(** The loop body of [generatePassageCandidates] on a dictionary of
    [parseCitation]: a [KeyError] for the first key that is not stored, the
    candidates otherwise. *)
Lemma candidates_of_dict (r : CitationResult) :
  candidates_of literary_works readlines ratio (citation_dict r) =
  match missing_key r with
  | Some k => Raise (KeyError k)
  | None => Ok (candidates_for literary_works readlines ratio r)
  end.
Proof.
  unfold candidates_of, getitem. rewrite citation_dict_type.
  cbn [bind pyval_is_str]. unfold missing_key, candidates_for.
  destruct (String.eqb (type r) "bible").
  - rewrite citation_dict_book_value, citation_dict_chapter, citation_dict_start_verse,
      citation_dict_end_verse.
    destruct (book r) as [b|]; cbn [stored_str_value truthy_opt negb bind];
      [|reflexivity].
    destruct (Str.truthy b); cbn [negb bind]; [|reflexivity].
    destruct (chapter r) as [c|]; cbn [stored_int_value truthy_opt negb bind];
      [|reflexivity].
    destruct (int_truthy c); cbn [negb bind]; [|reflexivity].
    destruct (start_verse r) as [sv|]; cbn [stored_int_value truthy_opt negb bind];
      [|reflexivity].
    destruct (int_truthy sv); cbn [negb bind]; [|reflexivity].
    destruct (end_verse r) as [ev|]; cbn [stored_int_value truthy_opt negb bind];
      [|reflexivity].
    destruct (int_truthy ev); cbn [negb bind as_str as_int]; [|reflexivity].
    destruct (extractBiblicalPassage b c sv ev "ESV"); reflexivity.
  - destruct (String.eqb (type r) "literature"); [|reflexivity].
    rewrite citation_dict_work.
    destruct (work r) as [w|]; cbn [stored_str_value truthy_opt negb bind];
      [|reflexivity].
    destruct (Str.truthy w); reflexivity.
Qed.

Lemma mapM_candidates (refs : list CitationResult) :
  mapM (candidates_of literary_works readlines ratio) (map citation_dict refs) =
  match first_missing refs with
  | Some k => Raise (KeyError k)
  | None => Ok (map (candidates_for literary_works readlines ratio) refs)
  end.
Proof.
  induction refs as [|r refs IH]; [reflexivity|].
  cbn [map mapM first_missing]. rewrite candidates_of_dict.
  destruct (missing_key r) as [k|]; [reflexivity|]. cbn [bind]. rewrite IH.
  destruct (first_missing refs); reflexivity.
Qed.

(** *** The candidates can be scored *)

Lemma set_confidence_scorable (c : PassageCandidate) (q : Q) :
  scorable c -> scorable (set_confidence c q).
Proof. intros H. exact H. Qed.

Lemma findLiteraryMatches_scorable (work_title : string) (d : gmap string pyval) :
  index_typed literary_works ->
  Forall scorable (_findLiteraryMatches literary_works readlines ratio work_title d).
Proof.
  intros Hix. apply List.Forall_forall. intros c Hc.
  unfold _findLiteraryMatches in Hc. apply List.in_flat_map in Hc as (m & _ & Hc).
  cbv zeta in Hc.
  destruct (extractLiteraryPassage_dyn _ _ _ _ _) as [prior|] eqn:Hprior; [|destruct Hc].
  destruct Hc as [<-|[]]. apply set_confidence_scorable.
  unfold extractLiteraryPassage_dyn in Hprior.
  destruct (get_default d "start_line" (VInt 1)) as [|a]; [discriminate|].
  destruct (get_default d "end_line" (VInt a)) as [|b]; [discriminate|].
  now apply (extractLiteraryPassage_scorable _ _ _ _ _ _ Hix Hprior).
Qed.

Lemma candidates_for_scorable (r : CitationResult) :
  index_typed literary_works ->
  Forall scorable (candidates_for literary_works readlines ratio r).
Proof.
  intros Hix. unfold candidates_for.
  destruct (String.eqb (type r) "bible").
  - destruct (book r) as [b|], (chapter r) as [c|], (start_verse r) as [sv|],
      (end_verse r) as [ev|]; try constructor.
    destruct (extractBiblicalPassage b c sv ev "ESV") as [x|] eqn:Hx; constructor;
      [|constructor].
    now apply extractBiblicalPassage_scorable in Hx.
  - destruct (String.eqb (type r) "literature"); [|constructor].
    destruct (work r); [|constructor]. now apply findLiteraryMatches_scorable.
Qed.

(** *** The whole extraction *)

(** What [generatePassageCandidates] does after parsing. *)
Lemma generatePassageCandidates_refs (citation : string) (max_candidates : Z)
    (t : string) (refs : list CitationResult) :
  parse_references (Str.strip citation) = Ok (t, refs) ->
  generatePassageCandidates literary_works readlines ratio citation max_candidates =
  match first_missing refs with
  | Some k => Raise (KeyError k)
  | None =>
      let* ranked :=
        rankCandidates
          (concat (map (candidates_for literary_works readlines ratio) refs)) in
      Ok (py_slice ranked 0 max_candidates)
  end.
Proof.
  intros Hrefs. unfold generatePassageCandidates, parseCitation. rewrite Hrefs.
  cbn [bind fst snd citations]. rewrite mapM_candidates.
  destruct (first_missing refs); reflexivity.
Qed.

Lemma rank_candidates_for (refs : list CitationResult) :
  index_typed literary_works ->
  exists ranked,
    rankCandidates (concat (map (candidates_for literary_works readlines ratio) refs))
    = Ok ranked.
Proof.
  intros Hix.
  destruct (rankCandidates_spec
              (concat (map (candidates_for literary_works readlines ratio) refs)))
    as (rescored & _ & E).
  { apply Forall_concat. apply List.Forall_forall. intros l Hl.
    apply in_map_iff in Hl as (r & <- & _). now apply candidates_for_scorable. }
  eauto.
Qed.

End Corpus.

(** *** The keys that can be missing *)

Lemma emitted_missing_key (r : CitationResult) :
  emitted r ->
  missing_key r = None \/
  (type r = "bible" /\
   ((chapter r = Some 0 /\ missing_key r = Some "chapter") \/
    (start_verse r = Some 0 /\ missing_key r = Some "start_verse") \/
    (end_verse r = Some 0 /\ missing_key r = Some "end_verse"))).
Proof.
  intros [b c s e Hb Hc Hs He|w sl el a sc bn Hw Hsl Hel].
  - destruct Hb as (raw & Hraw). apply normalizeBookNames_truthy in Hraw.
    unfold missing_key, bible_ref. cbn [type book chapter start_verse end_verse].
    cbn [String.eqb Ascii.eqb Bool.eqb truthy_opt]. rewrite Hraw. cbn [negb].
    unfold int_truthy.
    destruct (c =? 0) eqn:Ec; cbn [negb].
    { apply Z.eqb_eq in Ec. subst. right. auto. }
    destruct (s =? 0) eqn:Es; cbn [negb].
    { apply Z.eqb_eq in Es. subst. right. auto. }
    destruct (e =? 0) eqn:Ee; cbn [negb].
    { apply Z.eqb_eq in Ee. subst. right. auto 6. }
    now left.
  - left. unfold missing_key, literary_ref. cbn [type work].
    cbn [String.eqb Ascii.eqb Bool.eqb truthy_opt]. now rewrite Hw.
Qed.

Lemma first_missing_emitted (refs : list CitationResult) :
  Forall emitted refs ->
  match first_missing refs with
  | Some k =>
      In k ["chapter"; "start_verse"; "end_verse"] /\
      exists r, In r refs /\ type r = "bible" /\ missing_key r = Some k
  | None => forall r, In r refs -> missing_key r = None
  end.
Proof.
  induction 1 as [|r refs Hr _ IH]; cbn [first_missing]; [intros r []|].
  destruct (emitted_missing_key r Hr) as [E|(Hb & [[_ E]|[[_ E]|[_ E]]])]; rewrite E.
  - destruct (first_missing refs) as [k|].
    + destruct IH as (Hk & r' & Hin & Hb & E'). split; [exact Hk|].
      exists r'. repeat split; auto. now right.
    + intros r' [<-|Hin]; auto.
  - split; [simpl; auto|]. exists r. repeat split; auto. now left.
  - split; [simpl; auto|]. exists r. repeat split; auto. now left.
  - split; [simpl; auto|]. exists r. repeat split; auto. now left.
Qed.

End PipelineFacts.


(* ================================================================= *)
(** ** Rounding and order of the result *)

Module OutputFacts.

Import ScorerSpec ScorerFacts ListSpec ListFacts EngineSpec EngineFacts.

Lemma round_half_even_mono (x y : Q) :
  (x <= y)%Q -> round_half_even x <= round_half_even y.
Proof.
  intros Hxy. pose proof (Qfloor_resp_le x y Hxy) as Hfloor.
  unfold round_half_even.
  destruct (Z.eq_dec (Qfloor x) (Qfloor y)) as [E|NE].
  - rewrite <- E.
    destruct (Qcompare_spec (x - inject_Z (Qfloor x)) (1 # 2)) as [Hx|Hx|Hx];
      destruct (Qcompare_spec (y - inject_Z (Qfloor x)) (1 # 2)) as [Hy|Hy|Hy];
      try destruct (Z.even (Qfloor x)); try lia; exfalso; lra.
  - destruct (x - inject_Z (Qfloor x) ?= 1 # 2)%Q, (y - inject_Z (Qfloor y) ?= 1 # 2)%Q;
      try destruct (Z.even (Qfloor x)); try destruct (Z.even (Qfloor y)); lia.
Qed.

Lemma py_round3_mono (x y : Q) : (x <= y)%Q -> (py_round3 x <= py_round3 y)%Q.
Proof.
  intros Hxy. unfold py_round3.
  assert (H : round_half_even (x * 1000) <= round_half_even (y * 1000))
    by (apply round_half_even_mono; lra).
  rewrite Zle_Qle in H. ScoreBounds.qlra.
Qed.

Lemma py_round3_unit (x : Q) : (0 <= x <= 1)%Q -> (0 <= py_round3 x <= 1)%Q.
Proof.
  intros [H0 H1]. split.
  - apply Qle_trans with (py_round3 0); [vm_compute; discriminate|].
    now apply py_round3_mono.
  - apply Qle_trans with (py_round3 1); [now apply py_round3_mono|].
    vm_compute; discriminate.
Qed.

Lemma In_firstn {A : Type} (x : A) (n : nat) (l : list A) :
  In x (firstn n l) -> In x l.
Proof.
  revert n. induction l as [|a l IH]; intros [|n]; cbn [firstn]; try (intros []).
  - now left.
  - right. eauto.
Qed.

Lemma descending_firstn {A : Type} (key : A -> Q) (n : nat) (l : list A) :
  descending key l -> descending key (firstn n l).
Proof.
  unfold descending. intros H. revert n.
  induction H as [|a l Hl IH Ha]; intros [|n]; cbn [firstn]; try constructor.
  - apply IH.
  - apply List.Forall_forall. intros b Hb. apply In_firstn in Hb.
    revert b Hb. now apply List.Forall_forall.
Qed.

Lemma descending_map {A B : Type} (f : A -> B) (key : A -> Q) (key' : B -> Q)
    (l : list A) :
  (forall a b, (key b <= key a)%Q -> (key' (f b) <= key' (f a))%Q) ->
  descending key l -> descending key' (map f l).
Proof.
  unfold descending. intros Hmono H.
  induction H as [|a l Hl IH Ha]; cbn [map]; constructor; [exact IH|].
  apply List.Forall_forall. intros b Hb. apply in_map_iff in Hb as (b0 & <- & Hb0).
  apply Hmono. revert b0 Hb0. now apply List.Forall_forall.
Qed.

(** The head of a descending list is a maximum. *)
Lemma descending_head {A : Type} (key : A -> Q) (l : list A) (best : A) :
  descending key l -> head l = Some best ->
  forall a, In a l -> (key a <= key best)%Q.
Proof.
  unfold descending. intros H Hhead a Ha.
  destruct H as [|b l Hl Hb]; [discriminate|]. injection Hhead as <-.
  destruct Ha as [<-|Ha]; [apply Qle_refl|].
  revert a Ha. now apply List.Forall_forall.
Qed.

(** A confidence that the scorer assigned lies in [0, 1]. *)
Lemma rescored_unit (c c' : PassageCandidate) :
  rescored_from c c' -> (0 <= confidence c' <= 1)%Q.
Proof.
  intros (q & Hq & ->). cbn [set_confidence confidence].
  destruct (ScoreBounds.calculateConfidenceScore_inv _ _ _ Hq) as (cm & _ & Heq).
  rewrite Heq. apply clamp01_bounds.
Qed.

Lemma ranked_unit (cands ranked : list PassageCandidate) :
  rankCandidates cands = Ok ranked ->
  descending confidence ranked /\
  Forall (fun c => (0 <= confidence c <= 1)%Q) ranked.
Proof.
  intros H. apply rankCandidates_inv in H as (rescored & Hm & ->).
  split; [apply sort_desc_sorted|].
  apply mapM_rescore_inv in Hm.
  apply List.Forall_forall. intros c Hc.
  apply (Permutation_in _ (Permutation_sym (sort_desc_perm confidence rescored))) in Hc.
  clear -Hm Hc. induction Hm as [|a b l l' Hab _ IH]; [destruct Hc|].
  destruct Hc as [<-|Hc]; [now apply (rescored_unit a)|auto].
Qed.

(** The list [generatePassageCandidates] returns with a limit that is not
    negative. *)
Lemma found_ordered (lw : list (string * WorkInfo)) (rl : string -> option (list string))
    (ratio : string -> string -> Q) (citation : string) (max_candidates : Z)
    (found : list PassageCandidate) :
  0 <= max_candidates ->
  generatePassageCandidates lw rl ratio citation max_candidates = Ok found ->
  descending confidence found /\
  Forall (fun c => (0 <= confidence c <= 1)%Q) found /\
  Z.of_nat (length found) <= max_candidates.
Proof.
  intros Hmax H.
  pose proof H as H'. apply generatePassageCandidates_inv in H' as (cands & ranked & Hr & ->).
  destruct (ranked_unit _ _ Hr) as [Hdesc Hunit].
  rewrite py_slice_prefix by exact Hmax.
  repeat split.
  - now apply descending_firstn.
  - apply List.Forall_forall. intros c Hc. apply In_firstn in Hc.
    revert c Hc. now apply List.Forall_forall.
  - rewrite <- (py_slice_prefix ranked max_candidates Hmax).
    now apply py_slice_prefix_length.
Qed.

End OutputFacts.

(** X6: What extractPassageFromCitation returns: the citation as given, at
    most five candidates in descending order of their rounded confidence,
    every confidence in [0, 1], and as best match the first candidate, whose
    confidence no other candidate exceeds; there is no best match exactly
    when there is no candidate. *)
Theorem extraction_result_ordered
    (literary_works : list (string * WorkInfo))
    (readlines : string -> option (list string))
    (ratio : string -> string -> Q) (citation : string) (result : ExtractionResult) :
  extractPassageFromCitation literary_works readlines ratio citation = Ok result ->
  original_citation result = citation /\
  (length (candidates result) <= 5)%nat /\
  ListSpec.descending cd_confidence (candidates result) /\
  Forall (fun c => (0 <= cd_confidence c <= 1)%Q) (candidates result) /\
  best_match result = head (candidates result) /\
  (best_match result = None <-> candidates result = []) /\
  (forall best c,
     best_match result = Some best -> In c (candidates result) ->
     (cd_confidence c <= cd_confidence best)%Q).
Proof.
  unfold extractPassageFromCitation.
  destruct (generatePassageCandidates _ _ _ _ _) as [found|e] eqn:Hfound; [|discriminate].
  cbn [bind]. intros [= <-]. cbn [original_citation candidates best_match].
  assert (Hmax : 0 <= default_max_candidates) by (unfold default_max_candidates; lia).
  destruct (OutputFacts.found_ordered _ _ _ _ _ _ Hmax Hfound) as (Hdesc & Hunit & Hlen).
  set (to_dict := fun candidate : PassageCandidate => mkCandidateDict _ _ _ _).
  assert (Hsorted : ListSpec.descending cd_confidence (map to_dict found)).
  { apply (OutputFacts.descending_map to_dict confidence cd_confidence); [|exact Hdesc].
    intros a b Hab. unfold to_dict. cbn [cd_confidence].
    now apply OutputFacts.py_round3_mono. }
  repeat split.
  - rewrite length_map. unfold default_max_candidates in Hlen. lia.
  - exact Hsorted.
  - apply List.Forall_forall. intros c Hc. apply in_map_iff in Hc as (c0 & <- & Hc0).
    unfold to_dict. cbn [cd_confidence]. apply OutputFacts.py_round3_unit.
    revert c0 Hc0. now apply List.Forall_forall.
  - now destruct (map to_dict found).
  - now intros ->.
  - intros best c Hbest Hc.
    now apply (OutputFacts.descending_head cd_confidence (map to_dict found) best).
Qed.

Lemma extraction_result_ordered_witness :
  exists result,
    extractPassageFromCitation demo_works demo_readlines demo_ratio demo_citation
    = Ok result /\
    original_citation result = demo_citation /\
    (length (candidates result) <= 5)%nat /\
    ListSpec.descending cd_confidence (candidates result) /\
    Forall (fun c => (0 <= cd_confidence c <= 1)%Q) (candidates result) /\
    best_match result = head (candidates result) /\
    (best_match result = None <-> candidates result = []) /\
    (forall best c,
       best_match result = Some best -> In c (candidates result) ->
       (cd_confidence c <= cd_confidence best)%Q).
Proof.
  eexists. split; [vm_compute; reflexivity|].
  apply (extraction_result_ordered demo_works demo_readlines demo_ratio demo_citation).
  vm_compute. reflexivity.
Defined.

(* ================================================================= *)
(** ** Biblical passages *)

Module BiblicalFacts.

Import ScorerSpec ScorerFacts EngineFacts.

Lemma fallback_truthy (book : string) (rest : string) :
  Str.truthy (book ++ " " ++ rest) = true.
Proof. apply truthy_app_r. reflexivity. Qed.

(** The generated text is empty exactly for a reversed range in a chapter
    of the sample table. *)
Lemma generateSampleBiblicalText_empty
    (book : string) (chapter start_verse end_verse : Z) (translation : string) :
  Str.truthy (_generateSampleBiblicalText book chapter start_verse end_verse translation)
  = false
  <-> end_verse < start_verse /\ sample_passages !! (book, chapter) <> None.
Proof.
  destruct (Z.le_gt_cases start_verse end_verse) as [Hle|Hgt].
  - rewrite (generateSampleBiblicalText_truthy _ _ _ _ _ Hle).
    split; [discriminate|]. intros [H _]. lia.
  - unfold _generateSampleBiblicalText.
    destruct (sample_passages !! (book, chapter)) as [verses|].
    + unfold py_range. rewrite seqZ_nil by lia. cbn [map Str.join Str.truthy].
      split; [intros _; split; [lia|discriminate]|reflexivity].
    + rewrite fallback_truthy. split; [discriminate|]. intros [_ H]. now contradiction H.
Qed.

Lemma isValidBiblicalReference_spec (book : string) (chapter start_verse end_verse : Z) :
  _isValidBiblicalReference book chapter start_verse end_verse = true <->
  0 < chapter /\ 0 < start_verse /\ start_verse <= end_verse
  /\ normalizeBookNames book <> None.
Proof.
  unfold _isValidBiblicalReference.
  destruct (chapter <=? 0) eqn:Hc; cbn [orb].
  { apply Z.leb_le in Hc. split; [discriminate|]. intros (H & _). lia. }
  destruct (start_verse <=? 0) eqn:Hs; cbn [orb].
  { apply Z.leb_le in Hs. split; [discriminate|]. intros (_ & H & _). lia. }
  destruct (end_verse <? start_verse) eqn:He.
  { apply Z.ltb_lt in He. split; [discriminate|]. intros (_ & _ & H & _). lia. }
  apply Z.leb_gt in Hc. apply Z.leb_gt in Hs. apply Z.ltb_ge in He.
  destruct (normalizeBookNames book).
  - split; [|reflexivity]. intros _. repeat split; auto; discriminate.
  - split; [discriminate|]. intros (_ & _ & _ & H). now contradiction H.
Qed.

End BiblicalFacts.

(** X7: extractBiblicalPassage returns None exactly for a reversed verse
    range inside a chapter of the sample table.  Otherwise it returns a
    candidate whose confidence is 0.95 when the chapter and the start verse
    are positive, the range is not reversed and the book normalizes, and 0.3
    in every other case: an unknown book or a reversed range outside the
    sample table still gives a candidate.  The candidate carries no title
    and no author, so its citation-match sub-score against the empty
    citation is 1. *)
Theorem extractBiblicalPassage_outcome
    (book : string) (chapter start_verse end_verse : Z) (translation : string) :
  (extractBiblicalPassage book chapter start_verse end_verse translation = None <->
   end_verse < start_verse /\ sample_passages !! (book, chapter) <> None) /\
  (forall candidate,
     extractBiblicalPassage book chapter start_verse end_verse translation
     = Some candidate ->
     (0 < chapter /\ 0 < start_verse /\ start_verse <= end_verse
      /\ normalizeBookNames book <> None ->
      confidence candidate = 0.95%Q) /\
     (~ (0 < chapter /\ 0 < start_verse /\ start_verse <= end_verse
         /\ normalizeBookNames book <> None) ->
      confidence candidate = 0.3%Q) /\
     metadata candidate !! "book" = Some (VStr book) /\
     metadata candidate !! "chapter" = Some (VInt chapter) /\
     metadata candidate !! "verses" = Some (VStr (verse_range start_verse end_verse)) /\
     start_position candidate = None /\ end_position candidate = None /\
     Str.startswith "bible:" (source candidate) = true /\
     exists cm, _getCitationMatchScore candidate "" = Ok cm /\ (cm == 1)%Q).
Proof.
  pose proof (BiblicalFacts.generateSampleBiblicalText_empty book chapter start_verse
                end_verse) as Hempty.
  pose proof (BiblicalFacts.isValidBiblicalReference_spec book chapter start_verse
                end_verse) as Hvalid.
  unfold extractBiblicalPassage.
  set (tr := match biblical_translations !! translation with
             | Some _ => translation | None => "ESV" end).
  specialize (Hempty tr).
  destruct (Str.truthy (_generateSampleBiblicalText book chapter start_verse end_verse tr))
    eqn:Htext; cbn [negb].
  - split.
    + split; [discriminate|]. intros H. apply Hempty in H. discriminate.
    + intros candidate [= <-]. cbn [confidence metadata start_position end_position source].
      destruct (_isValidBiblicalReference book chapter start_verse end_verse) eqn:Hv.
      * repeat split; try reflexivity.
        -- intros H. exfalso. apply H. now apply Hvalid.
        -- eexists. split; [reflexivity|]. reflexivity.
      * repeat split; try reflexivity.
        -- intros H. apply Hvalid in H. discriminate.
        -- eexists. split; [reflexivity|]. reflexivity.
  - split.
    + split; [intros _; now apply Hempty|reflexivity].
    + intros candidate [=].
Qed.

(* ================================================================= *)
(** ** Literary passages *)

Module LiteraryPassageFacts.

Import ScorerSpec ScorerFacts EngineFacts.

(** [lines[a-1:b]] for a start line of at least 1 and an end line of at
    most the number of lines; a negative end line counts from the end. *)
Lemma line_slice {A : Type} (lines : list A) (a b : Z) :
  1 <= a -> b <= Z.of_nat (length lines) ->
  py_slice lines (a - 1) b =
  firstn (Z.to_nat ((if b <? 0 then Z.of_nat (length lines) + b else b) - (a - 1)))
         (skipn (Z.to_nat (a - 1)) lines).
Proof.
  intros Ha Hb. unfold py_slice, slice_bound.
  set (n := Z.of_nat (length lines)) in *.
  assert (Hlo : (a - 1 <? 0) = false) by (apply Z.ltb_ge; lia). rewrite Hlo.
  destruct (Z.le_gt_cases (a - 1) n) as [Hin|Hout].
  - rewrite (Z.min_l (a - 1)) by lia.
    destruct (b <? 0) eqn:Hneg.
    + apply Z.ltb_lt in Hneg. f_equal. lia.
    + apply Z.ltb_ge in Hneg. rewrite (Z.min_l b) by lia. reflexivity.
  - rewrite (Z.min_r (a - 1)) by lia.
    rewrite !skipn_all2 by (unfold n in *; lia).
    now rewrite !firstn_nil.
Qed.

Lemma cleanPassageText_nil : _cleanPassageText [] = "".
Proof. reflexivity. Qed.

End LiteraryPassageFacts.

(** X8: extractLiteraryPassage, when it returns a candidate: the work is
    indexed, its file was read, and the lines asked for lie in 1 .. length.
    The passage is cut from line [start_line] to line [end_line], both
    included; an end line before the start line is not refused, it gives the
    empty text with confidence 0, and a negative end line counts from the
    end of the file.  The confidence is the text quality, hence in [0, 1],
    and the "lines" entry of the metadata reads back as the two numbers. *)
Theorem extractLiteraryPassage_outcome
    (literary_works : list (string * WorkInfo))
    (readlines : string -> option (list string))
    (work_id : string) (start_line end_line : Z) (candidate : PassageCandidate) :
  extractLiteraryPassage literary_works readlines work_id start_line end_line
  = Some candidate ->
  exists work_info lines,
    lookup_work literary_works work_id = Some work_info /\
    readlines (file_path work_info) = Some lines /\
    1 <= start_line /\ end_line <= Z.of_nat (length lines) /\
    source candidate = "gutenberg:" ++ work_id /\
    start_position candidate = Some start_line /\
    end_position candidate = Some end_line /\
    metadata candidate !! "total_lines" = Some (VInt (Z.of_nat (length lines))) /\
    text candidate
    = _cleanPassageText
        (firstn (Z.to_nat ((if end_line <? 0
                            then Z.of_nat (length lines) + end_line else end_line)
                           - (start_line - 1)))
                (skipn (Z.to_nat (start_line - 1)) lines)) /\
    confidence candidate = _calculateTextQuality (text candidate) /\
    (0 <= confidence candidate <= 1)%Q /\
    (0 <= end_line < start_line ->
     text candidate = "" /\ (confidence candidate == 0)%Q) /\
    (0 <= end_line ->
     exists printed,
       metadata candidate !! "lines" = Some (VStr printed) /\
       parseReferenceRange printed = Ok (Some start_line, Some end_line)).
Proof.
  unfold extractLiteraryPassage.
  destruct (lookup_work literary_works work_id) as [info|] eqn:Hinfo; [|discriminate].
  destruct (readlines (file_path info)) as [lines|] eqn:Hlines; [|discriminate].
  destruct (start_line <=? 0) eqn:Ha; [discriminate|]. cbn [orb].
  destruct (end_line >? Z.of_nat (length lines)) eqn:Hb; [discriminate|].
  apply Z.leb_gt in Ha. rewrite Z.gtb_ltb in Hb. apply Z.ltb_ge in Hb.
  intros [= <-]. exists info, lines.
  cbn [source start_position end_position text confidence metadata].
  rewrite (LiteraryPassageFacts.line_slice lines start_line end_line) by lia.
  split; [reflexivity|]. split; [exact Hlines|]. split; [lia|]. split; [exact Hb|].
  split; [reflexivity|]. split; [reflexivity|]. split; [reflexivity|].
  split; [reflexivity|]. split; [reflexivity|]. split; [reflexivity|].
  split; [apply ScoreBounds.calculateTextQuality_bounds|].
  split.
  - intros [H0 H1]. assert (E : (end_line <? 0) = false) by (apply Z.ltb_ge; lia).
    rewrite E. replace (Z.to_nat (end_line - (start_line - 1))) with 0%nat by lia.
    split; reflexivity.
  - intros Hend. eexists. split; [reflexivity|].
    apply RangeFacts.range_of_pair;
      auto using IntFacts.of_int_number, IntFacts.parse_of_int with lia.
Qed.

Lemma extractLiteraryPassage_outcome_witness :
  exists candidate,
    extractLiteraryPassage demo_works demo_readlines "absalom" 2 3 = Some candidate /\
    exists work_info lines,
      lookup_work demo_works "absalom" = Some work_info /\
      demo_readlines (file_path work_info) = Some lines /\
      1 <= 2 /\ 3 <= Z.of_nat (length lines) /\
      source candidate = "gutenberg:" ++ "absalom" /\
      start_position candidate = Some 2 /\
      end_position candidate = Some 3 /\
      metadata candidate !! "total_lines" = Some (VInt (Z.of_nat (length lines))) /\
      text candidate
      = _cleanPassageText
          (firstn (Z.to_nat ((if 3 <? 0 then Z.of_nat (length lines) + 3 else 3) - (2 - 1)))
                  (skipn (Z.to_nat (2 - 1)) lines)) /\
      confidence candidate = _calculateTextQuality (text candidate) /\
      (0 <= confidence candidate <= 1)%Q /\
      (0 <= 3 < 2 -> text candidate = "" /\ (confidence candidate == 0)%Q) /\
      (0 <= 3 ->
       exists printed,
         metadata candidate !! "lines" = Some (VStr printed) /\
         parseReferenceRange printed = Ok (Some 2, Some 3)).
Proof.
  eexists. split; [vm_compute; reflexivity|].
  apply (extractLiteraryPassage_outcome demo_works demo_readlines "absalom" 2 3).
  vm_compute. reflexivity.
Defined.

(* ================================================================= *)
(** ** The citation-match score against the empty citation *)

Module CitationMatchFacts.

Import ScorerSpec ScorerFacts.

Lemma contains_in_empty (sub : string) : Str.contains sub "" = negb (Str.truthy sub).
Proof. destruct sub; reflexivity. Qed.

Lemma truthy_lower (s : string) : Str.truthy (Str.lower s) = Str.truthy s.
Proof. destruct s; reflexivity. Qed.

(** The lower-cased field is empty exactly when the field is missing or
    empty. *)
Lemma lower_field (d : gmap string pyval) (key : string) :
  text_field d key ->
  exists s, lower_method (get_default d key (VStr "")) = Ok s /\
            Str.truthy s = get_truthy d key.
Proof.
  intros H. unfold get_default, get_truthy. destruct (d !! key) as [v|] eqn:Hv.
  - destruct (H v Hv) as (s & ->). exists (Str.lower s). split; [reflexivity|].
    apply truthy_lower.
  - exists "". split; reflexivity.
Qed.

End CitationMatchFacts.

(** X9: rankCandidates scores every candidate against the empty citation.
    There the citation-match sub-score does not measure a match: a title or
    an author is found in the empty citation exactly when it is missing or
    empty, so the sub-score is 0.5, plus 0.3 without a title, plus 0.2
    without an author. *)
Theorem citation_match_against_empty (candidate : PassageCandidate) :
  ScorerSpec.scorable candidate ->
  exists cm,
    _getCitationMatchScore candidate "" = Ok cm /\
    (cm == 0.5
           + (if get_truthy (metadata candidate) "title" then 0 else 0.3)
           + (if get_truthy (metadata candidate) "author" then 0 else 0.2))%Q.
Proof.
  intros [Ht Ha]. unfold _getCitationMatchScore.
  destruct (CitationMatchFacts.lower_field _ _ Ht) as (t & -> & Et).
  destruct (CitationMatchFacts.lower_field _ _ Ha) as (a & -> & Ea).
  cbn [bind Str.lower Str.map]. rewrite !CitationMatchFacts.contains_in_empty, Et, Ea.
  eexists. split; [reflexivity|].
  destruct (get_truthy (metadata candidate) "title"),
    (get_truthy (metadata candidate) "author"); cbn [negb];
    match goal with |- (Qmin 1 ?x == _)%Q =>
      destruct (Q.min_spec 1 x) as [[? ->]|[? ->]] end; lra.
Qed.

Lemma citation_match_against_empty_witness :
  ScorerSpec.scorable dryden_candidate /\
  exists cm,
    _getCitationMatchScore dryden_candidate "" = Ok cm /\
    (cm == 0.5
           + (if get_truthy (metadata dryden_candidate) "title" then 0 else 0.3)
           + (if get_truthy (metadata dryden_candidate) "author" then 0 else 0.2))%Q.
Proof.
  split; [exact dryden_candidate_scorable|].
  apply (citation_match_against_empty dryden_candidate). exact dryden_candidate_scorable.
Defined.

(* ================================================================= *)
(** ** Surrounding whitespace and letter case *)

(** X10: The normalizer ignores surrounding whitespace and letter case, and
    parseCitation, generatePassageCandidates and parseReferenceRange ignore
    surrounding whitespace: each gives the same result on a text and on the
    trimmed text. *)
Theorem surrounding_whitespace_is_ignored (s : string) :
  normalizeBookNames (Str.strip s) = normalizeBookNames s /\
  normalizeBookNames (Str.lower s) = normalizeBookNames s /\
  parseCitation (Str.strip s) = parseCitation s /\
  parseReferenceRange (Str.strip s) = parseReferenceRange s /\
  (forall literary_works readlines ratio max_candidates,
     generatePassageCandidates literary_works readlines ratio (Str.strip s) max_candidates
     = generatePassageCandidates literary_works readlines ratio s max_candidates).
Proof.
  assert (Hparse : parseCitation (Str.strip s) = parseCitation s).
  { unfold parseCitation. now rewrite StripFacts.strip_idempotent. }
  repeat split.
  - unfold normalizeBookNames. now rewrite StripFacts.strip_idempotent.
  - unfold normalizeBookNames.
    now rewrite StripFacts.strip_lower, StripFacts.lower_idempotent.
  - exact Hparse.
  - unfold parseReferenceRange. now rewrite StripFacts.strip_idempotent.
  - intros. unfold generatePassageCandidates. now rewrite Hparse.
Qed.

(* ================================================================= *)
(** ** Chains of biblical references *)

Module ChainFacts.

Import ParserFacts ChainSpec.

#[local] Arguments re_match : simpl never.
#[local] Arguments Str.strip : simpl never.
#[local] Arguments parse_single_biblical : simpl never.

Lemma split_nonempty (sep : ascii) (s : string) : Str.split sep s <> [].
Proof.
  destruct s as [|c s]; simpl; [discriminate|].
  destruct (c =? sep)%char; [discriminate|]. now destruct (Str.split sep s).
Qed.

Lemma split_app (sep : ascii) (a b : string) :
  Str.split sep (a ++ String sep b) = (Str.split sep a ++ Str.split sep b)%list.
Proof.
  induction a as [|c a IH]; simpl.
  - now rewrite Ascii.eqb_refl.
  - rewrite IH. destruct (c =? sep)%char; [reflexivity|].
    pose proof (split_nonempty sep a) as Hne.
    destruct (Str.split sep a); [now contradiction Hne|reflexivity].
Qed.

Lemma split_single (sep : ascii) (s : string) :
  Str.has_char sep s = false -> Str.split sep s = [s].
Proof.
  induction s as [|c s IH]; simpl; [reflexivity|].
  destruct (c =? sep)%char; [discriminate|]. cbn [orb]. intros H. now rewrite (IH H).
Qed.

Lemma mapM_app {A B : Type} (f : A -> result B) (l1 l2 : list A) :
  mapM f (l1 ++ l2) =
  let* x := mapM f l1 in let* y := mapM f l2 in Ok (x ++ y)%list.
Proof.
  induction l1 as [|a l1 IH]; cbn [mapM app bind].
  - destruct (mapM f l2); reflexivity.
  - destruct (f a) as [b|e]; [|reflexivity]. cbn [bind]. rewrite IH.
    destruct (mapM f l1) as [x|e]; [|reflexivity]. cbn [bind].
    destruct (mapM f l2) as [y|e]; reflexivity.
Qed.

Lemma mapM_map {A B C : Type} (f : B -> result C) (g : A -> B) (l : list A) :
  mapM f (map g l) = mapM (fun a => f (g a)) l.
Proof.
  induction l as [|a l IH]; cbn [map mapM]; [reflexivity|]. now rewrite IH.
Qed.

Lemma parse_single_biblical_strip (citation : string) :
  parse_single_biblical (Str.strip citation) = parse_single_biblical citation.
Proof. unfold parse_single_biblical. now rewrite StripFacts.strip_idempotent. Qed.

Lemma parseBiblicalCitation_piecewise (citation : string) :
  _parseBiblicalCitation citation = piecewise citation.
Proof.
  unfold _parseBiblicalCitation, piecewise. cbn [parseBiblical_rec].
  destruct (Str.has_char ";" citation) eqn:Hsemi.
  - rewrite mapM_map. f_equal. apply mapM_ext_in. intros p Hp.
    apply split_no_sep in Hp. apply (has_char_strip ";") in Hp.
    rewrite Hp. apply parse_single_biblical_strip.
  - rewrite (split_single _ _ Hsemi). cbn [mapM].
    destruct (parse_single_biblical citation) as [rs|e]; [|reflexivity].
    cbn [bind concat]. now rewrite app_nil_r.
Qed.

Lemma piecewise_app (a b : string) :
  piecewise (a ++ ";" ++ b) =
  let* ra := piecewise a in let* rb := piecewise b in Ok (ra ++ rb)%list.
Proof.
  unfold piecewise. cbn [String.append]. rewrite split_app, mapM_app.
  destruct (mapM parse_single_biblical (Str.split ";" a)) as [x|e]; [|reflexivity].
  cbn [bind].
  destruct (mapM parse_single_biblical (Str.split ";" b)) as [y|e]; [|reflexivity].
  cbn [bind]. now rewrite concat_app.
Qed.

End ChainFacts.


(* ================================================================= *)
(** ** What becomes of a reversed range and of a zero line number *)

Module DefaultFacts.

Import ParserSpec ParserFacts PipelineFacts ReferenceSpec.

Lemma resolves_fixed (b : string) : resolves b -> normalizeBookNames b = Some b.
Proof.
  intros (raw & Hraw). apply normalizeBookNames_in_table in Hraw as (key & Hkey).
  now apply (canonical_fixed key).
Qed.

Lemma int_truthy_positive (n : Z) : 0 < n -> int_truthy n = true.
Proof. intros H. unfold int_truthy. destruct (n =? 0) eqn:E; [lia|reflexivity]. Qed.

(** The line numbers [_findLiteraryMatches] reads from the dictionary of a
    literary reference. *)
Lemma literary_lines (w : string) (sl el : Z) (a sc bn : option string) :
  let d := citation_dict (literary_ref w sl el a sc bn) in
  let first := if sl =? 0 then 1 else sl in
  get_default d "start_line" (VInt 1) = VInt first /\
  get_default d "end_line" (VInt first) = VInt (if el =? 0 then first else el).
Proof.
  cbv zeta. unfold get_default.
  rewrite citation_dict_start_line, citation_dict_end_line.
  cbn [literary_ref start_line end_line stored_int_value]. unfold int_truthy.
  destruct (sl =? 0), (el =? 0); cbn [negb]; split; reflexivity.
Qed.

End DefaultFacts.

(** X12: A Bible reference with positive numbers is never lost on the way to
    the candidates, except for a reversed range in a chapter of the sample
    table: with start <= end it yields one candidate of confidence 0.95 from
    the ESV; with end < start it yields one candidate of confidence 0.3
    whose text is the printed reference when the chapter is not in the
    sample table, and no candidate when it is. *)
Theorem bible_reference_candidates
    (literary_works : list (string * WorkInfo))
    (readlines : string -> option (list string))
    (ratio : string -> string -> Q)
    (b : string) (c s e : Z) :
  ParserSpec.resolves b -> 0 < c -> 0 < s -> 0 < e ->
  let d := citation_dict (ReferenceSpec.bible_ref b c s e) in
  (s <= e ->
   exists candidate,
     candidates_of literary_works readlines ratio d = Ok [candidate] /\
     confidence candidate = 0.95%Q /\ source candidate = "bible:esv" /\
     Str.truthy (text candidate) = true) /\
  (e < s -> sample_passages !! (b, c) = None ->
   exists candidate,
     candidates_of literary_works readlines ratio d = Ok [candidate] /\
     confidence candidate = 0.3%Q /\
     text candidate
     = b ++ " " ++ Str.of_int c ++ ":" ++ Str.of_int s ++ "-" ++ Str.of_int e) /\
  (e < s -> sample_passages !! (b, c) <> None ->
   candidates_of literary_works readlines ratio d = Ok []).
Proof.
  intros Hb Hc Hs He d.
  assert (Hd : candidates_of literary_works readlines ratio d =
               Ok (match extractBiblicalPassage b c s e "ESV" with
                   | Some x => [x] | None => [] end)).
  { unfold d. rewrite PipelineFacts.candidates_of_dict.
    pose proof (ParserFacts.normalizeBookNames_truthy _ _ (DefaultFacts.resolves_fixed b Hb))
      as Htruthy.
    unfold ReferenceSpec.missing_key, ReferenceSpec.candidates_for, ReferenceSpec.bible_ref.
    cbn [type book chapter start_verse end_verse String.eqb Ascii.eqb Bool.eqb truthy_opt].
    now rewrite Htruthy, !DefaultFacts.int_truthy_positive by assumption. }
  rewrite Hd.
  pose proof (BiblicalFacts.generateSampleBiblicalText_empty b c s e "ESV") as Hempty.
  pose proof (BiblicalFacts.isValidBiblicalReference_spec b c s e) as Hvalid.
  unfold extractBiblicalPassage.
  change (biblical_translations !! "ESV") with (Some "English Standard Version").
  cbv iota.
  destruct (Str.truthy (_generateSampleBiblicalText b c s e "ESV")) eqn:Htext;
    cbn [negb].
  - repeat split.
    + intros Hse. eexists. split; [reflexivity|].
      cbn [confidence source text].
      rewrite (proj2 Hvalid); [auto|].
      repeat split; auto. rewrite (DefaultFacts.resolves_fixed b Hb). discriminate.
    + intros Hes Hsample. eexists. split; [reflexivity|]. cbn [confidence text].
      destruct (_isValidBiblicalReference b c s e) eqn:Hv.
      { destruct (proj1 Hvalid eq_refl) as (_ & _ & Hle & _). lia. }
      split; [reflexivity|].
      unfold _generateSampleBiblicalText. rewrite Hsample.
      assert (E : (s =? e) = false) by (apply Z.eqb_neq; lia). now rewrite E.
    + intros Hes Hsample. discriminate (proj2 Hempty (conj Hes Hsample)).
  - destruct (proj1 Hempty eq_refl) as [Hes Hsample]. repeat split.
    + intros Hse. lia.
    + intros _ Hnone. now contradiction Hsample.
Qed.

Lemma bible_reference_candidates_witness :
  ParserSpec.resolves "Genesis" /\ 0 < 1 /\ 0 < 5 /\ 0 < 3 /\
  let d := citation_dict (ReferenceSpec.bible_ref "Genesis" 1 5 3) in
  (5 <= 3 ->
   exists candidate,
     candidates_of demo_works demo_readlines demo_ratio d = Ok [candidate] /\
     confidence candidate = 0.95%Q /\ source candidate = "bible:esv" /\
     Str.truthy (text candidate) = true) /\
  (3 < 5 -> sample_passages !! ("Genesis", 1) = None ->
   exists candidate,
     candidates_of demo_works demo_readlines demo_ratio d = Ok [candidate] /\
     confidence candidate = 0.3%Q /\
     text candidate
     = "Genesis" ++ " " ++ Str.of_int 1 ++ ":" ++ Str.of_int 5 ++ "-" ++ Str.of_int 3) /\
  (3 < 5 -> sample_passages !! ("Genesis", 1) <> None ->
   candidates_of demo_works demo_readlines demo_ratio d = Ok []).
Proof.
  assert (Hres : ParserSpec.resolves "Genesis") by (exists "gen"; reflexivity).
  split; [exact Hres|]. split; [lia|]. split; [lia|]. split; [lia|].
  apply (bible_reference_candidates demo_works demo_readlines demo_ratio "Genesis" 1 5 3);
    [exact Hres|lia|lia|lia].
Defined.

(** X13: A literary reference never stops the extraction, and a line number 0
    is not used as such: the parser leaves a zero start or end line out of
    the dictionary, and _findLiteraryMatches then reads the start line as 1
    and the end line as the start line.  Every candidate it returns was cut
    with these line numbers from one of the best-matching works. *)
Theorem zero_line_numbers_default
    (literary_works : list (string * WorkInfo))
    (readlines : string -> option (list string))
    (ratio : string -> string -> Q)
    (w : string) (sl el : Z) (a sc bn : option string) :
  Str.truthy w = true ->
  let d := citation_dict (ReferenceSpec.literary_ref w sl el a sc bn) in
  let first := if sl =? 0 then 1 else sl in
  let last := if el =? 0 then first else el in
  candidates_of literary_works readlines ratio d
  = Ok (_findLiteraryMatches literary_works readlines ratio w d) /\
  forall candidate,
    In candidate (_findLiteraryMatches literary_works readlines ratio w d) ->
    exists work_id similarity work_info prior,
      In (work_id, similarity, work_info)
         (top_matches literary_works ratio (_normalizeTitle w)) /\
      extractLiteraryPassage literary_works readlines work_id first last = Some prior /\
      candidate = set_confidence prior (confidence prior * similarity)%Q.
Proof.
  intros Hw d first last. split.
  - unfold d. rewrite PipelineFacts.candidates_of_dict.
    unfold ReferenceSpec.missing_key, ReferenceSpec.candidates_for,
      ReferenceSpec.literary_ref.
    cbn [type work String.eqb Ascii.eqb Bool.eqb truthy_opt]. now rewrite Hw.
  - intros candidate Hin. unfold _findLiteraryMatches in Hin.
    apply List.in_flat_map in Hin as ([[work_id similarity] work_info] & Htop & Hin).
    cbv zeta in Hin. cbn [fst snd] in Hin.
    destruct (DefaultFacts.literary_lines w sl el a sc bn) as [Hfirst Hlast].
    fold d in Hfirst, Hlast. fold first in Hfirst, Hlast. fold last in Hlast.
    rewrite Hfirst, Hlast in Hin. cbn [extractLiteraryPassage_dyn] in Hin.
    destruct (extractLiteraryPassage literary_works readlines work_id first last)
      as [prior|] eqn:Hprior; [|destruct Hin].
    destruct Hin as [<-|[]]. exists work_id, similarity, work_info, prior. auto.
Qed.

Lemma zero_line_numbers_default_witness :
  Str.truthy "Absalom and Achitophel" = true /\
  let d := citation_dict
             (ReferenceSpec.literary_ref "Absalom and Achitophel" 0 2 None None None) in
  let first := if 0 =? 0 then 1 else 0 in
  let last := if 2 =? 0 then first else 2 in
  candidates_of demo_works demo_readlines demo_ratio d
  = Ok (_findLiteraryMatches demo_works demo_readlines demo_ratio
          "Absalom and Achitophel" d) /\
  forall candidate,
    In candidate (_findLiteraryMatches demo_works demo_readlines demo_ratio
                    "Absalom and Achitophel" d) ->
    exists work_id similarity work_info prior,
      In (work_id, similarity, work_info)
         (top_matches demo_works demo_ratio (_normalizeTitle "Absalom and Achitophel")) /\
      extractLiteraryPassage demo_works demo_readlines work_id first last = Some prior /\
      candidate = set_confidence prior (confidence prior * similarity)%Q.
Proof.
  split; [reflexivity|].
  apply (zero_line_numbers_default demo_works demo_readlines demo_ratio
           "Absalom and Achitophel" 0 2 None None None).
  reflexivity.
Defined.

(* ================================================================= *)
(** ** The lookup endpoint *)


(* ================================================================= *)
(** ** Patterns anchored at the start, and the lines of a passage *)

Module LineFacts.

Import ReSpec ReFacts ReEval NormalizerFacts LineSpec.

Lemma sub_go_after (p : pattern) (repl : caps -> string) :
  anchored p ->
  forall s n x, sub_go p repl (Some x) s n = Str.drop n s.
Proof.
  intros Hanch. induction s as [|c t IH]; intros n x.
  - destruct n; cbn [sub_go Str.drop]; [now rewrite Hanch|reflexivity].
  - destruct n as [|n]; cbn [sub_go Str.drop].
    + rewrite Hanch. now rewrite IH.
    + apply IH.
Qed.

(** [re.sub] of an anchored pattern replaces the match at the start, if
    there is one, and copies the rest. *)
Lemma sub_anchored (p : pattern) (repl : caps -> string) (s : string) :
  anchored p ->
  re_sub p repl s =
  match match_at p (Cursor None s) with
  | Some (cu', cs) => repl cs ++ rest cu'
  | None => s
  end.
Proof.
  intros Hanch. unfold re_sub.
  destruct (match_at p (Cursor None s)) as [[cu' cs]|] eqn:Hm.
  - pose proof Hm as Hs. apply match_at_sound in Hs as (w & Hw & _). cbn [rest] in Hw.
    destruct s as [|c t]; cbn [sub_go]; rewrite Hm.
    + destruct w; [|discriminate]. cbn [String.append] in Hw. now rewrite <- Hw.
    + rewrite Hw at 1. rewrite StrFacts.length_app, Nat.add_sub.
      destruct w as [|c' w]; cbn [String.length].
      * cbn [String.append] in Hw. rewrite <- Hw. f_equal. f_equal.
        now rewrite (sub_go_after p repl Hanch).
      * cbn [String.append] in Hw. injection Hw as <- ->.
        f_equal. rewrite (sub_go_after p repl Hanch). apply drop_app.
  - destruct s as [|c t]; cbn [sub_go]; rewrite Hm; [reflexivity|].
    f_equal. now rewrite (sub_go_after p repl Hanch).
Qed.

Lemma numbered_lines_anchored : anchored EnginePatterns.numbered_lines.
Proof. intros x t. reflexivity. Qed.

Lemma cf_prefix_anchored : anchored InlinePatterns.cf_prefix.
Proof. intros x t. reflexivity. Qed.

(** [\s*] in front of a continuation that never fails. *)
Lemma opt_spaces_total {A : Type} (k : @cont A) (cu : cursor) (cs : caps) :
  accepting k ->
  mtch false Patterns.opt_spaces cu cs k
  = k (run_end false CSpace (prev cu) (rest cu)) cs.
Proof.
  intros Hk. destruct cu as [p s]. unfold Patterns.opt_spaces, Many.
  rewrite mtch_star_class. cbn [prev rest].
  destruct (k (run_end false CSpace p s) cs) as [x|] eqn:Hx.
  - now apply greedy_class_longest.
  - now apply Hk in Hx.
Qed.

Lemma run_end_space_rest p s :
  rest (run_end false CSpace p s) = Str.drop_while Char.py_isspace s.
Proof. apply (run_end_eq false CSpace Char.py_isspace in_charset_space). Qed.

Lemma run_end_digit_rest p s :
  rest (run_end false CDigit p s) = Str.drop_while Char.py_isdecimal s.
Proof. apply (run_end_eq false CDigit Char.py_isdecimal (in_charset_digit false)). Qed.

Lemma punct_tail_rest (cu : cursor) (cs : caps) :
  exists cu',
    punct_tail cu cs = Some (cu', cs) /\
    rest cu' = Str.drop_while Char.py_isspace (drop_punct (rest cu)).
Proof.
  unfold punct_tail, Opt. cbn [mtch].
  assert (Hacc : forall cu0, mtch false Patterns.opt_spaces cu0 cs accept
                             = Some (run_end false CSpace (prev cu0) (rest cu0), cs)).
  { intros cu0. now rewrite opt_spaces_total by apply accepting_accept. }
  destruct cu as [p s]. cbn [rest]. destruct s as [|c t].
  - cbn [orelse]. rewrite Hacc. cbn [prev rest]. eexists. split; [reflexivity|].
    reflexivity.
  - cbn [in_charset mem andb]. rewrite !orb_false_r.
    unfold drop_punct.
    destruct ((c =? ".")%char || (c =? ":")%char).
    + rewrite Hacc. cbn [orelse prev rest]. eexists. split; [reflexivity|].
      apply run_end_space_rest.
    + cbn [orelse]. rewrite Hacc. cbn [prev rest]. eexists. split; [reflexivity|].
      apply run_end_space_rest.
Qed.

Lemma punct_tail_accepting : accepting punct_tail.
Proof.
  intros cu cs. destruct (punct_tail_rest cu cs) as (cu' & -> & _). discriminate.
Qed.

(** [re.match] of the line-number pattern at the start of a line. *)
Lemma match_numbered_lines (line : string) :
  match match_at EnginePatterns.numbered_lines (Cursor None line) with
  | Some (cu', _) =>
      RangeSpec.starts_with_decimal (Str.drop_while Char.py_isspace line) = true /\
      rest cu' = without_line_number line
  | None =>
      RangeSpec.starts_with_decimal (Str.drop_while Char.py_isspace line) = false
  end.
Proof.
  unfold match_at, EnginePatterns.numbered_lines. cbn [p_icase p_re].
  cbn [mtch prev]. fold punct_tail.
  set (k2 := fun cu2 cs2 => mtch false Patterns.opt_spaces cu2 cs2 punct_tail).
  set (k1 := fun cu1 cs1 => mtch false Patterns.digits cu1 cs1 k2).
  assert (Hk2 : forall cu2 cs2, exists cu',
             k2 cu2 cs2 = Some (cu', cs2) /\
             rest cu' = Str.drop_while Char.py_isspace
                          (drop_punct (Str.drop_while Char.py_isspace (rest cu2)))).
  { intros cu2 cs2. unfold k2. rewrite opt_spaces_total by apply punct_tail_accepting.
    destruct (punct_tail_rest (run_end false CSpace (prev cu2) (rest cu2)) cs2)
      as (cu' & -> & Hrest).
    exists cu'. split; [reflexivity|]. now rewrite Hrest, run_end_space_rest. }
  assert (Hk1 : forall p u cs1,
             match k1 (Cursor p u) cs1 with
             | Some (cu', _) =>
                 RangeSpec.starts_with_decimal u = true /\
                 rest cu' = Str.drop_while Char.py_isspace
                              (drop_punct (Str.drop_while Char.py_isspace
                                             (Str.drop_while Char.py_isdecimal u)))
             | None => RangeSpec.starts_with_decimal u = false
             end).
  { intros p u cs1. unfold k1, Patterns.digits. rewrite mtch_plus_class.
    destruct u as [|c t]; [reflexivity|]. rewrite in_charset_digit.
    cbn [RangeSpec.starts_with_decimal].
    destruct (Char.py_isdecimal c) eqn:Hc; [|reflexivity].
    destruct (Hk2 (run_end false CDigit (Some c) t) cs1) as (cu' & Hcu' & Hrest).
    rewrite (greedy_class_longest _ _ _ _ _ _ _ Hcu').
    split; [reflexivity|]. rewrite Hrest, run_end_digit_rest.
    cbn [Str.drop_while]. now rewrite Hc. }
  unfold Patterns.opt_spaces at 1, Many. rewrite mtch_star_class.
  unfold without_line_number.
  pose proof (Hk1 (prev (run_end false CSpace None line))
                (Str.drop_while Char.py_isspace line) []) as Hend.
  assert (Ecur : run_end false CSpace None line
                 = Cursor (prev (run_end false CSpace None line))
                     (Str.drop_while Char.py_isspace line)).
  { rewrite <- run_end_space_rest with (p := None).
    now destruct (run_end false CSpace None line). }
  rewrite <- Ecur in Hend.
  destruct (k1 (run_end false CSpace None line) []) as [[cu' cs']|] eqn:Hk.
  - rewrite (greedy_class_longest _ _ _ _ _ _ _ Hk).
    destruct Hend as [Hstart Hrest]. rewrite Hstart. auto.
  - rewrite greedy_class_fails; [exact Hend| |exact Hk].
    intros p c t Hc. rewrite in_charset_space in Hc.
    pose proof (Hk1 p (String c t) []) as H.
    destruct (k1 (Cursor p (String c t)) []) as [[cu' cs']|]; [|reflexivity].
    destruct H as [H _]. cbn [RangeSpec.starts_with_decimal] in H.
    pose proof (digit_not_space c H). congruence.
Qed.

(** [re.sub] of the line-number pattern by the empty string. *)
Lemma sub_numbered_lines (line : string) :
  re_sub EnginePatterns.numbered_lines (fun _ => "") line = without_line_number line.
Proof.
  rewrite (sub_anchored _ _ _ numbered_lines_anchored).
  pose proof (match_numbered_lines line) as H.
  destruct (match_at EnginePatterns.numbered_lines (Cursor None line)) as [[cu' cs]|].
  - destruct H as [_ H]. exact H.
  - unfold without_line_number. now rewrite H.
Qed.

End LineFacts.

(** X15: _cleanPassageText line by line: a leading line number (digits with
    optional whitespace around them and an optional full stop or colon
    after them) is cut off, the line is trimmed, and the lines that are
    then empty are left out; the others are joined by newlines.  A number
    that opens the verse itself is cut off like a line number. *)
Theorem cleanPassageText_spec :
  (forall line, clean_line line = Str.strip (LineSpec.without_line_number line)) /\
  (forall lines,
     _cleanPassageText lines =
     Str.join (String "010" "")
       (filter (fun l => Str.truthy l = true)
          (map (fun line => Str.strip (LineSpec.without_line_number line)) lines))) /\
  (forall lines kept,
     In kept (filter (fun l => Str.truthy l = true) (map clean_line lines)) ->
     kept <> "" /\ StrSpec.trimmed kept) /\
  clean_line "  12. Of Man's first disobedience  " = "Of Man's first disobedience" /\
  clean_line "1000 ships" = "ships" /\
  _cleanPassageText ["   "; "7"; " 8: "; "no number"] = "no number".
Proof.
  assert (Hline : forall line,
            clean_line line = Str.strip (LineSpec.without_line_number line)).
  { intros line. unfold clean_line. now rewrite LineFacts.sub_numbered_lines. }
  split; [exact Hline|]. split; [|split; [|repeat split; reflexivity]].
  - intros lines. unfold _cleanPassageText. f_equal. f_equal.
    apply map_ext. exact Hline.
  - intros lines kept Hin.
    apply list_elem_of_In, list_elem_of_filter in Hin as [Htruthy Hin].
    apply list_elem_of_In, in_map_iff in Hin as (line & <- & _).
    split; [intros E; rewrite E in Htruthy; discriminate|].
    unfold clean_line. apply StripFacts.strip_trimmed.
Qed.

(* ================================================================= *)
(** ** The "cf." prefix *)

Module PrefixFacts.

Import ReSpec ReFacts ReEval NormalizerFacts LineSpec LineFacts.

Lemma in_charset_space_icase c : in_charset true CSpace c = Char.py_isspace c.
Proof. revert c. apply StripFacts.all_ascii. intros [] [] [] [] [] [] [] []; reflexivity. Qed.

Lemma in_charset_c c : in_charset true (CLit "c") c = (Char.char_lower c =? "c")%char.
Proof. revert c. apply StripFacts.all_ascii. intros [] [] [] [] [] [] [] []; reflexivity. Qed.

Lemma in_charset_f c : in_charset true (CLit "f") c = (Char.char_lower c =? "f")%char.
Proof. revert c. apply StripFacts.all_ascii. intros [] [] [] [] [] [] [] []; reflexivity. Qed.

Lemma in_charset_stop c : in_charset true (CLit ".") c = (c =? ".")%char.
Proof. revert c. apply StripFacts.all_ascii. intros [] [] [] [] [] [] [] []; reflexivity. Qed.

Lemma match_cf_prefix (s : string) :
  match match_at InlinePatterns.cf_prefix (Cursor None s) with
  | Some (cu', _) => rest cu' = without_cf s
  | None => without_cf s = s
  end.
Proof.
  unfold match_at, InlinePatterns.cf_prefix. cbn [p_icase p_re].
  cbn [mtch prev Word]. unfold Lit. cbn [mtch rest].
  destruct s as [|c [|f [|d t]]]; try reflexivity.
  - now destruct (in_charset true (CLit "c") c).
  - destruct (in_charset true (CLit "c") c); [|reflexivity].
    now destruct (in_charset true (CLit "f") f).
  - rewrite in_charset_c, in_charset_f, in_charset_stop. unfold without_cf.
    destruct (Char.char_lower c =? "c")%char; [|reflexivity].
    destruct (Char.char_lower f =? "f")%char; [|reflexivity].
    destruct (d =? ".")%char; [|reflexivity]. cbn [andb].
    unfold Patterns.opt_spaces, Many. rewrite mtch_star_class.
    erewrite greedy_class_longest; [|reflexivity].
    apply (run_end_eq true CSpace Char.py_isspace in_charset_space_icase).
Qed.

Lemma sub_cf_prefix (s : string) :
  re_sub InlinePatterns.cf_prefix (fun _ => "") s = without_cf s.
Proof.
  rewrite (sub_anchored _ _ _ cf_prefix_anchored).
  pose proof (match_cf_prefix s) as H.
  destruct (match_at InlinePatterns.cf_prefix (Cursor None s)) as [[cu' cs]|];
    [exact H|now rewrite H].
Qed.

End PrefixFacts.


(* ================================================================= *)
(** ** Normalized titles *)

Module TitleFacts.

Import ReSpec ReFacts NormalizerSpec NormalizerFacts TitleSpec.

(** [re.sub] only writes characters of the text and of the replacement. *)
Lemma sub_go_forallb (P : ascii -> bool) (p : pattern) (repl : caps -> string) :
  (forall cs, Str.forallb P (repl cs) = true) ->
  forall s before skip,
    Str.forallb P s = true -> Str.forallb P (sub_go p repl before s skip) = true.
Proof.
  intros Hrepl. induction s as [|c t IH]; intros before skip Hs.
  - destruct skip; cbn [sub_go]; [|reflexivity].
    destruct (match_at p (Cursor before "")) as [[cu' cs]|]; [|reflexivity].
    destruct (String.length "" - String.length (rest cu'))%nat;
      rewrite StrFacts.forallb_app, Hrepl; reflexivity.
  - cbn [Str.forallb] in Hs. apply andb_prop in Hs as [Hc Ht].
    destruct skip; cbn [sub_go]; [|now apply IH].
    destruct (match_at p (Cursor before (String c t))) as [[cu' cs]|].
    + destruct (String.length (String c t) - String.length (rest cu'))%nat;
        rewrite StrFacts.forallb_app, Hrepl; cbn [andb Str.forallb];
        rewrite ?Hc; cbn [andb]; now apply IH.
    + cbn [Str.forallb]. rewrite Hc. cbn [andb]. now apply IH.
Qed.

Lemma re_sub_forallb (P : ascii -> bool) (p : pattern) (repl : caps -> string) (s : string) :
  (forall cs, Str.forallb P (repl cs) = true) ->
  Str.forallb P s = true -> Str.forallb P (re_sub p repl s) = true.
Proof. intros Hrepl Hs. now apply sub_go_forallb. Qed.

Lemma lower_lower_fixed (s : string) : Str.forallb lower_fixed (Str.lower s) = true.
Proof.
  induction s as [|c s IH]; [reflexivity|]. cbn [Str.lower Str.map Str.forallb].
  unfold lower_fixed at 1. rewrite StripFacts.lower_idempotent_char, Ascii.eqb_refl.
  exact IH.
Qed.

Lemma lower_fixed_lower (s : string) : Str.forallb lower_fixed s = true -> Str.lower s = s.
Proof.
  induction s as [|c s IH]; [reflexivity|]. cbn [Str.forallb Str.lower Str.map].
  intros H. apply andb_prop in H as [Hc Hs]. apply Ascii.eqb_eq in Hc.
  rewrite Hc. f_equal. now apply IH.
Qed.

(** After the punctuation is removed, only word characters and whitespace
    are left. *)
Lemma sub_punctuation (s : string) :
  forall before,
    Str.forallb word_or_whitespace
      (sub_go EnginePatterns.punctuation (fun _ => "") before s O) = true.
Proof.
  induction s as [|c t IH]; intros before; [reflexivity|].
  cbn [sub_go]. unfold match_at, EnginePatterns.punctuation. cbn [p_icase p_re mtch rest].
  cbn [in_charset mem andb]. rewrite !orb_false_r.
  fold EnginePatterns.punctuation.
  destruct (Char.py_isword c || Char.py_isspace c) eqn:Hc; cbn [negb].
  - cbn [Str.forallb]. unfold word_or_whitespace at 1. rewrite Hc. apply IH.
  - unfold accept. cbn [rest String.length].
    replace (S (String.length t) - String.length t)%nat with 1%nat by lia.
    cbn [String.append]. apply IH.
Qed.

Lemma collapse_word_or_space (s : string) :
  forall in_run,
    Str.forallb word_or_whitespace s = true ->
    Str.forallb word_or_space (collapse_aux in_run s) = true.
Proof.
  induction s as [|c t IH]; intros in_run H; [reflexivity|].
  cbn [Str.forallb] in H. apply andb_prop in H as [Hc Ht].
  cbn [collapse_aux]. destruct (Char.py_isspace c) eqn:Hsp.
  - destruct in_run; [now apply IH|]. cbn [Str.forallb]. now rewrite IH.
  - cbn [Str.forallb]. rewrite IH by exact Ht.
    unfold word_or_whitespace in Hc. rewrite Hsp, orb_false_r in Hc.
    unfold word_or_space. now rewrite Hc.
Qed.

End TitleFacts.

(** X17: _normalizeTitle gives, for every title, a text without whitespace at
    either end that consists of word characters and single-space
    characters only and holds no upper-case letter; and it does not depend
    on the letter case of the title. *)
Theorem normalizeTitle_shape (title : string) :
  let normalized := _normalizeTitle title in
  StrSpec.trimmed normalized /\
  Str.forallb (fun c => Char.py_isword c || (c =? " ")%char) normalized = true /\
  Str.lower normalized = normalized /\
  _normalizeTitle (Str.lower title) = normalized.
Proof.
  cbv zeta. unfold _normalizeTitle. repeat split.
  - apply StripFacts.strip_trimmed.
  - apply StripFacts.strip_trimmed.
  - apply StripFacts.forallb_strip. rewrite NormalizerFacts.sub_whitespace.
    apply (TitleFacts.collapse_word_or_space _ false). apply TitleFacts.sub_punctuation.
  - apply TitleFacts.lower_fixed_lower. apply StripFacts.forallb_strip.
    repeat (apply TitleFacts.re_sub_forallb; [intros; reflexivity|]).
    apply TitleFacts.lower_lower_fixed.
  - now rewrite StripFacts.lower_idempotent.
Qed.

(* ================================================================= *)
(** ** The biblical pattern on a well-formed reference *)

Module BibleMatchFacts.

Import ReSpec ReFacts ReEval NormalizerFacts BibleMatchSpec.

Lemma run_end_app (ic : bool) (set : charset) (a b : string) :
  Str.forallb (in_charset ic set) a = true -> stops ic set b ->
  forall p, exists p', run_end ic set p (a ++ b) = Cursor p' b.
Proof.
  intros Ha Hb. induction a as [|c a IH]; intros p.
  - exists p. cbn [String.append]. destruct b as [|c t]; [reflexivity|].
    simpl in Hb. simpl. now rewrite Hb.
  - cbn [Str.forallb] in Ha. apply andb_prop in Ha as [Hc Ha].
    cbn [String.append run_end]. rewrite Hc. apply IH. exact Ha.
Qed.

(** A run of class characters in front of a continuation that accepts
    right after the run. *)
Lemma plus_class_eval (ic : bool) (set : charset) (k : @cont (cursor * caps))
    (w tail : string) (p : option ascii) (cs out : caps) :
  w <> "" -> Str.forallb (in_charset ic set) w = true -> stops ic set tail ->
  (forall p', yields (k (Cursor p' tail) cs) out) ->
  yields (mtch ic (Plus (Chr set)) (Cursor p (w ++ tail)) cs k) out.
Proof.
  intros Hne Hw Htail Hk. rewrite mtch_plus_class.
  destruct w as [|c t]; [congruence|]. cbn [String.append].
  cbn [Str.forallb] in Hw. apply andb_prop in Hw as [Hc Ht]. rewrite Hc.
  destruct (run_end_app ic set t tail Ht Htail (Some c)) as (p' & Hrun).
  destruct (Hk p') as (cu & Hcu). exists cu.
  apply greedy_class_longest. now rewrite Hrun.
Qed.

Lemma number_class (ic : bool) (w : string) :
  is_number w -> w <> "" /\ Str.forallb (in_charset ic CDigit) w = true.
Proof.
  intros [Hne Hall]. split; [exact Hne|].
  clear Hne. induction w as [|c w IH]; [reflexivity|].
  cbn [Str.forallb] in *. rewrite in_charset_digit.
  apply andb_prop in Hall as [-> Hall]. now apply IH.
Qed.

(** A numbered group in front of a continuation that accepts right after
    the number. *)
Lemma group_digits_eval (ic : bool) (i : nat) (k : @cont (cursor * caps))
    (w tail : string) (p : option ascii) (cs out : caps) :
  is_number w -> stops ic CDigit tail ->
  (forall p', yields (k (Cursor p' tail) ((i, w) :: cs)) out) ->
  yields (mtch ic (Group i Patterns.digits) (Cursor p (w ++ tail)) cs k) out.
Proof.
  intros Hw Htail Hk. cbn [mtch]. unfold Patterns.digits.
  destruct (number_class ic w Hw) as [Hne Hall].
  apply plus_class_eval; auto.
  intros p'. unfold consumed. cbn [rest]. rewrite StrFacts.take_app. apply Hk.
Qed.

Lemma lit_eval (ic : bool) (a c : ascii) (k : @cont (cursor * caps))
    (t : string) (p : option ascii) (cs out : caps) :
  in_charset ic (CLit a) c = true ->
  yields (k (Cursor (Some c) t) cs) out ->
  yields (mtch ic (Lit a) (Cursor p (String c t)) cs k) out.
Proof. intros Hc Hk. unfold Lit. cbn [mtch rest]. now rewrite Hc. Qed.

Lemma in_charset_colon (ic : bool) (c : ascii) :
  in_charset ic (CLit ":") c = (c =? ":")%char.
Proof.
  destruct ic; revert c; apply StripFacts.all_ascii;
    intros [] [] [] [] [] [] [] []; reflexivity.
Qed.

Lemma in_charset_dash (ic : bool) (c : ascii) :
  in_charset ic (CLit "-") c = (c =? "-")%char.
Proof.
  destruct ic; revert c; apply StripFacts.all_ascii;
    intros [] [] [] [] [] [] [] []; reflexivity.
Qed.

Lemma in_charset_letter (c : ascii) : in_charset true Patterns.letter c = is_letter c.
Proof. revert c. apply StripFacts.all_ascii. intros [] [] [] [] [] [] [] []; reflexivity. Qed.

Lemma in_charset_one_to_three (c : ascii) :
  is_letter c = true -> in_charset true (CRange "1" "3") c = false.
Proof.
  destruct c as [[] [] [] [] [] [] [] []]; intros H;
    first [reflexivity | (cbv in H; discriminate H)].
Qed.

Lemma letter_not_space (c : ascii) :
  is_letter c = true -> in_charset true CSpace c = false.
Proof.
  destruct c as [[] [] [] [] [] [] [] []]; intros H;
    first [reflexivity | (cbv in H; discriminate H)].
Qed.

Lemma digit_not_letter (c : ascii) :
  Char.py_isdecimal c = true -> is_letter c = false.
Proof.
  destruct c as [[] [] [] [] [] [] [] []]; intros H;
    first [reflexivity | (cbv in H; discriminate H)].
Qed.

Lemma digit_not_o (c : ascii) :
  Char.py_isdecimal c = true -> in_charset true (CLit "o") c = false.
Proof.
  destruct c as [[] [] [] [] [] [] [] []]; intros H;
    first [reflexivity | (cbv in H; discriminate H)].
Qed.

Lemma digit_not_space_icase (c : ascii) :
  Char.py_isdecimal c = true -> in_charset true CSpace c = false.
Proof.
  destruct c as [[] [] [] [] [] [] [] []]; intros H;
    first [reflexivity | (cbv in H; discriminate H)].
Qed.

(** *** The pattern, part by part *)

Lemma letter_head (w : string) :
  is_name w -> exists c t, w = String c t /\ is_letter c = true.
Proof.
  intros [Hne Hall]. destruct w as [|c t]; [congruence|].
  cbn [Str.forallb] in Hall. apply andb_prop in Hall as [Hc _]. eauto.
Qed.

Lemma name_class (w : string) :
  is_name w -> w <> "" /\ Str.forallb (in_charset true Patterns.letter) w = true.
Proof.
  intros [Hne Hall]. split; [exact Hne|]. clear Hne.
  induction w as [|c w IH]; [reflexivity|]. cbn [Str.forallb] in *.
  rewrite in_charset_letter. apply andb_prop in Hall as [-> Hall]. now apply IH.
Qed.

(** [[1-3]?] and [\s*] in front of a letter take nothing. *)
Lemma skip_number_prefix (k : @cont (cursor * caps)) (p : option ascii)
    (c : ascii) (t : string) (cs : caps) :
  is_letter c = true ->
  mtch true (Opt (Chr (CRange "1" "3"))) (Cursor p (String c t)) cs
    (fun cu1 cs1 => mtch true Patterns.opt_spaces cu1 cs1 k)
  = k (Cursor p (String c t)) cs.
Proof.
  intros Hc. unfold Opt. cbn [mtch rest].
  rewrite (in_charset_one_to_three c Hc). cbn [orelse].
  unfold Patterns.opt_spaces, Many. rewrite mtch_star_class.
  cbn [greedy_class]. now rewrite (letter_not_space c Hc).
Qed.

(** In front of a space and a digit, the optional "of" part and the
    further words take nothing. *)
Lemma skip_of_part (k : @cont (cursor * caps)) (p : option ascii)
    (d : ascii) (t : string) (cs : caps) :
  Char.py_isdecimal d = true ->
  mtch true (Opt (Patterns.spaces ⋅ Word "of" ⋅ Patterns.spaces ⋅ Patterns.letters))
    (Cursor p (String " " (String d t))) cs k
  = k (Cursor p (String " " (String d t))) cs.
Proof.
  intros Hd. unfold Opt. cbn [mtch]. unfold Patterns.spaces at 1.
  rewrite mtch_plus_class. replace (in_charset true CSpace " ") with true by reflexivity.
  cbn [greedy_class]. rewrite (digit_not_space_icase d Hd).
  cbn [Word]. unfold Lit. cbn [mtch rest]. rewrite (digit_not_o d Hd). reflexivity.
Qed.

Lemma skip_more_words (k : @cont (cursor * caps)) (p : option ascii)
    (d : ascii) (t : string) (cs : caps) :
  Char.py_isdecimal d = true ->
  mtch true (Many (Patterns.spaces ⋅ Patterns.letters))
    (Cursor p (String " " (String d t))) cs k
  = k (Cursor p (String " " (String d t))) cs.
Proof.
  intros Hd. unfold Many. cbn [mtch rest String.length star_loop].
  unfold Patterns.spaces. rewrite mtch_plus_class.
  replace (in_charset true CSpace " ") with true by reflexivity.
  cbn [greedy_class]. rewrite (digit_not_space_icase d Hd).
  unfold Patterns.letters. rewrite mtch_plus_class.
  rewrite in_charset_letter, (digit_not_letter d Hd). reflexivity.
Qed.

Section Reference.

Variables (book chapter_ verse_ : string) (last : option string).
Hypothesis Hbook : is_name book.
Hypothesis Hchapter : is_number chapter_.
Hypothesis Hverse : is_number verse_.
Hypothesis Hlast : forall e, last = Some e -> is_number e.

Lemma stops_suffix : stops true CDigit (range_suffix last).
Proof. destruct last; [reflexivity|exact I]. Qed.

Lemma match_suffix (p : option ascii) :
  yields (mtch true (Opt (Lit "-" ⋅ Group 4 Patterns.digits))
            (Cursor p (range_suffix last)) [(3%nat, verse_); (2%nat, chapter_); (1%nat, book)]
            accept)
         (reference_caps book chapter_ verse_ last).
Proof.
  unfold reference_caps, range_suffix. destruct last as [e|] eqn:El.
  - cbn [String.append].
    assert (H : yields (mtch true (Lit "-") (Cursor p (String "-" e))
                          [(3%nat, verse_); (2%nat, chapter_); (1%nat, book)]
                          (fun cu' cs' => mtch true (Group 4 Patterns.digits) cu' cs' accept))
                       [(4%nat, e); (3%nat, verse_); (2%nat, chapter_); (1%nat, book)]).
    { apply lit_eval; [reflexivity|].
      rewrite <- (StrFacts.app_nil_r e) at 1.
      apply group_digits_eval; [now apply Hlast|exact I|].
      intros p'. eexists. reflexivity. }
    change (yields
              (orelse
                 (mtch true (Lit "-") (Cursor p (String "-" e))
                    [(3%nat, verse_); (2%nat, chapter_); (1%nat, book)]
                    (fun cu' cs' => mtch true (Group 4 Patterns.digits) cu' cs' accept))
                 (accept (Cursor p (String "-" e))
                    [(3%nat, verse_); (2%nat, chapter_); (1%nat, book)]))
              [(4%nat, e); (3%nat, verse_); (2%nat, chapter_); (1%nat, book)]).
    destruct H as (cu & ->). exists cu. reflexivity.
  - unfold Opt. cbn [mtch rest orelse]. eexists. reflexivity.
Qed.

(** [re.match] of the biblical pattern on the reference. *)
Lemma match_bible_standard :
  re_match Patterns.bible_standard (reference_text book chapter_ verse_ last)
  = Some (reference_caps book chapter_ verse_ last).
Proof.
  assert (H : yields (match_at Patterns.bible_standard (Cursor None (reference_text book chapter_ verse_ last)))
                     (reference_caps book chapter_ verse_ last)).
  { unfold match_at, Patterns.bible_standard, reference_text. cbn [p_icase p_re].
    cbn [mtch].
    destruct (letter_head book Hbook) as (b0 & bt & Eb & Hb0).
    destruct (RangeFacts.number_head chapter_ Hchapter) as (d & dt & Ec & Hd & _).
    destruct (name_class book Hbook) as [Hne Hall].
    set (S2 := ":" ++ verse_ ++ range_suffix last).
    set (S1 := " " ++ chapter_ ++ S2).
    (* the book *)
    replace (book ++ S1) with (String b0 (bt ++ S1)) by (rewrite Eb; reflexivity).
    rewrite skip_number_prefix by exact Hb0.
    replace (String b0 (bt ++ S1)) with (book ++ S1) by (rewrite Eb; reflexivity).
    unfold Patterns.letters at 1.
    apply plus_class_eval; [exact Hne|exact Hall|reflexivity|].
    intros p1.
    assert (E1 : S1 = String " " (String d (dt ++ S2)))
      by (unfold S1; rewrite Ec; reflexivity).
    rewrite E1. rewrite skip_of_part, skip_more_words by exact Hd.
    unfold consumed. cbn [rest]. rewrite StrFacts.take_app.
    (* the space and the chapter *)
    unfold Patterns.spaces.
    apply (plus_class_eval true CSpace _ " " (String d (dt ++ S2)));
      [discriminate|reflexivity|now apply digit_not_space_icase|].
    intros p2.
    replace (String d (dt ++ S2)) with (chapter_ ++ S2) by (rewrite Ec; reflexivity).
    destruct (number_class true chapter_ Hchapter) as [Hnc Hac].
    unfold Patterns.digits at 1.
    apply plus_class_eval; [exact Hnc|exact Hac|reflexivity|].
    intros p3. cbn [rest]. rewrite StrFacts.take_app.
    (* the colon and the verse *)
    apply (lit_eval true ":" ":" _ (verse_ ++ range_suffix last)); [reflexivity|].
    destruct (number_class true verse_ Hverse) as [Hnv Hav].
    unfold Patterns.digits at 1.
    apply plus_class_eval; [exact Hnv|exact Hav|exact stops_suffix|].
    intros p4. cbn [rest]. rewrite StrFacts.take_app. apply match_suffix. }
  destruct H as (cu & H). unfold re_match. now rewrite H.
Qed.

End Reference.

End BibleMatchFacts.

(* ================================================================= *)
(** ** A well-formed Bible citation, from the text to the candidate *)

Module WellFormedFacts.

Import ReSpec ReFacts ParserSpec ParserFacts BibleMatchSpec BibleMatchFacts ReferenceSpec.

#[local] Arguments normalizeBookNames : simpl never.
#[local] Arguments re_match : simpl never.
#[local] Arguments re_search : simpl never.
#[local] Arguments PyInt.parse : simpl never.
#[local] Arguments Str.strip : simpl never.

Lemma has_char_forallb (P : ascii -> bool) (ch : ascii) (s : string) :
  Str.forallb P s = true -> P ch = false -> Str.has_char ch s = false.
Proof.
  intros Hs Hch. induction s as [|c s IH]; [reflexivity|].
  cbn [Str.forallb] in Hs. apply andb_prop in Hs as [Hc Hs].
  cbn [Str.has_char]. rewrite (IH Hs), orb_false_r.
  destruct (c =? ch)%char eqn:E; [|reflexivity].
  apply Ascii.eqb_eq in E. subst. congruence.
Qed.

Lemma has_char_suffix (ch : ascii) (last : option string) :
  (ch =? "-")%char = false ->
  Char.py_isdecimal ch = false ->
  (forall e, last = Some e -> is_number e) ->
  Str.has_char ch (range_suffix last) = false.
Proof.
  intros Hdash Hch Hlast. destruct last as [e|]; [|reflexivity].
  cbn [range_suffix String.append Str.has_char].
  rewrite Ascii.eqb_sym, Hdash. cbn [orb].
  destruct (Hlast e eq_refl) as [_ He]. now apply (has_char_forallb Char.py_isdecimal).
Qed.

Section WellFormed.

Variables (book chapter_ verse_ : string) (last : option string).
Hypothesis Hbook : is_name book.
Hypothesis Hchapter : is_number chapter_.
Hypothesis Hverse : is_number verse_.
Hypothesis Hlast : forall e, last = Some e -> is_number e.

Lemma reference_no_semicolon :
  Str.has_char ";" (reference_text book chapter_ verse_ last) = false.
Proof.
  unfold reference_text. destruct Hbook as [_ Hb], Hchapter as [_ Hc], Hverse as [_ Hv].
  rewrite !StrFacts.has_char_app.
  rewrite (has_char_forallb is_letter ";" book Hb eq_refl),
    (has_char_forallb Char.py_isdecimal ";" chapter_ Hc eq_refl),
    (has_char_forallb Char.py_isdecimal ";" verse_ Hv eq_refl),
    (has_char_suffix ";" last eq_refl eq_refl Hlast).
  reflexivity.
Qed.

Lemma reference_trimmed : StrSpec.trimmed (reference_text book chapter_ verse_ last).
Proof.
  destruct (letter_head book Hbook) as (b0 & bt & Eb & Hb0).
  assert (Hsp : Char.py_isspace b0 = false).
  { pose proof (letter_not_space b0 Hb0) as H.
    now rewrite PrefixFacts.in_charset_space_icase in H. }
  unfold reference_text, range_suffix. rewrite Eb. destruct last as [e|].
  - replace (String b0 bt ++ " " ++ chapter_ ++ ":" ++ verse_ ++ "-" ++ e)
      with (String b0 (bt ++ " " ++ chapter_ ++ ":" ++ verse_ ++ "-") ++ e).
    + apply RangeFacts.trimmed_ends; [exact Hsp|now apply Hlast].
    + repeat first [ rewrite <- StrFacts.app_assoc | progress cbn [String.append] ].
      reflexivity.
  - replace (String b0 bt ++ " " ++ chapter_ ++ ":" ++ verse_ ++ "")
      with (String b0 (bt ++ " " ++ chapter_ ++ ":") ++ verse_).
    + apply RangeFacts.trimmed_ends; [exact Hsp|exact Hverse].
    + repeat first [ rewrite <- StrFacts.app_assoc | progress cbn [String.append] ].
      now rewrite StrFacts.app_nil_r.
Qed.

Lemma reference_groups :
  let m := reference_caps book chapter_ verse_ last in
  group m 1 = Some book /\ group m 2 = Some chapter_ /\ group m 3 = Some verse_ /\
  group m 4 = last.
Proof. unfold reference_caps. destruct last; repeat split; reflexivity. Qed.

Variables (normalized_book : string) (c v e : Z).
Hypothesis Hnormalized : normalizeBookNames book = Some normalized_book.
Hypothesis Hc : PyInt.parse chapter_ = Ok c.
Hypothesis Hv : PyInt.parse verse_ = Ok v.
Hypothesis He : match last with Some w => PyInt.parse w = Ok e | None => e = v end.

Lemma reference_is_biblical :
  identifySourceType (reference_text book chapter_ verse_ last) = Ok "bible".
Proof.
  unfold identifySourceType. rewrite reference_no_semicolon, andb_false_r.
  rewrite identifySourceType_biblical.
  unfold biblical_pattern_normalizes, re_search.
  pose proof (match_bible_standard book chapter_ verse_ last Hbook Hchapter Hverse Hlast)
    as Hm.
  unfold re_match in Hm.
  destruct (reference_text book chapter_ verse_ last) as [|x t] eqn:Et;
    cbn [search_from];
    destruct (match_at Patterns.bible_standard (Cursor None _)) as [[cu cs]|];
    try discriminate; injection Hm as ->;
    rewrite (proj1 reference_groups), Hnormalized; reflexivity.
Qed.

Lemma reference_parsed :
  _parseBiblicalCitation (reference_text book chapter_ verse_ last)
  = Ok [bible_ref normalized_book c v e].
Proof.
  unfold _parseBiblicalCitation. cbn [parseBiblical_rec].
  rewrite reference_no_semicolon. unfold parse_single_biblical.
  rewrite (StripFacts.strip_of_trimmed _ reference_trimmed).
  rewrite (match_bible_standard book chapter_ verse_ last Hbook Hchapter Hverse Hlast).
  destruct reference_groups as (E1 & E2 & E3 & E4). rewrite E1, E2, E3, E4.
  cbn [bind py_int str_receiver]. rewrite Hc, Hv. cbn [bind].
  rewrite Hnormalized, (normalizeBookNames_truthy _ _ Hnormalized).
  destruct last as [w|].
  - cbn [truthy_opt]. rewrite (is_number_truthy _ (Hlast w eq_refl)).
    cbn [py_int]. rewrite He. reflexivity.
  - cbn [truthy_opt bind]. now rewrite He.
Qed.

Lemma reference_references :
  parse_references (reference_text book chapter_ verse_ last)
  = Ok ("bible", [bible_ref normalized_book c v e]).
Proof.
  unfold parse_references. rewrite reference_is_biblical. cbn [bind].
  change (if "bible" =? "bible" then ?a else _)%string with a.
  now rewrite reference_parsed.
Qed.

End WellFormed.

End WellFormedFacts.

Module ValidCandidateFacts.

Import ScorerSpec ScorerFacts EngineFacts ReferenceSpec CandidateSpec.

Lemma extract_valid (book : string) (chapter start_verse end_verse : Z) :
  normalizeBookNames book <> None ->
  0 < chapter -> 0 < start_verse -> start_verse <= end_verse ->
  extractBiblicalPassage book chapter start_verse end_verse "ESV"
  = Some (esv_candidate book chapter start_verse end_verse).
Proof.
  intros Hbook Hc Hs Hle. unfold extractBiblicalPassage.
  change (biblical_translations !! "ESV") with (Some "English Standard Version").
  cbv iota.
  rewrite (generateSampleBiblicalText_truthy _ _ _ _ "ESV" Hle). cbn [negb].
  rewrite (proj2 (BiblicalFacts.isValidBiblicalReference_spec _ _ _ _)) by auto.
  reflexivity.
Qed.

Lemma verse_range_truthy (start_verse end_verse : Z) :
  0 <= start_verse -> Str.truthy (verse_range start_verse end_verse) = true.
Proof.
  intros Hs. pose proof (ReFacts.is_number_truthy _ (IntFacts.of_int_number _ Hs)) as H.
  unfold verse_range. destruct (negb _); [now apply truthy_app_l|exact H].
Qed.

Lemma esv_metadata_complete (book : string) (chapter start_verse end_verse : Z) :
  Str.truthy book = true -> 0 < chapter -> 0 <= start_verse ->
  (_getMetadataCompleteness (metadata (esv_candidate book chapter start_verse end_verse))
   == 1)%Q.
Proof.
  intros Hb Hc Hs. unfold _getMetadataCompleteness, esv_candidate. cbn [metadata].
  set (d := list_to_map _ : gmap string pyval).
  change (d !! "book") with (Some (VStr book)). cbv iota.
  assert (H1 : get_truthy d "book" = true) by exact Hb.
  assert (H2 : get_truthy d "chapter" = true).
  { change (get_truthy d "chapter") with (negb (chapter =? 0)).
    destruct (chapter =? 0) eqn:E; [lia|reflexivity]. }
  assert (H3 : get_truthy d "verses" = true)
    by exact (verse_range_truthy start_verse end_verse Hs).
  rewrite !filter_cons_True by assumption. rewrite filter_nil. reflexivity.
Qed.

(** The score [rankCandidates] gives that candidate. *)
Lemma esv_candidate_score (book : string) (chapter start_verse end_verse : Z) :
  Str.truthy book = true -> 0 < chapter -> 0 <= start_verse ->
  exists q,
    calculateConfidenceScore (esv_candidate book chapter start_verse end_verse) "" = Ok q /\
    (q == 0.82 + 0.15 * _calculateTextQuality
                          (_generateSampleBiblicalText book chapter start_verse
                             end_verse "ESV"))%Q.
Proof.
  intros Hb Hc Hs.
  set (cand := esv_candidate book chapter start_verse end_verse).
  assert (Hcm : _getCitationMatchScore cand "" = Ok (Qmin 1 (0.5 + 0.3 + 0.2))%Q)
    by reflexivity.
  destruct (calculateConfidenceScore_formula cand "" _ Hcm) as (q & Hq & Heq).
  exists q. split; [exact Hq|]. rewrite Heq.
  unfold score, score_with, weighted_sum.
  pose proof (ScoreBounds.calculateTextQuality_bounds
                (_generateSampleBiblicalText book chapter start_verse end_verse "ESV"))
    as [[Hlo Hhi] _].
  apply Qeq_trans
    with (clamp01 (0.82 + 0.15 * _calculateTextQuality
                                   (_generateSampleBiblicalText book chapter start_verse
                                      end_verse "ESV"))).
  - apply clamp01_compat. subst cand.
    rewrite (esv_metadata_complete book chapter start_verse end_verse Hb Hc Hs).
    rewrite <- (calculateTextQuality_spec
                  (text (esv_candidate book chapter start_verse end_verse))).
    cbn [esv_candidate text confidence source].
    change (_getSourceReliability "bible:esv") with 0.95%Q.
    assert (Hone : (Qmin 1 (0.5 + 0.3 + 0.2) == 1)%Q) by reflexivity.
    rewrite Hone. field.
  - apply ScoreBounds.clamp01_inactive. ScoreBounds.qlra.
Qed.

End ValidCandidateFacts.





(* ================================================================= *)
(** ** Mixed citations *)

Module MixedFacts.

Import ReSpec ReFacts ReEval NormalizerFacts BibleMatchSpec BibleMatchFacts ParserFacts MixedSpec.

#[local] Arguments re_match : simpl never.
#[local] Arguments Str.strip : simpl never.

(** No match without the marker at the very start. *)
Lemma match_mixed_needs_cf (s : string) :
  starts_with_cf s = false -> re_match Patterns.mixed_reference s = None.
Proof.
  intros H. unfold re_match, match_at, Patterns.mixed_reference. cbn [p_icase p_re].
  cbn [mtch Word]. unfold Lit at 1 2 3. cbn [mtch rest].
  destruct s as [|c [|f [|d t]]]; try reflexivity.
  - now destruct (in_charset true (CLit "c") c).
  - destruct (in_charset true (CLit "c") c); [|reflexivity].
    now destruct (in_charset true (CLit "f") f).
  - rewrite PrefixFacts.in_charset_c, PrefixFacts.in_charset_f,
      PrefixFacts.in_charset_stop.
    cbn [starts_with_cf] in H.
    destruct (Char.char_lower c =? "c")%char; [|reflexivity].
    destruct (Char.char_lower f =? "f")%char; [|reflexivity].
    destruct (d =? ".")%char; [discriminate|reflexivity].
Qed.

Lemma star_class_eval (ic : bool) (set : charset) (k : @cont (cursor * caps))
    (w tail : string) (p : option ascii) (cs out : caps) :
  Str.forallb (in_charset ic set) w = true -> stops ic set tail ->
  (forall p', yields (k (Cursor p' tail) cs) out) ->
  yields (mtch ic (Star true (Chr set)) (Cursor p (w ++ tail)) cs k) out.
Proof.
  intros Hw Htail Hk. rewrite mtch_star_class.
  destruct (run_end_app ic set w tail Hw Htail p) as (p' & Hrun).
  destruct (Hk p') as (cu & Hcu). exists cu.
  apply greedy_class_longest. now rewrite Hrun.
Qed.

Lemma in_charset_not_semicolon (c : ascii) :
  in_charset true (CNeg (CLit ";")) c = negb (c =? ";")%char.
Proof. revert c. apply StripFacts.all_ascii. intros [] [] [] [] [] [] [] []; reflexivity. Qed.

Lemma reference_class (a : string) :
  Str.has_char ";" a = false ->
  Str.forallb (in_charset true (CNeg (CLit ";"))) a = true.
Proof.
  induction a as [|c a IH]; [reflexivity|]. cbn [Str.has_char Str.forallb].
  intros H. apply orb_false_elim in H as [Hc Ha].
  rewrite in_charset_not_semicolon, Hc. cbn [negb andb]. now apply IH.
Qed.

Lemma space_class (w : string) :
  Str.forallb Char.py_isspace w = true ->
  Str.forallb (in_charset true CSpace) w = true.
Proof.
  induction w as [|c w IH]; [reflexivity|]. cbn [Str.forallb].
  intros H. apply andb_prop in H as [Hc Hw].
  rewrite PrefixFacts.in_charset_space_icase, Hc. now apply IH.
Qed.

Lemma stops_space_at_reference (a tail : string) :
  is_reference a -> stops true CSpace (a ++ tail).
Proof.
  intros (Hne & _ & Hclean). destruct a as [|c a]; [congruence|].
  cbn [String.append stops]. rewrite PrefixFacts.in_charset_space_icase. exact Hclean.
Qed.

Lemma match_mixed (w1 a w2 b remainder : string) :
  Str.forallb Char.py_isspace w1 = true -> is_reference a ->
  Str.forallb Char.py_isspace w2 = true -> is_reference b ->
  is_remainder remainder ->
  re_match Patterns.mixed_reference ("cf." ++ w1 ++ a ++ ";" ++ w2 ++ b ++ remainder)
  = Some [(2%nat, b); (1%nat, a)].
Proof.
  intros Hw1 Ha Hw2 Hb Hrem.
  assert (H : yields (match_at Patterns.mixed_reference
                        (Cursor None ("cf." ++ w1 ++ a ++ ";" ++ w2 ++ b ++ remainder)))
                     [(2%nat, b); (1%nat, a)]).
  { unfold match_at, Patterns.mixed_reference. cbn [p_icase p_re].
    cbn [mtch Word]. unfold Lit at 1 2 3. cbn [mtch rest String.append].
    replace (in_charset true (CLit "c") "c") with true by reflexivity.
    replace (in_charset true (CLit "f") "f") with true by reflexivity.
    replace (in_charset true (CLit ".") ".") with true by reflexivity.
    unfold Patterns.opt_spaces at 1, Many.
    apply star_class_eval;
      [now apply space_class|now apply stops_space_at_reference|].
    intros p1. destruct Ha as (Hane & Hasemi & Haclean).
    apply plus_class_eval; [exact Hane|now apply reference_class|reflexivity|].
    intros p2. unfold consumed. cbn [rest]. rewrite StrFacts.take_app.
    apply (lit_eval true ";" ";" _ (w2 ++ b ++ remainder)); [reflexivity|].
    unfold Patterns.opt_spaces, Many.
    apply star_class_eval;
      [now apply space_class|now apply stops_space_at_reference|].
    intros p3. destruct Hb as (Hbne & Hbsemi & Hbclean).
    apply plus_class_eval; [exact Hbne|now apply reference_class| |].
    { destruct remainder as [|c r]; [exact I|]. simpl in Hrem. subst c. reflexivity. }
    intros p4. cbn [rest]. rewrite StrFacts.take_app. eexists. reflexivity. }
  destruct H as (cu & H). unfold re_match. now rewrite H.
Qed.

End MixedFacts.



Module IndexFacts.

Import ReSpec ReFacts IndexSpec.

Lemma Derive_keeps ic r w cs cs' (i : nat) :
  Derive ic r w cs cs' -> group cs i <> None -> group cs' i <> None.
Proof.
  induction 1; intros Hg; auto.
  simpl. destruct (Nat.eqb i i0); [discriminate|auto].
Qed.

Lemma Derive_sets ic r w cs cs' (i : nat) :
  Derive ic r w cs cs' -> sets i r = true -> group cs' i <> None.
Proof.
  induction 1; simpl; intros Hs; try discriminate.
  - apply orb_true_iff in Hs as [Hs|Hs].
    + eapply Derive_keeps; eauto.
    + auto.
  - apply andb_true_iff in Hs as [Hs _]. auto.
  - apply andb_true_iff in Hs as [_ Hs]. auto.
  - destruct (Nat.eqb i i0); [discriminate|]. simpl in Hs. auto.
Qed.

Lemma author_line_group (line : string) (m : caps) :
  re_search IndexPatterns.author_line line = Some m -> exists found, group m 1 = Some found.
Proof.
  intros H. apply search_from_sound in H as (w & Hd).
  apply Derive_sets with (i := 1%nat) in Hd; [|reflexivity].
  destruct (group m 1) as [found|]; [eauto|congruence].
Qed.

Lemma truthy_false (s : string) : Str.truthy s = false -> s = "".
Proof. destruct s; [reflexivity|discriminate]. Qed.

(** One iteration never ends the loop early: a title or an author found
    before is kept, and otherwise the line gives its own. *)
Lemma scan_line_spec (title author line : string) :
  scan_line title author line
  = Scanned (if Str.truthy title then title
             else if title_line line then Str.strip line else "")
            (if Str.truthy author then author else author_of line).
Proof.
  unfold scan_line, title_line, author_of.
  set (t' := if negb (Str.truthy title) && Str.truthy (Str.strip line) &&
                negb (Str.startswith "Project Gutenberg" (Str.strip line))
             then if negb (existsb (fun skip => Str.contains skip (Str.lower (Str.strip line)))
                             skipped_headers)
                  then Str.strip line else title
             else title).
  assert (Ht : t' = if Str.truthy title then title
                    else if Str.truthy (Str.strip line) &&
                            negb (Str.startswith "Project Gutenberg" (Str.strip line)) &&
                            negb (existsb (fun skip => Str.contains skip (Str.lower (Str.strip line)))
                                    skipped_headers)
                         then Str.strip line else "").
  { subst t'. destruct (Str.truthy title) eqn:Et; [reflexivity|].
    apply truthy_false in Et as ->. cbn [negb andb].
    destruct (Str.truthy (Str.strip line) &&
              negb (Str.startswith "Project Gutenberg" (Str.strip line)));
      reflexivity. }
  rewrite <- Ht. clearbody t'. clear Ht.
  destruct (Str.truthy author) eqn:Ea; cbn [negb].
  - rewrite andb_false_r. reflexivity.
  - apply truthy_false in Ea as ->. rewrite andb_true_r.
    destruct (Str.contains "by " (Str.lower (Str.strip line))); [|reflexivity].
    destruct (re_search IndexPatterns.author_line (Str.strip line)) as [m|] eqn:Em;
      [|reflexivity].
    destruct (author_line_group _ _ Em) as (found & Hf).
    unfold group_or_empty. now rewrite Hf.
Qed.

Lemma title_line_truthy (line : string) :
  title_line line = true -> Str.truthy (Str.strip line) = true.
Proof.
  unfold title_line. intros H.
  apply andb_true_iff in H as [H _]. now apply andb_true_iff in H as [H _].
Qed.

(** The loop leaves the first accepted title and the first non-empty
    author, unless it started with one. *)
Lemma scan_lines_spec (lines : list string) :
  forall title author,
    scan_lines lines title author
    = Scanned (if Str.truthy title then title else first_title lines)
              (if Str.truthy author then author else first_author lines).
Proof.
  induction lines as [|line rest IH]; intros title author.
  - cbn [scan_lines]. unfold first_title, first_author. cbn [find].
    destruct (Str.truthy title) eqn:Et, (Str.truthy author) eqn:Ea;
      try apply truthy_false in Et as ->; try apply truthy_false in Ea as ->; reflexivity.
  - cbn [scan_lines]. rewrite scan_line_spec, IH.
    unfold first_title, first_author. cbn [find].
    f_equal.
    + destruct (Str.truthy title) eqn:Et; [now rewrite Et|].
      destruct (title_line line) eqn:El.
      * now rewrite (title_line_truthy _ El).
      * reflexivity.
    + destruct (Str.truthy author) eqn:Ea; [now rewrite Ea|].
      destruct (Str.truthy (author_of line)) eqn:El; [reflexivity|].
      reflexivity.
Qed.

(** [lines[:10]] is the first ten lines. *)
Lemma first_ten_lines {A : Type} (l : list A) : py_slice l 0 10 = firstn 10 l.
Proof.
  unfold py_slice, slice_bound. cbn [Z.ltb Z.compare].
  rewrite (Z.min_l 0) by lia. change (Z.to_nat 0) with 0%nat. rewrite skipn_O.
  destruct (Z.min_spec 10 (Z.of_nat (length l))) as [[Hlt ->]|[Hle ->]].
  - reflexivity.
  - rewrite Z.sub_0_r, Nat2Z.id.
    rewrite firstn_all. symmetry. apply firstn_all2. lia.
Qed.

Lemma metadata_dict_title (title author : string) (count : Z) :
  metadata_dict title author count !! "title" = Some (VStr title).
Proof. unfold metadata_dict. rewrite list_to_map_cons. apply lookup_insert_eq. Qed.

Lemma metadata_dict_author (title author : string) (count : Z) :
  metadata_dict title author count !! "author" = Some (VStr author).
Proof.
  unfold metadata_dict. rewrite !list_to_map_cons.
  rewrite lookup_insert_ne by discriminate. apply lookup_insert_eq.
Qed.

Lemma first_title_clean (lines : list string) :
  first_title lines = "" \/
  exists line, In line lines /\ title_line line = true /\ first_title lines = Str.strip line.
Proof.
  unfold first_title. destruct (find title_line lines) as [line|] eqn:E; [|now left].
  right. apply find_some in E as [Hin Ht]. eauto.
Qed.

Lemma author_of_trimmed (line : string) : Str.strip (author_of line) = author_of line.
Proof.
  unfold author_of.
  destruct (Str.contains "by " (Str.lower (Str.strip line))); [|reflexivity].
  destruct (re_search IndexPatterns.author_line (Str.strip line)); [|reflexivity].
  apply StripFacts.strip_idempotent.
Qed.

Lemma first_author_trimmed (lines : list string) :
  Str.strip (first_author lines) = first_author lines.
Proof.
  unfold first_author. destruct (find _ lines); [apply author_of_trimmed|reflexivity].
Qed.

(** *** Dictionary assignment *)

Lemma dict_set_In {V : Type} (key : string) (value : V) (d : list (string * V)) k v :
  In (k, v) (dict_set key value d) -> (k = key /\ v = value) \/ In (k, v) d.
Proof.
  induction d as [|[k0 v0] d IH]; simpl.
  - intros [[= <- <-]|[]]. now left.
  - destruct (String.eqb k0 key) eqn:E.
    + apply String.eqb_eq in E. subst k0.
      intros [[= <- <-]|H]; [now left|]. right. now right.
    + intros [[= <- <-]|H]; [right; now left|].
      destruct (IH H) as [?|?]; [now left|right; now right].
Qed.

Lemma dict_set_keys {V : Type} (key : string) (value : V) (d : list (string * V)) k :
  In k (map fst (dict_set key value d)) <-> k = key \/ In k (map fst d).
Proof.
  induction d as [|[k0 v0] d IH]; simpl.
  - intuition.
  - destruct (String.eqb k0 key) eqn:E; simpl.
    + apply String.eqb_eq in E. subst k0. intuition.
    + rewrite IH. intuition.
Qed.

Lemma dict_set_NoDup {V : Type} (key : string) (value : V) (d : list (string * V)) :
  List.NoDup (map fst d) -> List.NoDup (map fst (dict_set key value d)).
Proof.
  induction d as [|[k0 v0] d IH]; simpl; intros Hd.
  - constructor; [intros []|constructor].
  - inversion Hd as [|? ? Hnot Hrest]; subst.
    destruct (String.eqb k0 key) eqn:E; simpl.
    + now constructor.
    + constructor; [|now apply IH].
      rewrite dict_set_keys. intros [->|Hin]; [|contradiction].
      now rewrite String.eqb_refl in E.
Qed.

Lemma dict_set_has {V : Type} (key : string) (value : V) (d : list (string * V)) :
  In (key, value) (dict_set key value d).
Proof.
  induction d as [|[k0 v0] d IH]; simpl; [now left|].
  destruct (String.eqb k0 key) eqn:E.
  - apply String.eqb_eq in E. subst. now left.
  - now right.
Qed.

Section Built.

Variable readlines : string -> option (list string).
Variable stem : string -> string.
Variable title_case : string -> string.

Lemma extractWorkMetadata_dict (file_path : string) :
  _extractWorkMetadata readlines stem title_case file_path
  = metadata_dict (detected_title readlines stem title_case file_path)
      (detected_author readlines file_path) (line_count readlines file_path).
Proof.
  unfold _extractWorkMetadata, detected_title, detected_author, line_count.
  destruct (readlines file_path) as [lines|]; [|reflexivity].
  rewrite first_ten_lines, scan_lines_spec. cbn [Str.truthy].
  unfold fallback_title.
  destruct (Str.truthy (first_title (firstn 10 lines))); reflexivity.
Qed.

(** The loop of [_indexLiteraryWorks] keeps an index of entries of files. *)
Lemma index_files_entries (all_files files : list string) :
  forall works,
    (forall f, In f files -> In f all_files) ->
    List.NoDup (map fst works) ->
    (forall work_id info, In (work_id, info) works ->
       In (file_path info) all_files /\ work_id = stem (file_path info) /\
       info = entry_of readlines stem title_case (file_path info)) ->
    exists works',
      index_files readlines stem title_case files works = Ok works' /\
      List.NoDup (map fst works') /\
      (forall work_id info, In (work_id, info) works' ->
         In (file_path info) all_files /\ work_id = stem (file_path info) /\
         info = entry_of readlines stem title_case (file_path info)) /\
      (forall k, In k (map fst works') <-> In k (map fst works) \/ In k (map stem files)).
Proof.
  induction files as [|f rest IH]; intros works Hsub Hnd Hinv.
  - exists works. cbn [index_files map].
    split; [reflexivity|]. split; [exact Hnd|]. split; [exact Hinv|].
    intros k. split; [now left|]. now intros [H|[]].
  - cbn [index_files]. rewrite extractWorkMetadata_dict.
    unfold get_default. rewrite metadata_dict_title. cbn [bind].
    set (entry := mkWorkInfo f _ _).
    assert (He : entry = entry_of readlines stem title_case f) by reflexivity.
    destruct (IH (dict_set (stem f) entry works)) as (works' & Hw & Hnd' & Hinv' & Hkeys).
    + intros g Hg. apply Hsub. now right.
    + now apply dict_set_NoDup.
    + intros k v Hin. apply dict_set_In in Hin as [[-> ->]|Hin]; [|now apply Hinv].
      rewrite He. cbn [file_path entry_of]. repeat split. apply Hsub. now left.
    + exists works'. split; [exact Hw|]. split; [exact Hnd'|]. split; [exact Hinv'|].
      intros k. rewrite Hkeys, dict_set_keys. cbn [map]. simpl. intuition.
Qed.

Lemma entry_typed (file_path : string) :
  ScorerSpec.text_field (work_metadata (entry_of readlines stem title_case file_path)) "title" /\
  ScorerSpec.text_field (work_metadata (entry_of readlines stem title_case file_path)) "author".
Proof.
  unfold ScorerSpec.text_field, entry_of. cbn [work_metadata].
  rewrite metadata_dict_title, metadata_dict_author.
  split; intros v [= <-]; eauto.
Qed.

End Built.

End IndexFacts.

(** X21: _extractWorkMetadata in closed form.  Nothing inside its try block
    raises once the file is read: group 1 of the author pattern takes part
    in every match.  The title is the first of the first ten lines that,
    stripped, is not empty, does not start with "Project Gutenberg" and
    holds none of "project gutenberg", "ebook", "produced by" in any case;
    it is stored stripped, so it is trimmed and not empty.  Without such a
    line the title is derived from the file name.  The author is the first
    non-empty stripped capture of the author pattern among the lines that
    hold "by " in any case, and is trimmed.  A file that cannot be read
    keeps the defaults, without the title derived from the file name.
    Title and author are strings in every case. *)
Theorem extractWorkMetadata_spec
    (readlines : string -> option (list string))
    (stem title_case : string -> string) (file_path : string) :
  let title := IndexSpec.detected_title readlines stem title_case file_path in
  let author := IndexSpec.detected_author readlines file_path in
  let found := _extractWorkMetadata readlines stem title_case file_path in
  found = metadata_dict title author (IndexSpec.line_count readlines file_path) /\
  ScorerSpec.text_field found "title" /\ ScorerSpec.text_field found "author" /\
  Str.strip author = author /\
  match readlines file_path with
  | None => found = metadata_dict "" "" 0
  | Some lines =>
      found !! "lines" = Some (VInt (Z.of_nat (length lines))) /\
      match find IndexSpec.title_line (firstn 10 lines) with
      | Some line =>
          title = Str.strip line /\ title <> "" /\ StrSpec.trimmed title /\
          Str.startswith "Project Gutenberg" title = false
      | None => title = IndexSpec.fallback_title stem title_case file_path
      end
  end.
Proof.
  intros title author found.
  assert (Hf : found = metadata_dict title author (IndexSpec.line_count readlines file_path))
    by apply IndexFacts.extractWorkMetadata_dict.
  split; [exact Hf|].
  split; [rewrite Hf; intros v; rewrite IndexFacts.metadata_dict_title; intros [= <-]; eauto|].
  split; [rewrite Hf; intros v; rewrite IndexFacts.metadata_dict_author; intros [= <-]; eauto|].
  split.
  { subst author. unfold IndexSpec.detected_author.
    destruct (readlines file_path); [apply IndexFacts.first_author_trimmed|reflexivity]. }
  rewrite Hf. subst title author.
  unfold IndexSpec.detected_title, IndexSpec.detected_author, IndexSpec.line_count.
  destruct (readlines file_path) as [lines|]; [|reflexivity].
  split.
  { unfold metadata_dict. rewrite !list_to_map_cons.
    rewrite !lookup_insert_ne by discriminate. apply lookup_insert_eq. }
  unfold IndexSpec.first_title.
  destruct (find IndexSpec.title_line (firstn 10 lines)) as [line|] eqn:E; [|reflexivity].
  apply find_some in E as [_ Ht].
  pose proof (IndexFacts.title_line_truthy _ Ht) as Htr. rewrite Htr.
  split; [reflexivity|]. split; [now destruct (Str.strip line)|].
  split; [apply StripFacts.strip_trimmed|].
  unfold IndexSpec.title_line in Ht.
  apply andb_true_iff in Ht as [Ht _]. apply andb_true_iff in Ht as [_ Ht].
  now apply negb_true_iff in Ht.
Qed.

